(** * dhammer: the DHCPv4 handler (handler/dhcpv4.go)

    A shallow embedding of [HandlerDhcpV4]: the bounded input queue, the
    body of the [Run] loop (reply classification, REQUEST/DECLINE and
    RELEASE/INFORM synthesis on the long-lived layer templates, lease
    bookkeeping), the ARP defender and [DeInit].

    Conventions.
    - A Go byte is a [Byte.byte]; [net.IP], [net.HardwareAddr] and option
      payloads are byte lists (a nil slice and an empty slice are both [[]]).
    - Wider machine integers are [Z]; conversions that truncate are written
      out with [mod].
    - A run-time panic is the [Panic] outcome of the [M] monad.
    - Calls to collaborators (statistics, transmission, error sink, netlink)
      are recorded, in order, in the [trace] of the run state; what the
      call returns to the handler comes from the environment [Env].
    - The bytes handed to [sendPayload] are represented by the layer stack
      that was handed to [gopacket.SerializeLayers], as it stood at that
      moment. What gopacket itself fills in while serializing (lengths and
      checksums, under FixLengths and ComputeChecksums) is not part of the
      model; nor is a serialization error, which the handler ignores.
    - [Run] is the only reader of the input queue and the only writer of
      the lease table and the templates; it is modelled on the list of
      messages it dequeues, [ReceiveMessage] on the queue alone. *)

From Stdlib Require Import ZArith List Bool Lia.
From Stdlib Require Import Strings.Byte Strings.Ascii.
From stdpp Require Import base option list strings gmap pretty.

Open Scope Z_scope.

(** ** Go values *)

Definition IP := list byte.
Definition HardwareAddr := list byte.
Definition Timestamp := Z.
Definition error := string.

(** [net.IPv4(a, b, c, d)]: the 16-byte form with the IPv4-in-IPv6 prefix. *)
Definition v4InV6Prefix : list byte :=
  [x00; x00; x00; x00; x00; x00; x00; x00; x00; x00; xff; xff].

Definition net_IPv4 (a b c d : byte) : IP := v4InV6Prefix ++ [a; b; c; d].

(** The ways the handler's code can panic. *)
Inductive GoPanic :=
| IndexOutOfRange
| NilInterfaceConversion
| SendOnClosedChannel.

Inductive Result (A : Type) :=
| Ok (a : A)
| Panic (why : GoPanic).
Arguments Ok {A} a.
Arguments Panic {A} why.

(** ** gopacket layers (the fields the handler reads or writes) *)

Module layers.

(** [layers.DHCPOpt] is a byte. *)
Definition DHCPOptPad : byte := x00.
Definition DHCPOptRequestIP : byte := x32.   (* 50 *)
Definition DHCPOptMessageType : byte := x35. (* 53 *)
Definition DHCPOptServerID : byte := x36.    (* 54 *)
Definition DHCPOptEnd : byte := xff.         (* 255 *)

(** [layers.DHCPMsgType] is a byte. *)
Definition DHCPMsgTypeOffer : byte := x02.
Definition DHCPMsgTypeRequest : byte := x03.
Definition DHCPMsgTypeDecline : byte := x04.
Definition DHCPMsgTypeAck : byte := x05.
Definition DHCPMsgTypeNak : byte := x06.
Definition DHCPMsgTypeRelease : byte := x07.
Definition DHCPMsgTypeInform : byte := x08.

Definition DHCPOpRequest : Z := 1.
Definition LinkTypeEthernet : Z := 1.
Definition EthernetTypeIPv4 : Z := 0x0800.
Definition EthernetTypeARP : Z := 0x0806.
Definition ARPRequest : Z := 1.
Definition ARPReply : Z := 2.

Definition EthernetBroadcast : HardwareAddr := [xff; xff; xff; xff; xff; xff].

Record DHCPOption := {
  opt_Type : byte;
  opt_Length : Z;
  opt_Data : list byte;
}.

(** The zero value of [DHCPOption]: what [make] and a fresh array hold. *)
Definition zeroOption : DHCPOption :=
  {| opt_Type := x00; opt_Length := 0; opt_Data := [] |}.

(** [layers.NewDHCPOption]: the length is [uint8(len(data))]. *)
Definition NewDHCPOption (t : byte) (data : list byte) : DHCPOption :=
  {| opt_Type := t;
     opt_Length := Z.of_nat (length data) mod 256;
     opt_Data := data |}.

Record Ethernet := {
  eth_SrcMAC : HardwareAddr;
  eth_DstMAC : HardwareAddr;
  eth_EthernetType : Z;
  eth_Length : Z;
}.

Record IPv4 := {
  ip_Version : Z;
  ip_TTL : Z;
  ip_Protocol : Z;
  ip_SrcIP : IP;
  ip_DstIP : IP;
}.

(** [udp_pseudoheader] is the network layer registered with
    [SetNetworkLayerForChecksum]; the checksum of the serialized UDP
    header is computed over its addresses. *)
Record UDP := {
  udp_SrcPort : Z;
  udp_DstPort : Z;
  udp_pseudoheader : option IPv4;
}.

Record DHCPv4 := {
  dhcp_Operation : Z;
  dhcp_HardwareType : Z;
  dhcp_HardwareLen : Z;
  dhcp_Xid : Z;
  dhcp_Flags : Z;
  dhcp_ClientIP : IP;
  dhcp_YourClientIP : IP;
  dhcp_NextServerIP : IP;
  dhcp_RelayAgentIP : IP;
  dhcp_ClientHWAddr : HardwareAddr;
  dhcp_Options : list DHCPOption;
}.

Record ARP := {
  arp_AddrType : Z;
  arp_Protocol : Z;
  arp_HwAddressSize : Z;
  arp_ProtAddressSize : Z;
  arp_Operation : Z;
  arp_SourceHwAddress : list byte;
  arp_SourceProtAddress : list byte;
  arp_DstHwAddress : list byte;
  arp_DstProtAddress : list byte;
}.

Inductive Layer :=
| LEthernet (e : Ethernet)
| LIPv4 (i : IPv4)
| LUDP (u : UDP)
| LDHCPv4 (d : DHCPv4)
| LARP (a : ARP).

(** Field updates, as the handler assigns them on the shared template. *)
Definition set_Xid (x : Z) (d : DHCPv4) : DHCPv4 :=
  {| dhcp_Operation := dhcp_Operation d; dhcp_HardwareType := dhcp_HardwareType d;
     dhcp_HardwareLen := dhcp_HardwareLen d; dhcp_Xid := x;
     dhcp_Flags := dhcp_Flags d; dhcp_ClientIP := dhcp_ClientIP d;
     dhcp_YourClientIP := dhcp_YourClientIP d; dhcp_NextServerIP := dhcp_NextServerIP d;
     dhcp_RelayAgentIP := dhcp_RelayAgentIP d; dhcp_ClientHWAddr := dhcp_ClientHWAddr d;
     dhcp_Options := dhcp_Options d |}.

Definition set_Flags (f : Z) (d : DHCPv4) : DHCPv4 :=
  {| dhcp_Operation := dhcp_Operation d; dhcp_HardwareType := dhcp_HardwareType d;
     dhcp_HardwareLen := dhcp_HardwareLen d; dhcp_Xid := dhcp_Xid d;
     dhcp_Flags := f; dhcp_ClientIP := dhcp_ClientIP d;
     dhcp_YourClientIP := dhcp_YourClientIP d; dhcp_NextServerIP := dhcp_NextServerIP d;
     dhcp_RelayAgentIP := dhcp_RelayAgentIP d; dhcp_ClientHWAddr := dhcp_ClientHWAddr d;
     dhcp_Options := dhcp_Options d |}.

Definition set_ClientIP (a : IP) (d : DHCPv4) : DHCPv4 :=
  {| dhcp_Operation := dhcp_Operation d; dhcp_HardwareType := dhcp_HardwareType d;
     dhcp_HardwareLen := dhcp_HardwareLen d; dhcp_Xid := dhcp_Xid d;
     dhcp_Flags := dhcp_Flags d; dhcp_ClientIP := a;
     dhcp_YourClientIP := dhcp_YourClientIP d; dhcp_NextServerIP := dhcp_NextServerIP d;
     dhcp_RelayAgentIP := dhcp_RelayAgentIP d; dhcp_ClientHWAddr := dhcp_ClientHWAddr d;
     dhcp_Options := dhcp_Options d |}.

Definition set_RelayAgentIP (a : IP) (d : DHCPv4) : DHCPv4 :=
  {| dhcp_Operation := dhcp_Operation d; dhcp_HardwareType := dhcp_HardwareType d;
     dhcp_HardwareLen := dhcp_HardwareLen d; dhcp_Xid := dhcp_Xid d;
     dhcp_Flags := dhcp_Flags d; dhcp_ClientIP := dhcp_ClientIP d;
     dhcp_YourClientIP := dhcp_YourClientIP d; dhcp_NextServerIP := dhcp_NextServerIP d;
     dhcp_RelayAgentIP := a; dhcp_ClientHWAddr := dhcp_ClientHWAddr d;
     dhcp_Options := dhcp_Options d |}.

Definition set_ClientHWAddr (a : HardwareAddr) (d : DHCPv4) : DHCPv4 :=
  {| dhcp_Operation := dhcp_Operation d; dhcp_HardwareType := dhcp_HardwareType d;
     dhcp_HardwareLen := dhcp_HardwareLen d; dhcp_Xid := dhcp_Xid d;
     dhcp_Flags := dhcp_Flags d; dhcp_ClientIP := dhcp_ClientIP d;
     dhcp_YourClientIP := dhcp_YourClientIP d; dhcp_NextServerIP := dhcp_NextServerIP d;
     dhcp_RelayAgentIP := dhcp_RelayAgentIP d; dhcp_ClientHWAddr := a;
     dhcp_Options := dhcp_Options d |}.

Definition set_Options (o : list DHCPOption) (d : DHCPv4) : DHCPv4 :=
  {| dhcp_Operation := dhcp_Operation d; dhcp_HardwareType := dhcp_HardwareType d;
     dhcp_HardwareLen := dhcp_HardwareLen d; dhcp_Xid := dhcp_Xid d;
     dhcp_Flags := dhcp_Flags d; dhcp_ClientIP := dhcp_ClientIP d;
     dhcp_YourClientIP := dhcp_YourClientIP d; dhcp_NextServerIP := dhcp_NextServerIP d;
     dhcp_RelayAgentIP := dhcp_RelayAgentIP d; dhcp_ClientHWAddr := dhcp_ClientHWAddr d;
     dhcp_Options := o |}.

Definition set_pseudoheader (i : IPv4) (u : UDP) : UDP :=
  {| udp_SrcPort := udp_SrcPort u; udp_DstPort := udp_DstPort u;
     udp_pseudoheader := Some i |}.

End layers.
Import layers.

(** ** gopacket.Packet: the decoded layers of a received frame *)

Definition Packet := list Layer.

(** [p.Layer(t)] returns the first layer of type [t], or nil. *)
Fixpoint Layer_Ethernet (p : Packet) : option Ethernet :=
  match p with
  | [] => None
  | LEthernet e :: _ => Some e
  | _ :: q => Layer_Ethernet q
  end.

Fixpoint Layer_IPv4 (p : Packet) : option IPv4 :=
  match p with
  | [] => None
  | LIPv4 i :: _ => Some i
  | _ :: q => Layer_IPv4 q
  end.

Fixpoint Layer_ARP (p : Packet) : option ARP :=
  match p with
  | [] => None
  | LARP a :: _ => Some a
  | _ :: q => Layer_ARP q
  end.

Fixpoint Layer_DHCPv4 (p : Packet) : option DHCPv4 :=
  match p with
  | [] => None
  | LDHCPv4 d :: _ => Some d
  | _ :: q => Layer_DHCPv4 q
  end.

(** Modelled from the spec: [message.Message] is declared outside the
    handler package; the handler only reads its [Packet]. *)
Record Message := { msg_Packet : Packet }.

(** Modelled from the spec: [config.DhcpV4Options] is declared outside the
    handler package; these are the options the handler reads. *)
Record DhcpV4Options := {
  Handshake : bool;
  DhcpBroadcast : bool;
  EthernetBroadcast_opt : bool;
  DhcpRelease : bool;
  DhcpInfo : bool;
  DhcpDecline : bool;
  DhcpRelay : bool;
  RelaySourceIP : IP;
  RelayGatewayIP : IP;
  RelayTargetServerIP : IP;
  TargetPort : Z;
  Arp : bool;
  ArpFakeMAC : bool;
  Bind : bool;
}.

(** Modelled from the spec: the [stats.StatValue] constants the handler
    records (package [stats] is outside the handler package). *)
Inductive StatValue :=
| ArpRequestReceivedStat
| ArpReplySentStat
| OfferReceivedStat
| RequestSentStat
| DeclineSentStat
| AckReceivedStat
| NakReceivedStat
| ReleaseSentStat
| InfoSentStat.

(** [netlink.Addr]: the parsed network ([*net.IPNet]) and the label. *)
Record Addr := {
  addr_IP : IP;
  addr_Mask : list byte;
  addr_Label : string;
}.

(** The Go standard library and netlink functions the handler calls on
    values: [net.IP.String] and [netlink.ParseAddr]. *)
Class NetLib := {
  IP_String : IP -> string;
  ParseAddr : string -> Addr + error;
}.

(** ** Handler state *)

Record LeaseDhcpV4 := {
  lease_Packet : Packet;
  lease_LinkAddr : option Addr;   (* *netlink.Addr, nil until bound *)
  lease_Acquired : Timestamp;
  lease_HwAddr : HardwareAddr;
}.

(** A buffered Go channel. *)
Record Chan (A : Type) := {
  ch_buf : list A;
  ch_cap : Z;
  ch_closed : bool;
}.
Arguments ch_buf {A} c.
Arguments ch_cap {A} c.
Arguments ch_closed {A} c.

Definition make_chan {A : Type} (cap : Z) : Chan A :=
  {| ch_buf := []; ch_cap := cap; ch_closed := false |}.

(** [select { case c <- x: return true; default: } return false].
    The send is ready when the buffer has room; a send on a closed
    channel panics, inside a select too. *)
Definition trySend {A : Type} (c : Chan A) (x : A) : Result (Chan A * bool) :=
  if ch_closed c then Panic SendOnClosedChannel
  else if Z.of_nat (length (ch_buf c)) <? ch_cap c
       then Ok ({| ch_buf := ch_buf c ++ [x]; ch_cap := ch_cap c;
                   ch_closed := false |}, true)
       else Ok (c, false).

(** What a [range] over the channel does for one iteration on the
    consumer side: take the oldest element, if any. *)
Definition tryRecv {A : Type} (c : Chan A) : option (A * Chan A) :=
  match ch_buf c with
  | [] => None
  | x :: rest => Some (x, {| ch_buf := rest; ch_cap := ch_cap c;
                             ch_closed := ch_closed c |})
  end.

Definition close {A : Type} (c : Chan A) : Chan A :=
  {| ch_buf := ch_buf c; ch_cap := ch_cap c; ch_closed := true |}.

Record HandlerDhcpV4 := {
  options : DhcpV4Options;
  GatewayMAC : HardwareAddr;          (* h.socketeer.Options().GatewayMAC *)
  iface_HardwareAddr : HardwareAddr;  (* h.iface.HardwareAddr *)
  acquiredIPs : gmap string LeaseDhcpV4;
  inputChannel : Chan Message;
}.

Definition set_acquiredIPs (m : gmap string LeaseDhcpV4) (h : HandlerDhcpV4)
  : HandlerDhcpV4 :=
  {| options := options h; GatewayMAC := GatewayMAC h;
     iface_HardwareAddr := iface_HardwareAddr h;
     acquiredIPs := m; inputChannel := inputChannel h |}.

Definition set_inputChannel (c : Chan Message) (h : HandlerDhcpV4)
  : HandlerDhcpV4 :=
  {| options := options h; GatewayMAC := GatewayMAC h;
     iface_HardwareAddr := iface_HardwareAddr h;
     acquiredIPs := acquiredIPs h; inputChannel := c |}.

(** [NewDhcpV4]: an empty lease table and an input queue of capacity
    10000. *)
Definition NewDhcpV4 (o : DhcpV4Options) (gw ifhw : HardwareAddr)
  : HandlerDhcpV4 :=
  {| options := o; GatewayMAC := gw; iface_HardwareAddr := ifhw;
     acquiredIPs := ∅; inputChannel := make_chan 10000 |}.

(** [ReceiveMessage]: a non-blocking send on the input queue. *)
Definition ReceiveMessage (h : HandlerDhcpV4) (msg : Message)
  : Result (HandlerDhcpV4 * bool) :=
  match trySend (inputChannel h) msg with
  | Ok (c, sent) => Ok (set_inputChannel c h, sent)
  | Panic why => Panic why
  end.


(** ** The run state and its monad *)

(** What the environment answers while one message is processed. *)
Record Env := {
  env_now : Timestamp;             (* time.Now() *)
  env_AddrAdd : option error;      (* netlink.AddrAdd: None is a nil error *)
  env_sendPayload : bool;          (* h.sendPayload(...) *)
}.

(** Calls to the collaborators. *)
Inductive Effect :=
| EStat (s : StatValue)            (* h.addStat(s) *)
| ESend (stack : list Layer)       (* h.sendPayload(buf.Bytes()) *)
| EError (e : error)               (* h.addError(e) *)
| EAddrAdd (a : Addr)              (* netlink.AddrAdd(h.link, a) *)
| EAddrDel (a : option Addr).      (* netlink.AddrDel(h.link, a), a may be nil *)

(** The handler together with the local variables of [Run] that live
    across loop iterations, and the calls made so far (oldest first). *)
Record RunState := {
  hdl : HandlerDhcpV4;
  ethernetLayer : Ethernet;
  ipLayer : IPv4;
  udpLayer : UDP;
  outDhcpLayer : DHCPv4;
  trace : list Effect;
}.

Definition M (A : Type) : Type := RunState -> Result (A * RunState).

#[export] Instance M_ret : MRet M := fun A a s => Ok (a, s).

#[export] Instance M_bind : MBind M := fun A B f m s =>
  match m s with
  | Ok (a, s') => f a s'
  | Panic why => Panic why
  end.

Definition gets {A : Type} (f : RunState -> A) : M A := fun s => Ok (f s, s).

Definition modify (f : RunState -> RunState) : M unit := fun s => Ok (tt, f s).

Definition panic {A : Type} (why : GoPanic) : M A := fun _ => Panic why.

Definition record (e : Effect) (s : RunState) : RunState :=
  {| hdl := hdl s; ethernetLayer := ethernetLayer s; ipLayer := ipLayer s;
     udpLayer := udpLayer s; outDhcpLayer := outDhcpLayer s;
     trace := trace s ++ [e] |}.

Definition emit (e : Effect) : M unit := modify (record e).

Definition update_outDhcpLayer (f : DHCPv4 -> DHCPv4) : M unit :=
  modify (fun s =>
    {| hdl := hdl s; ethernetLayer := ethernetLayer s; ipLayer := ipLayer s;
       udpLayer := udpLayer s; outDhcpLayer := f (outDhcpLayer s);
       trace := trace s |}).

Definition update_udpLayer (f : UDP -> UDP) : M unit :=
  modify (fun s =>
    {| hdl := hdl s; ethernetLayer := ethernetLayer s; ipLayer := ipLayer s;
       udpLayer := f (udpLayer s); outDhcpLayer := outDhcpLayer s;
       trace := trace s |}).

Definition update_acquiredIPs
  (f : gmap string LeaseDhcpV4 -> gmap string LeaseDhcpV4) : M unit :=
  modify (fun s =>
    {| hdl := set_acquiredIPs (f (acquiredIPs (hdl s))) (hdl s);
       ethernetLayer := ethernetLayer s; ipLayer := ipLayer s;
       udpLayer := udpLayer s; outDhcpLayer := outDhcpLayer s;
       trace := trace s |}).

(** A type assertion without the comma-ok form: panics on a nil
    interface, which is what [Packet.Layer] returns for an absent layer. *)
Definition assertLayer {A : Type} (l : option A) : M A :=
  match l with
  | Some a => mret a
  | None => panic NilInterfaceConversion
  end.

(** [data[0]]. *)
Definition index0 (data : list byte) : M byte :=
  match data with
  | b :: _ => mret b
  | [] => panic IndexOutOfRange
  end.

(** [opts[0]] on an option list. *)
Definition firstOption (opts : list DHCPOption) : M DHCPOption :=
  match opts with
  | o :: _ => mret o
  | [] => panic IndexOutOfRange
  end.

Definition addStat (s : StatValue) : M unit := emit (EStat s).
Definition addError (e : error) : M unit := emit (EError e).

(** [h.sendPayload(buf.Bytes())], where [buf] is what
    [gopacket.SerializeLayers] made of [stack]. *)
Definition sendPayload (env : Env) (stack : list Layer) : M bool :=
  emit (ESend stack);; mret (env_sendPayload env).

Definition when (b : bool) (m : M unit) : M unit := if b then m else mret tt.

(** ** The reply option table *)

(** [var replyOptions [256]layers.DHCPOption], filled by
    [replyOptions[option.Type] = option] for each option in order. *)
Definition replyOptionsOf (opts : list DHCPOption) : list DHCPOption :=
  foldl (fun tbl option => <[Byte.to_nat (opt_Type option) := option]> tbl)
        (replicate 256 zeroOption) opts.

(** [replyOptions[code]]; the index is a byte, always in range. *)
Definition optionAt (tbl : list DHCPOption) (code : byte) : DHCPOption :=
  default zeroOption (tbl !! Byte.to_nat code).

Definition set_LinkAddr (a : Addr) (l : LeaseDhcpV4) : LeaseDhcpV4 :=
  {| lease_Packet := lease_Packet l; lease_LinkAddr := Some a;
     lease_Acquired := lease_Acquired l; lease_HwAddr := lease_HwAddr l |}.

Section Handler.
Context `{NetLib}.

(** ** [Run]: the templates built before the loop (lines 105-151) *)

Definition init_ethernetLayer (h : HandlerDhcpV4) : Ethernet :=
  {| eth_DstMAC :=
       if DhcpRelay (options h) then GatewayMAC h
       else if negb (EthernetBroadcast_opt (options h)) then GatewayMAC h
       else EthernetBroadcast;
     eth_SrcMAC := iface_HardwareAddr h;
     eth_EthernetType := EthernetTypeIPv4;
     eth_Length := 0 |}.

Definition init_ipLayer (h : HandlerDhcpV4) : IPv4 :=
  {| ip_Version := 4; ip_TTL := 64; ip_Protocol := 17;
     ip_SrcIP := if DhcpRelay (options h) then RelaySourceIP (options h)
                 else net_IPv4 x00 x00 x00 x00;
     ip_DstIP := if DhcpRelay (options h) then RelayTargetServerIP (options h)
                 else net_IPv4 xff xff xff xff |}.

(** [layers.UDPPort(h.options.TargetPort)] converts an int to uint16. *)
Definition init_udpLayer (h : HandlerDhcpV4) : UDP :=
  {| udp_SrcPort := if DhcpRelay (options h) then 67 else 68;
     udp_DstPort := TargetPort (options h) mod 65536;
     udp_pseudoheader := None |}.

Definition init_outDhcpLayer (h : HandlerDhcpV4) : DHCPv4 :=
  {| dhcp_Operation := DHCPOpRequest;
     dhcp_HardwareType := LinkTypeEthernet;
     dhcp_HardwareLen := 6;
     dhcp_Xid := 0;
     dhcp_Flags := if negb (DhcpBroadcast (options h)) then 0x0 else 0x8000;
     dhcp_ClientIP := [];
     dhcp_YourClientIP := [];
     dhcp_NextServerIP := [];
     dhcp_RelayAgentIP :=
       if DhcpRelay (options h) then RelayGatewayIP (options h) else [];
     dhcp_ClientHWAddr := [];
     dhcp_Options := [] |}.

Definition initRunState (h : HandlerDhcpV4) : RunState :=
  {| hdl := h;
     ethernetLayer := init_ethernetLayer h;
     ipLayer := init_ipLayer h;
     udpLayer := init_udpLayer h;
     outDhcpLayer := init_outDhcpLayer h;
     trace := [] |}.

(** [outDhcpLayer.Options[i] = o]. *)
Definition assign_Option (i : nat) (o : DHCPOption) : M unit :=
  update_outDhcpLayer (fun d => set_Options (<[i := o]> (dhcp_Options d)) d).

(** [udpLayer.SetNetworkLayerForChecksum(ipLayer)]: always the
    long-lived [ipLayer] of [Run]. *)
Definition SetNetworkLayerForChecksum_ipLayer : M unit :=
  ip ← gets ipLayer;
  update_udpLayer (set_pseudoheader ip).

(** ** [handleARP] (lines 328-371) *)
Definition handleARP (h : HandlerDhcpV4) (env : Env) (msg : Message)
    : M unit :=
  arpRequest ← assertLayer (Layer_ARP (msg_Packet msg));
  if arp_Operation arpRequest =? ARPRequest then
    match acquiredIPs h !! IP_String (arp_DstProtAddress arpRequest) with
    | Some lease =>
        let ethernetLayer :=
          {| eth_DstMAC := arp_SourceHwAddress arpRequest;
             eth_SrcMAC := iface_HardwareAddr h;
             eth_EthernetType := EthernetTypeARP;
             eth_Length := 0 |} in
        let arpLayer :=
          {| arp_Operation := ARPReply;
             arp_DstHwAddress := arp_SourceHwAddress arpRequest;
             arp_DstProtAddress := arp_SourceProtAddress arpRequest;
             arp_HwAddressSize := arp_HwAddressSize arpRequest;
             arp_AddrType := arp_AddrType arpRequest;
             arp_ProtAddressSize := arp_ProtAddressSize arpRequest;
             arp_Protocol := arp_Protocol arpRequest;
             arp_SourceHwAddress :=
               if ArpFakeMAC (options h) then lease_HwAddr lease
               else iface_HardwareAddr h;
             arp_SourceProtAddress := arp_DstProtAddress arpRequest |} in
        sent ← sendPayload env [LEthernet ethernetLayer; LARP arpLayer];
        when sent (addStat ArpReplySentStat)
    | None => mret tt
    end
  else mret tt.

(** ** The OFFER branch (lines 177-217) *)
Definition onOffer (h : HandlerDhcpV4) (env : Env) (dhcpReply : DHCPv4)
    (replyOptions : list DHCPOption) : M unit :=
  addStat OfferReceivedStat;;
  when (Handshake (options h)) (
    update_outDhcpLayer (set_Xid (dhcp_Xid dhcpReply));;
    update_outDhcpLayer (set_Options (replicate 4 zeroOption));;
    assign_Option 0 (NewDHCPOption DHCPOptMessageType
      [if DhcpDecline (options h) then DHCPMsgTypeDecline
       else DHCPMsgTypeRequest]);;
    assign_Option 1 (NewDHCPOption DHCPOptRequestIP
      (dhcp_YourClientIP dhcpReply));;
    assign_Option 2 (NewDHCPOption DHCPOptServerID
      (opt_Data (optionAt replyOptions DHCPOptServerID)));;
    assign_Option 3 (NewDHCPOption DHCPOptEnd []);;
    update_outDhcpLayer (set_ClientHWAddr (dhcp_ClientHWAddr dhcpReply));;
    SetNetworkLayerForChecksum_ipLayer;;
    buf ← gets (fun s => [LEthernet (ethernetLayer s); LIPv4 (ipLayer s);
                          LUDP (udpLayer s); LDHCPv4 (outDhcpLayer s)]);
    sent ← sendPayload env buf;
    when sent (addStat (if DhcpDecline (options h) then DeclineSentStat
                        else RequestSentStat))).

(** ** The ACK branch: lease bookkeeping (lines 222-246) *)
Definition onAckLease (h : HandlerDhcpV4) (env : Env) (msg : Message)
    (dhcpReply : DHCPv4) : M unit :=
  when (Arp (options h) || Bind (options h)) (
    let ipStr := IP_String (dhcp_YourClientIP dhcpReply) in
    match acquiredIPs h !! ipStr with
    | Some _ => mret tt
    | None =>
        update_acquiredIPs (insert ipStr
          {| lease_Packet := msg_Packet msg;
             lease_LinkAddr := None;
             lease_Acquired := env_now env;
             lease_HwAddr := dhcp_ClientHWAddr dhcpReply |});;
        when (Bind (options h)) (
          match ParseAddr (ipStr +:+ "/32") with
          | inr err => addError err
          | inl addr =>
              emit (EAddrAdd addr);;
              match env_AddrAdd env with
              | Some err => addError err
              | None => update_acquiredIPs (alter (set_LinkAddr addr) ipStr)
              end
          end)
    end).

(** ** The ACK branch: RELEASE/INFORM synthesis (lines 248-318) *)
Definition onAckRelease (h : HandlerDhcpV4) (env : Env) (msg : Message)
    (dhcpReply : DHCPv4) : M unit :=
  when (DhcpRelease (options h) || DhcpInfo (options h)) (
    update_outDhcpLayer (set_Xid (dhcp_Xid dhcpReply));;
    dhcpReplyEtherFrame ← assertLayer (Layer_Ethernet (msg_Packet msg));
    dhcpReplyIpHeader ← assertLayer (Layer_IPv4 (msg_Packet msg));
    let releaseEthernetLayer :=
      {| eth_DstMAC := eth_SrcMAC dhcpReplyEtherFrame;
         eth_SrcMAC := iface_HardwareAddr h;
         eth_EthernetType := EthernetTypeIPv4;
         eth_Length := 0 |} in
    let releaseIpLayer :=
      {| ip_Version := 4; ip_TTL := 64; ip_Protocol := 17;
         ip_SrcIP := dhcp_YourClientIP dhcpReply;
         ip_DstIP := ip_SrcIP dhcpReplyIpHeader |} in
    previousClientIP ← gets (fun s => dhcp_ClientIP (outDhcpLayer s));
    update_outDhcpLayer (set_ClientIP (dhcp_YourClientIP dhcpReply));;
    update_outDhcpLayer (set_Options (replicate 2 zeroOption));;
    previousFlags ← gets (fun s => dhcp_Flags (outDhcpLayer s));
    update_outDhcpLayer (set_Flags 0x0);;
    assign_Option 0 (NewDHCPOption DHCPOptMessageType
      [if DhcpInfo (options h) then DHCPMsgTypeInform
       else DHCPMsgTypeRelease]);;
    assign_Option 1 (NewDHCPOption DHCPOptEnd []);;
    update_outDhcpLayer (set_ClientHWAddr (dhcp_ClientHWAddr dhcpReply));;
    SetNetworkLayerForChecksum_ipLayer;;
    buf ← gets (fun s => [LEthernet releaseEthernetLayer;
                          LIPv4 releaseIpLayer;
                          LUDP (udpLayer s); LDHCPv4 (outDhcpLayer s)]);
    update_outDhcpLayer (set_ClientIP previousClientIP);;
    update_outDhcpLayer (set_Flags previousFlags);;
    sent ← sendPayload env buf;
    when sent (addStat (if DhcpInfo (options h) then InfoSentStat
                        else ReleaseSentStat))).

(** ** One iteration of the [Run] loop (lines 155-323)

    The branches take [h] as it stands when the iteration starts: they
    read its options and interface, and the lease table before the
    iteration's own insertion. *)
Definition processMessage (env : Env) (msg : Message) : M unit :=
  h ← gets hdl;
  if Arp (options h) && bool_decide (is_Some (Layer_ARP (msg_Packet msg)))
  then
    addStat ArpRequestReceivedStat;;
    handleARP h env msg
  else
    match Layer_DHCPv4 (msg_Packet msg) with
    | None => mret tt
    | Some dhcpReply =>
        let replyOptions := replyOptionsOf (dhcp_Options dhcpReply) in
        replyMsgType ← index0 (opt_Data (optionAt replyOptions DHCPOptMessageType));
        if Byte.eqb replyMsgType DHCPMsgTypeOffer then
          onOffer h env dhcpReply replyOptions
        else if Byte.eqb replyMsgType DHCPMsgTypeAck then
          addStat AckReceivedStat;;
          onAckLease h env msg dhcpReply;;
          onAckRelease h env msg dhcpReply
        else
          first ← firstOption (dhcp_Options dhcpReply);
          firstByte ← index0 (opt_Data first);
          when (Byte.eqb firstByte DHCPMsgTypeNak) (addStat NakReceivedStat)
    end.

(** [for msg = range h.inputChannel]: the messages in the order they
    were dequeued, each with what the environment answered. *)
Fixpoint runLoop (inputs : list (Env * Message)) : M unit :=
  match inputs with
  | [] => mret tt
  | (env, msg) :: rest => processMessage env msg;; runLoop rest
  end.

(** [Run] on the messages dequeued until the queue was closed. *)
Definition Run (h : HandlerDhcpV4) (inputs : list (Env * Message))
  : Result (unit * RunState) :=
  runLoop inputs (initRunState h).

(** ** [DeInit] (lines 81-92) *)

(** The body of the [range] loop for one lease; [addrDel] is what
    [netlink.AddrDel] answers. *)
Definition delLease (addrDel : option Addr -> option error)
    (lease : LeaseDhcpV4) : M unit :=
  emit (EAddrDel (lease_LinkAddr lease));;
  match addrDel (lease_LinkAddr lease) with
  | Some err => addError err
  | None => mret tt
  end.

Fixpoint forLeases (body : LeaseDhcpV4 -> M unit)
    (leases : list (string * LeaseDhcpV4)) : M unit :=
  match leases with
  | [] => mret tt
  | (_, lease) :: rest => body lease;; forLeases body rest
  end.

(** The iteration order of a Go map is unspecified; the model takes the
    order of [map_to_list]. *)
Definition DeInit (addrDel : option Addr -> option error) : M unit :=
  h ← gets hdl;
  when (Bind (options h))
    (forLeases (delLease addrDel) (map_to_list (acquiredIPs h))).

End Handler.

(** ** Reading a trace *)

Definition sentPayloads (t : list Effect) : list (list Layer) :=
  omap (fun e => match e with ESend stack => Some stack | _ => None end) t.

Definition recordedStats (t : list Effect) : list StatValue :=
  omap (fun e => match e with EStat s => Some s | _ => None end) t.

Definition addrAdds (t : list Effect) : list Addr :=
  omap (fun e => match e with EAddrAdd a => Some a | _ => None end) t.

Definition addrDels (t : list Effect) : list (option Addr) :=
  omap (fun e => match e with EAddrDel a => Some a | _ => None end) t.

(** ** Classification of a reply, as the if-chain of [Run] decides it *)

Inductive ReplyClass := ClassOffer | ClassAck | ClassNak | ClassOther.

(** [replyOptions[layers.DHCPOptMessageType].Data[0]]; [None] when the
    index is out of range. *)
Definition replyMsgTypeOf (dhcpReply : DHCPv4) : option byte :=
  head (opt_Data (optionAt (replyOptionsOf (dhcp_Options dhcpReply))
                           DHCPOptMessageType)).

(** [dhcpReply.Options[0].Data[0]]; [None] when an index is out of range. *)
Definition firstOptionByteOf (dhcpReply : DHCPv4) : option byte :=
  match dhcp_Options dhcpReply with
  | [] => None
  | first :: _ => head (opt_Data first)
  end.

(** [None] stands for a panic while classifying. *)
Definition replyClassOf (dhcpReply : DHCPv4) : option ReplyClass :=
  match replyMsgTypeOf dhcpReply with
  | None => None
  | Some replyMsgType =>
      if Byte.eqb replyMsgType DHCPMsgTypeOffer then Some ClassOffer
      else if Byte.eqb replyMsgType DHCPMsgTypeAck then Some ClassAck
      else match firstOptionByteOf dhcpReply with
           | None => None
           | Some b => if Byte.eqb b DHCPMsgTypeNak then Some ClassNak
                       else Some ClassOther
           end
  end.

(** The first test of the loop body: the message goes to [handleARP]. *)
Definition dispatchedToARP (o : DhcpV4Options) (msg : Message) : bool :=
  Arp o && bool_decide (is_Some (Layer_ARP (msg_Packet msg))).

(** The message reaches the classification with DHCP layer [dhcpReply]. *)
Definition dhcpReplyOf (o : DhcpV4Options) (msg : Message) : option DHCPv4 :=
  if dispatchedToARP o msg then None else Layer_DHCPv4 (msg_Packet msg).

#[export] Instance byte_eq_decision : EqDecision byte := Byte.byte_eq_dec.

(** The option of code [code] that the table of a reply ends up with:
    the last one in the reply's list. *)
Definition lastOptionOf (code : byte) (opts : list DHCPOption)
  : option DHCPOption :=
  last (filter (fun o => opt_Type o = code) opts).

(** A received ACK for [ip] that the ACK branch can process: when a
    RELEASE or INFORM is to be synthesized the frame has the Ethernet and
    IPv4 layers the branch asserts. *)
Definition ackFor (o : DhcpV4Options) (ip : IP) (msg : Message) : Prop :=
  exists ack,
    dhcpReplyOf o msg = Some ack /\
    replyClassOf ack = Some ClassAck /\
    dhcp_YourClientIP ack = ip /\
    (DhcpRelease o || DhcpInfo o = true ->
     is_Some (Layer_Ethernet (msg_Packet msg)) /\
     is_Some (Layer_IPv4 (msg_Packet msg))).

(** ** A concrete [NetLib] for closed examples

    [net.IP.String] on the addresses gopacket's DHCPv4 and ARP decoders
    produce for IPv4 (nil and 4-byte slices; any other length is shown
    here in the "?hex" form Go uses for lengths other than 4 and 16), and
    [netlink.ParseAddr] on the only form the handler passes to it, a
    dotted quad followed by "/32". *)
Module GoNet.

Definition decimal (b : byte) : string := pretty (Byte.to_N b).

Definition hexDigit (n : N) : string :=
  match n with
  | 0%N => "0" | 1%N => "1" | 2%N => "2" | 3%N => "3" | 4%N => "4"
  | 5%N => "5" | 6%N => "6" | 7%N => "7" | 8%N => "8" | 9%N => "9"
  | 10%N => "a" | 11%N => "b" | 12%N => "c" | 13%N => "d" | 14%N => "e"
  | _ => "f"
  end.

Fixpoint hexString (bs : list byte) : string :=
  match bs with
  | [] => ""
  | b :: rest =>
      hexDigit (Byte.to_N b / 16) +:+ hexDigit (Byte.to_N b mod 16)
      +:+ hexString rest
  end.

Definition ipString (ip : IP) : string :=
  match ip with
  | [] => "<nil>"
  | [a; b; c; d] =>
      decimal a +:+ "." +:+ decimal b +:+ "." +:+ decimal c +:+ "."
      +:+ decimal d
  | _ => "?" +:+ hexString ip
  end.

Fixpoint splitOn (sep : Ascii.ascii) (s : string) : list string :=
  match s with
  | EmptyString => [EmptyString]
  | String.String c rest =>
      if Ascii.eqb c sep then EmptyString :: splitOn sep rest
      else match splitOn sep rest with
           | [] => [String.String c EmptyString]
           | w :: ws => String.String c w :: ws
           end
  end.

Fixpoint decimalValue (acc : N) (s : string) : option N :=
  match s with
  | EmptyString => Some acc
  | String.String c rest =>
      let n := Ascii.N_of_ascii c in
      if ((48 <=? n) && (n <=? 57))%N
      then decimalValue (acc * 10 + (n - 48))%N rest
      else None
  end.

Definition octet (s : string) : option byte :=
  match s with
  | EmptyString => None
  | _ => n ← decimalValue 0%N s; Byte.of_N n
  end.

Definition parseAddr (s : string) : Addr + error :=
  match splitOn "/"%char s with
  | [quad; "32"%string] =>
      match octet <$> splitOn "."%char quad with
      | [Some a; Some b; Some c; Some d] =>
          inl {| addr_IP := net_IPv4 a b c d;
                 addr_Mask := [xff; xff; xff; xff];
                 addr_Label := "" |}
      | _ => inr ("invalid CIDR address: " +:+ s)
      end
  | _ => inr ("invalid CIDR address: " +:+ s)
  end.

Definition lib : NetLib := {| IP_String := ipString; ParseAddr := parseAddr |}.

End GoNet.

(** ** Definitions used to state the properties *)

(** The packet the ACK branch serializes, as a function of the handler,
    of the templates as they stand when the iteration starts and of the
    layers of the ACK. *)
Definition releaseStack (h : HandlerDhcpV4) (tplIp : IPv4) (tplUdp : UDP)
    (tplDhcp ack : DHCPv4) (eth : Ethernet) (iph : IPv4) : list Layer :=
  [LEthernet {| eth_DstMAC := eth_SrcMAC eth;
                eth_SrcMAC := iface_HardwareAddr h;
                eth_EthernetType := EthernetTypeIPv4;
                eth_Length := 0 |};
   LIPv4 {| ip_Version := 4; ip_TTL := 64; ip_Protocol := 17;
            ip_SrcIP := dhcp_YourClientIP ack;
            ip_DstIP := ip_SrcIP iph |};
   LUDP {| udp_SrcPort := udp_SrcPort tplUdp;
           udp_DstPort := udp_DstPort tplUdp;
           udp_pseudoheader := Some tplIp |};
   LDHCPv4 {| dhcp_Operation := dhcp_Operation tplDhcp;
              dhcp_HardwareType := dhcp_HardwareType tplDhcp;
              dhcp_HardwareLen := dhcp_HardwareLen tplDhcp;
              dhcp_Xid := dhcp_Xid ack;
              dhcp_Flags := 0;
              dhcp_ClientIP := dhcp_YourClientIP ack;
              dhcp_YourClientIP := dhcp_YourClientIP tplDhcp;
              dhcp_NextServerIP := dhcp_NextServerIP tplDhcp;
              dhcp_RelayAgentIP := dhcp_RelayAgentIP tplDhcp;
              dhcp_ClientHWAddr := dhcp_ClientHWAddr ack;
              dhcp_Options :=
                [NewDHCPOption DHCPOptMessageType
                   [if DhcpInfo (options h) then DHCPMsgTypeInform
                    else DHCPMsgTypeRelease];
                 NewDHCPOption DHCPOptEnd []] |}].

(** The parts of the run state the handler never assigns in the loop. *)
Definition fixedPart (st : RunState) :=
  (options (hdl st), GatewayMAC (hdl st), iface_HardwareAddr (hdl st),
   inputChannel (hdl st), ethernetLayer st, ipLayer st,
   udp_SrcPort (udpLayer st), udp_DstPort (udpLayer st)).

(** The fields of the DHCP template the handler never assigns in the
    loop. *)
Definition fixedDhcp (d : DHCPv4) :=
  (dhcp_Operation d, dhcp_HardwareType d, dhcp_HardwareLen d,
   dhcp_YourClientIP d, dhcp_NextServerIP d, dhcp_RelayAgentIP d).

Section Posts.
Context `{NetLib}.

(** What lease bookkeeping does to the state [st1] it starts from:
    it sends nothing, records no statistic, leaves the templates alone,
    and touches the lease table only when the address has no lease
    yet. *)
Definition leasePost (h : HandlerDhcpV4) (env : Env) (msg : Message)
    (ack : DHCPv4) (st1 st2 : RunState) : Prop :=
  fixedPart st2 = fixedPart st1 /\
  udpLayer st2 = udpLayer st1 /\
  outDhcpLayer st2 = outDhcpLayer st1 /\
  sentPayloads (trace st2) = sentPayloads (trace st1) /\
  recordedStats (trace st2) = recordedStats (trace st1) /\
  match acquiredIPs h !! IP_String (dhcp_YourClientIP ack) with
  | Some _ => st2 = st1
  | None =>
      if Arp (options h) || Bind (options h) then
        exists link bound,
          acquiredIPs (hdl st2) =
            <[IP_String (dhcp_YourClientIP ack) :=
                {| lease_Packet := msg_Packet msg;
                   lease_LinkAddr := link;
                   lease_Acquired := env_now env;
                   lease_HwAddr := dhcp_ClientHWAddr ack |}]>
              (acquiredIPs h) /\
          addrAdds (trace st2) = addrAdds (trace st1) ++ bound /\
          (length bound <= 1)%nat /\
          (Bind (options h) = false -> bound = [])
      else st2 = st1
  end.

End Posts.

(** [m] keeps [P]: if [P] holds before and [m] returns, [P] holds after. *)
Definition preserves {A : Type} (P : RunState -> Prop) (m : M A) : Prop :=
  forall s a s', P s -> m s = Ok (a, s') -> P s'.

(** The states of the input queue: created by [NewDhcpV4], then written
    by [ReceiveMessage], read by the loop of [Run], closed by [Stop]. *)
Inductive queueState : Chan Message -> Prop :=
| queue_new : queueState (make_chan 10000)
| queue_send c msg c' sent :
    queueState c -> trySend c msg = Ok (c', sent) -> queueState c'
| queue_recv c msg c' :
    queueState c -> tryRecv c = Some (msg, c') -> queueState c'
| queue_close c : queueState c -> queueState (close c).

(** ** Concrete inputs *)

Module Examples.

Definition ifaceMAC : HardwareAddr := [x02; x00; x00; x00; x00; x01].
Definition gatewayMAC : HardwareAddr := [x02; x00; x00; x00; x00; xfe].
Definition serverMAC : HardwareAddr := [x02; x00; x00; x00; x00; x02].
Definition clientMAC : HardwareAddr := [x02; xaa; xbb; xcc; xdd; xee].
Definition otherMAC : HardwareAddr := [x02; x11; x22; x33; x44; x55].

Definition ip_10_0_0_1 : IP := [x0a; x00; x00; x01].
Definition ip_10_0_0_5 : IP := [x0a; x00; x00; x05].
Definition ip_10_0_0_9 : IP := [x0a; x00; x00; x09].

Definition mkOptions (handshake decline release info arp bind : bool)
  : DhcpV4Options :=
  {| Handshake := handshake; DhcpBroadcast := true;
     EthernetBroadcast_opt := true; DhcpRelease := release;
     DhcpInfo := info; DhcpDecline := decline; DhcpRelay := false;
     RelaySourceIP := []; RelayGatewayIP := []; RelayTargetServerIP := [];
     TargetPort := 67; Arp := arp; ArpFakeMAC := false; Bind := bind |}.

Definition declineOptions := mkOptions true true false false false false.
Definition releaseOptions := mkOptions true false true false false false.
Definition arpOptions := mkOptions true false false false true false.
Definition bindOptions := mkOptions true false false false false true.

Definition handler (o : DhcpV4Options) : HandlerDhcpV4 :=
  NewDhcpV4 o gatewayMAC ifaceMAC.


Definition reply (xid : Z) (yourIP : IP) (hw : HardwareAddr)
    (opts : list DHCPOption) : DHCPv4 :=
  {| dhcp_Operation := 2; dhcp_HardwareType := LinkTypeEthernet;
     dhcp_HardwareLen := 6; dhcp_Xid := xid; dhcp_Flags := 0;
     dhcp_ClientIP := [x00; x00; x00; x00]; dhcp_YourClientIP := yourIP;
     dhcp_NextServerIP := [x00; x00; x00; x00];
     dhcp_RelayAgentIP := [x00; x00; x00; x00];
     dhcp_ClientHWAddr := hw; dhcp_Options := opts |}.

Definition serverEthernet : Ethernet :=
  {| eth_SrcMAC := serverMAC; eth_DstMAC := EthernetBroadcast;
     eth_EthernetType := EthernetTypeIPv4; eth_Length := 0 |}.

Definition serverIPv4 : IPv4 :=
  {| ip_Version := 4; ip_TTL := 64; ip_Protocol := 17;
     ip_SrcIP := ip_10_0_0_1; ip_DstIP := [xff; xff; xff; xff] |}.

(** A DHCP reply as the server at 10.0.0.1 puts it on the wire. *)
Definition frame (d : DHCPv4) : Message :=
  {| msg_Packet :=
       [LEthernet serverEthernet; LIPv4 serverIPv4;
        LUDP {| udp_SrcPort := 67; udp_DstPort := 68;
                udp_pseudoheader := None |};
        LDHCPv4 d] |}.

(** Message-type [t], then server-identifier 10.0.0.1. *)
Definition typed (t : byte) : list DHCPOption :=
  [NewDHCPOption DHCPOptMessageType [t];
   NewDHCPOption DHCPOptServerID ip_10_0_0_1].

Definition offer5 : DHCPv4 :=
  reply 0x1234 ip_10_0_0_5 clientMAC (typed DHCPMsgTypeOffer).
Definition ack5 : DHCPv4 :=
  reply 0x1234 ip_10_0_0_5 clientMAC (typed DHCPMsgTypeAck).
Definition ack5again : DHCPv4 :=
  reply 0x5678 ip_10_0_0_5 otherMAC (typed DHCPMsgTypeAck).
Definition ack9 : DHCPv4 :=
  reply 0x9abc ip_10_0_0_9 otherMAC (typed DHCPMsgTypeAck).
Definition nak5 : DHCPv4 :=
  reply 0x1234 [x00; x00; x00; x00] clientMAC (typed DHCPMsgTypeNak).

(** A NAK whose message-type option comes after the server identifier. *)
Definition nakSecond : DHCPv4 :=
  reply 0x1234 [x00; x00; x00; x00] clientMAC
    [NewDHCPOption DHCPOptServerID ip_10_0_0_1;
     NewDHCPOption DHCPOptMessageType [DHCPMsgTypeNak]].

(** A reply with no option at all, and one whose message-type option
    has an empty payload. *)
Definition noOptions : DHCPv4 := reply 0x1234 ip_10_0_0_5 clientMAC [].
Definition emptyMessageType : DHCPv4 :=
  reply 0x1234 ip_10_0_0_5 clientMAC
    [NewDHCPOption DHCPOptMessageType [];
     NewDHCPOption DHCPOptServerID ip_10_0_0_1].

(** Who has 10.0.0.5? Tell 10.0.0.1. *)
Definition arpWhoHas5 : Message :=
  {| msg_Packet :=
       [LEthernet {| eth_SrcMAC := serverMAC; eth_DstMAC := EthernetBroadcast;
                     eth_EthernetType := EthernetTypeARP; eth_Length := 0 |};
        LARP {| arp_AddrType := 1; arp_Protocol := 0x0800;
                arp_HwAddressSize := 6; arp_ProtAddressSize := 4;
                arp_Operation := ARPRequest;
                arp_SourceHwAddress := serverMAC;
                arp_SourceProtAddress := ip_10_0_0_1;
                arp_DstHwAddress := [x00; x00; x00; x00; x00; x00];
                arp_DstProtAddress := ip_10_0_0_5 |}] |}.

Definition env (now : Timestamp) (addrAdd : option error) : Env :=
  {| env_now := now; env_AddrAdd := addrAdd; env_sendPayload := true |}.

Definition addr_10_0_0_5 : Addr :=
  {| addr_IP := net_IPv4 x0a x00 x00 x05;
     addr_Mask := [xff; xff; xff; xff]; addr_Label := "" |}.

(** [netlink.AddrDel] reporting no error. *)
Definition addrDelOk (a : option Addr) : option error := None.

End Examples.
Import Examples.


(** The state of [Run] after an OFFER has been answered. *)
Definition afterOffer : RunState :=
  Eval vm_compute in
    match Run (H := GoNet.lib) (handler releaseOptions)
            [(env 500 None, frame offer5)] with
    | Ok (_, st) => st
    | Panic _ => initRunState (handler releaseOptions)
    end.

(** The state of [Run] in ARP mode after an ACK for 10.0.0.5. *)
Definition afterAckArp : RunState :=
  Eval vm_compute in
    match Run (H := GoNet.lib) (handler arpOptions)
            [(env 500 None, frame ack5)] with
    | Ok (_, st) => st
    | Panic _ => initRunState (handler arpOptions)
    end.

(** * The rest of the handler package *)

(** ** The handler registry (handler.go)

    [handlers] maps a hammer type to the factory that builds its handler;
    [AddHandler] fills it, [New] reads it. The registry is a package
    variable: the functions take it and return it. The logging, error and
    statistics functions a factory receives are the collaborators of the
    built handler; they are calls in the [trace] of a run, not values
    here. *)
Module Registry.

(** [socketeer.RawSocketeer], as far as the handler reads it: the
    interface's hardware address and the gateway's. *)
Record RawSocketeer := {
  IfInfo_HardwareAddr : HardwareAddr;
  Options_GatewayMAC : HardwareAddr;
}.

(** Modelled from the spec: [config.HammerConfig] is an interface declared
    outside the handler package. The handler package calls its
    [HammerType] method and asserts its dynamic type to be
    [*config.DhcpV4Options]; [dhcpV4Options] is [None] for any other
    dynamic type. *)
Record HammerConfig := {
  HammerType : string;
  dhcpV4Options : option DhcpV4Options;
}.

Record HandlerInitParams := {
  hip_options : HammerConfig;
  hip_socketeer : RawSocketeer;
}.

(** What calling a factory gives: the handler, or the panic of a failed
    type assertion on the configuration. *)
Inductive Built (Handler : Type) :=
| Constructed (h : Handler)
| ConversionPanic.
Arguments Constructed {Handler} h.
Arguments ConversionPanic {Handler}.

Section Handlers.
Context {Handler : Type}.

Definition Factory : Type := HandlerInitParams -> Built Handler.

(** [AddHandler]: the new table and the error, [None] for nil. *)
Definition AddHandler (s : string) (f : Factory)
    (handlers : gmap string Factory) : gmap string Factory * option error :=
  match handlers !! s with
  | Some _ => (handlers, Some ("Handler type already exists: " +:+ s))
  | None => (<[s := f]> handlers, None)
  end.

(** [New]: the handler built by the factory registered for the
    configuration's hammer type, or the error. *)
Definition New (handlers : gmap string Factory) (s : RawSocketeer)
    (o : HammerConfig) : Built Handler + error :=
  let hip := {| hip_options := o; hip_socketeer := s |} in
  match handlers !! HammerType o with
  | None => inr ("Handlers - Hammer type not found: " +:+ HammerType o)
  | Some hf => inl (hf hip)
  end.

(** A sequence of [AddHandler] calls, as the [init] functions of the
    handler files make them; the errors are dropped here. *)
Definition addAll (regs : list (string * Factory))
    (handlers : gmap string Factory) : gmap string Factory :=
  foldl (fun hs reg => (AddHandler reg.1 reg.2 hs).1) handlers regs.

End Handlers.

(** [NewDhcpV4] as a factory: the type assertion on the options, then the
    handler (dhcpv4.go lines 42-58). *)
Definition NewDhcpV4_factory : @Factory HandlerDhcpV4 :=
  fun hip =>
    match dhcpV4Options (hip_options hip) with
    | Some o =>
        Constructed (NewDhcpV4 o (Options_GatewayMAC (hip_socketeer hip))
                       (IfInfo_HardwareAddr (hip_socketeer hip)))
    | None => ConversionPanic
    end.

(** [init] of dhcpv4.go (lines 36-40): registers the factory and panics
    with the error if that fails. *)
Definition init (handlers : gmap string (@Factory HandlerDhcpV4))
    : gmap string (@Factory HandlerDhcpV4) + error :=
  match AddHandler "dhcpv4" NewDhcpV4_factory handlers with
  | (handlers', None) => inl handlers'
  | (_, Some err) => inr err
  end.

End Registry.

(** ** Closed forms of the branches of the loop *)

(** [new] appended to the calls made so far. *)
Definition extend (new : list Effect) (s : RunState) : RunState :=
  {| hdl := hdl s; ethernetLayer := ethernetLayer s; ipLayer := ipLayer s;
     udpLayer := udpLayer s; outDhcpLayer := outDhcpLayer s;
     trace := trace s ++ new |}.

(** The frame [handleARP] builds for request [arp] and lease [lease]. *)
Definition arpReplyStack (h : HandlerDhcpV4) (arp : ARP)
    (lease : LeaseDhcpV4) : list Layer :=
  [LEthernet {| eth_DstMAC := arp_SourceHwAddress arp;
                eth_SrcMAC := iface_HardwareAddr h;
                eth_EthernetType := EthernetTypeARP;
                eth_Length := 0 |};
   LARP {| arp_Operation := ARPReply;
           arp_DstHwAddress := arp_SourceHwAddress arp;
           arp_DstProtAddress := arp_SourceProtAddress arp;
           arp_HwAddressSize := arp_HwAddressSize arp;
           arp_AddrType := arp_AddrType arp;
           arp_ProtAddressSize := arp_ProtAddressSize arp;
           arp_Protocol := arp_Protocol arp;
           arp_SourceHwAddress :=
             if ArpFakeMAC (options h) then lease_HwAddr lease
             else iface_HardwareAddr h;
           arp_SourceProtAddress := arp_DstProtAddress arp |}].

(** The DHCP layer of the REQUEST or DECLINE that answers [offer], built
    on the template [tpl]. *)
Definition requestLayer (h : HandlerDhcpV4) (tpl offer : DHCPv4) : DHCPv4 :=
  {| dhcp_Operation := dhcp_Operation tpl;
     dhcp_HardwareType := dhcp_HardwareType tpl;
     dhcp_HardwareLen := dhcp_HardwareLen tpl;
     dhcp_Xid := dhcp_Xid offer;
     dhcp_Flags := dhcp_Flags tpl;
     dhcp_ClientIP := dhcp_ClientIP tpl;
     dhcp_YourClientIP := dhcp_YourClientIP tpl;
     dhcp_NextServerIP := dhcp_NextServerIP tpl;
     dhcp_RelayAgentIP := dhcp_RelayAgentIP tpl;
     dhcp_ClientHWAddr := dhcp_ClientHWAddr offer;
     dhcp_Options :=
       [NewDHCPOption DHCPOptMessageType
          [if DhcpDecline (options h) then DHCPMsgTypeDecline
           else DHCPMsgTypeRequest];
        NewDHCPOption DHCPOptRequestIP (dhcp_YourClientIP offer);
        NewDHCPOption DHCPOptServerID
          (opt_Data (optionAt (replyOptionsOf (dhcp_Options offer))
                              DHCPOptServerID));
        NewDHCPOption DHCPOptEnd []] |}.

(** The statistics that count a payload handed to the transmitter. *)
Definition isSentStat (s : StatValue) : bool :=
  match s with
  | RequestSentStat | DeclineSentStat | ReleaseSentStat | InfoSentStat
  | ArpReplySentStat => true
  | _ => false
  end.

(** The panic, if any, of one iteration on [msg] under options [o]: an
    index out of range while classifying the reply, or the type assertion
    on a missing Ethernet or IPv4 layer when a RELEASE or INFORM is to be
    built. *)
Definition iterationPanic (o : DhcpV4Options) (msg : Message)
    : option GoPanic :=
  match dhcpReplyOf o msg with
  | None => None
  | Some dhcpReply =>
      match replyClassOf dhcpReply with
      | None => Some IndexOutOfRange
      | Some ClassAck =>
          if (DhcpRelease o || DhcpInfo o)
             && negb (bool_decide (is_Some (Layer_Ethernet (msg_Packet msg)))
                      && bool_decide (is_Some (Layer_IPv4 (msg_Packet msg))))
          then Some NilInterfaceConversion
          else None
      | Some _ => None
      end
  end.

(** [ReceiveMessage] for each message of a list in turn, with no reader
    in between; the result lists which messages were accepted. *)
Fixpoint receiveAll (h : HandlerDhcpV4) (msgs : list Message)
    : Result (HandlerDhcpV4 * list bool) :=
  match msgs with
  | [] => Ok (h, [])
  | msg :: rest =>
      match ReceiveMessage h msg with
      | Panic why => Panic why
      | Ok (h', sent) =>
          match receiveAll h' rest with
          | Panic why => Panic why
          | Ok (h'', sents) => Ok (h'', sent :: sents)
          end
      end
  end.

Section ClosedForms.
Context `{NetLib}.

(** What [handleARP] hands to the collaborators for request [arp]. *)
Definition arpEffects (h : HandlerDhcpV4) (env : Env) (arp : ARP)
    : list Effect :=
  if arp_Operation arp =? ARPRequest then
    match acquiredIPs h !! IP_String (arp_DstProtAddress arp) with
    | Some lease =>
        ESend (arpReplyStack h arp lease)
        :: (if env_sendPayload env then [EStat ArpReplySentStat] else [])
    | None => []
    end
  else [].

(** The binding of a new lease under key [ipStr]: the handle the lease
    ends up with and the calls made. *)
Definition bindOutcome (h : HandlerDhcpV4) (env : Env) (ipStr : string)
    : option Addr * list Effect :=
  if Bind (options h) then
    match ParseAddr (ipStr +:+ "/32") with
    | inr err => (None, [EError err])
    | inl addr =>
        match env_AddrAdd env with
        | Some err => (None, [EAddrAdd addr; EError err])
        | None => (Some addr, [EAddrAdd addr])
        end
    end
  else (None, []).

(** The lease bookkeeping of an ACK creates a lease: the mode is on and
    the address has none. *)
Definition createsLease (h : HandlerDhcpV4) (ack : DHCPv4) : bool :=
  (Arp (options h) || Bind (options h))
  && bool_decide (acquiredIPs h !! IP_String (dhcp_YourClientIP ack) = None).

(** The lease an ACK creates. *)
Definition newLease (h : HandlerDhcpV4) (env : Env) (msg : Message)
    (ack : DHCPv4) : LeaseDhcpV4 :=
  {| lease_Packet := msg_Packet msg;
     lease_LinkAddr :=
       (bindOutcome h env (IP_String (dhcp_YourClientIP ack))).1;
     lease_Acquired := env_now env;
     lease_HwAddr := dhcp_ClientHWAddr ack |}.

(** The state after the lease bookkeeping of an ACK. *)
Definition afterLease (h : HandlerDhcpV4) (env : Env) (msg : Message)
    (ack : DHCPv4) (s : RunState) : RunState :=
  if createsLease h ack then
    {| hdl := set_acquiredIPs
                (<[IP_String (dhcp_YourClientIP ack) := newLease h env msg ack]>
                   (acquiredIPs h))
                (hdl s);
       ethernetLayer := ethernetLayer s; ipLayer := ipLayer s;
       udpLayer := udpLayer s; outDhcpLayer := outDhcpLayer s;
       trace :=
         trace s ++ (bindOutcome h env (IP_String (dhcp_YourClientIP ack))).2 |}
  else s.

(** The calls the lease bookkeeping of an ACK makes. *)
Definition leaseEffects (h : HandlerDhcpV4) (env : Env) (ack : DHCPv4)
    : list Effect :=
  if createsLease h ack
  then (bindOutcome h env (IP_String (dhcp_YourClientIP ack))).2
  else [].

(** The ways an iteration that returns can have gone. *)
Inductive Outcome (env : Env) (msg : Message) (st st' : RunState) : Prop :=
| OutcomeArp arp :
    dispatchedToARP (options (hdl st)) msg = true ->
    Layer_ARP (msg_Packet msg) = Some arp ->
    st' = extend (EStat ArpRequestReceivedStat
                  :: arpEffects (hdl st) env arp) st ->
    Outcome env msg st st'
| OutcomeIgnored :
    dispatchedToARP (options (hdl st)) msg = false ->
    (Layer_DHCPv4 (msg_Packet msg) = None \/
     exists reply, Layer_DHCPv4 (msg_Packet msg) = Some reply /\
                   replyClassOf reply = Some ClassOther) ->
    st' = st ->
    Outcome env msg st st'
| OutcomeOffer offer :
    dhcpReplyOf (options (hdl st)) msg = Some offer ->
    replyClassOf offer = Some ClassOffer ->
    onOffer (hdl st) env offer (replyOptionsOf (dhcp_Options offer)) st
      = Ok (tt, st') ->
    Outcome env msg st st'
| OutcomeAck ack :
    dhcpReplyOf (options (hdl st)) msg = Some ack ->
    replyClassOf ack = Some ClassAck ->
    onAckRelease (hdl st) env msg ack
      (afterLease (hdl st) env msg ack (extend [EStat AckReceivedStat] st))
      = Ok (tt, st') ->
    Outcome env msg st st'
| OutcomeNak nak :
    dhcpReplyOf (options (hdl st)) msg = Some nak ->
    replyClassOf nak = Some ClassNak ->
    st' = extend [EStat NakReceivedStat] st ->
    Outcome env msg st st'.

End ClosedForms.

(** The errors handed to [h.addError]. *)
Definition reportedErrors (t : list Effect) : list error :=
  omap (fun e => match e with EError err => Some err | _ => None end) t.

(** The sent-statistics recorded. *)
Definition sentStats (t : list Effect) : list StatValue :=
  omap (fun e => match e with
                 | EStat s => if isSentStat s then Some s else None
                 | _ => None
                 end) t.

(** The received-statistics recorded. *)
Definition receivedStats (t : list Effect) : list StatValue :=
  omap (fun e => match e with
                 | EStat s => if isSentStat s then None else Some s
                 | _ => None
                 end) t.

(** The received-statistic the loop records for [msg], if any. *)
Definition receivedStatOf (o : DhcpV4Options) (msg : Message)
    : option StatValue :=
  if dispatchedToARP o msg then Some ArpRequestReceivedStat
  else match Layer_DHCPv4 (msg_Packet msg) with
       | None => None
       | Some reply =>
           match replyClassOf reply with
           | Some ClassOffer => Some OfferReceivedStat
           | Some ClassAck => Some AckReceivedStat
           | Some ClassNak => Some NakReceivedStat
           | _ => None
           end
       end.

(** ** More concrete inputs *)

(** [DeInit] with the order of its [range] statement made explicit:
    [leases] is the content of the lease table in the order in which the
    loop visits it, an order Go leaves unspecified. *)
Definition DeInitIn (addrDel : option Addr -> option error)
    (leases : list (string * LeaseDhcpV4)) : M unit :=
  h ← gets hdl;
  when (Bind (options h)) (forLeases (delLease addrDel) leases).

Module MoreExamples.

(** Handshake, release, ARP defense and interface binding together. *)
Definition busyOptions : DhcpV4Options :=
  mkOptions true false true false true true.

(** Nothing enabled but interface binding. *)
Definition passiveOptions : DhcpV4Options :=
  mkOptions false false false false false true.

(** An OFFER answered, 10.0.0.5 acquired and bound, an ARP request for it
    defended, a NAK, and 10.0.0.9 acquired with a binding that fails. *)
Definition traffic : list (Env * Message) :=
  [(env 100 None, frame offer5);
   (env 200 None, frame ack5);
   (env 300 None, arpWhoHas5);
   (env 400 None, frame nak5);
   (env 500 (Some "file exists"%string), frame ack9)].

Definition stateAfter (o : DhcpV4Options) (inputs : list (Env * Message))
    : RunState :=
  match Run (H := GoNet.lib) (handler o) inputs with
  | Ok (_, st) => st
  | Panic _ => initRunState (handler o)
  end.

Definition afterTraffic : RunState :=
  Eval vm_compute in stateAfter busyOptions traffic.

Definition afterPassiveTraffic : RunState :=
  Eval vm_compute in stateAfter passiveOptions traffic.

(** A reply of message type DISCOVER (1). *)
Definition discover5 : DHCPv4 :=
  reply 0x1234 ip_10_0_0_5 clientMAC (typed x01).

(** An OFFER that says ACK first and OFFER last. *)
Definition offerLast : DHCPv4 :=
  reply 0x1234 ip_10_0_0_5 clientMAC
    [NewDHCPOption DHCPOptMessageType [DHCPMsgTypeAck];
     NewDHCPOption DHCPOptMessageType [DHCPMsgTypeOffer];
     NewDHCPOption DHCPOptServerID ip_10_0_0_1].

(** 10.0.0.5 and 10.0.0.9 acquired, both bound. *)
Definition twoAcks : list (Env * Message) :=
  [(env 200 None, frame ack5); (env 500 None, frame ack9)].

Definition afterTwoAcks : RunState :=
  Eval vm_compute in stateAfter bindOptions twoAcks.

(** [netlink.AddrDel] failing for 10.0.0.5 only. *)
Definition addrDelBusy (a : option Addr) : option error :=
  match a with
  | Some addr =>
      if bool_decide (addr_IP addr = addr_IP addr_10_0_0_5)
      then Some "cannot assign requested address"%string
      else None
  | None => None
  end.

Definition socketeer : Registry.RawSocketeer :=
  {| Registry.IfInfo_HardwareAddr := ifaceMAC;
     Registry.Options_GatewayMAC := gatewayMAC |}.

Definition dhcpConfig : Registry.HammerConfig :=
  {| Registry.HammerType := "dhcpv4";
     Registry.dhcpV4Options := Some declineOptions |}.

End MoreExamples.
Import MoreExamples.

(** * Properties *)

Example GoNet_ipString_10_0_0_5 :
  GoNet.ipString [x0a; x00; x00; x05] = "10.0.0.5"%string.
Proof. vm_compute. reflexivity. Qed.

Example GoNet_parseAddr_10_0_0_5 :
  GoNet.parseAddr "10.0.0.5/32" =
  inl {| addr_IP := net_IPv4 x0a x00 x00 x05;
         addr_Mask := [xff; xff; xff; xff]; addr_Label := "" |}.
Proof. vm_compute. reflexivity. Qed.


(** ** Traces *)

Lemma sentPayloads_app t1 t2 :
  sentPayloads (t1 ++ t2) = sentPayloads t1 ++ sentPayloads t2.
Proof. apply omap_app. Qed.

Lemma recordedStats_app t1 t2 :
  recordedStats (t1 ++ t2) = recordedStats t1 ++ recordedStats t2.
Proof. apply omap_app. Qed.

Lemma addrAdds_app t1 t2 : addrAdds (t1 ++ t2) = addrAdds t1 ++ addrAdds t2.
Proof. apply omap_app. Qed.

Lemma addrDels_app t1 t2 : addrDels (t1 ++ t2) = addrDels t1 ++ addrDels t2.
Proof. apply omap_app. Qed.

Ltac trace_norm :=
  rewrite ?sentPayloads_app, ?recordedStats_app, ?addrAdds_app,
    ?addrDels_app, <- ?app_assoc; simpl.

(** ** The reply option table: the last occurrence of a code wins *)

Lemma to_nat_inj (a b : byte) : Byte.to_nat a = Byte.to_nat b -> a = b.
Proof.
  intros E. apply (f_equal Byte.of_nat) in E.
  rewrite !Byte.of_to_nat in E. congruence.
Qed.

Lemma optionAt_insert (tbl : list DHCPOption) (o : DHCPOption) (code : byte) :
  length tbl = 256%nat ->
  optionAt (<[Byte.to_nat (opt_Type o) := o]> tbl) code =
  if decide (opt_Type o = code) then o else optionAt tbl code.
Proof.
  intros Hlen. unfold optionAt. case_decide as E.
  - subst code. rewrite list_lookup_insert_eq; [done|].
    pose proof (Byte.to_nat_bounded (opt_Type o)). lia.
  - rewrite list_lookup_insert_ne; [done|].
    intros E'. apply E. by apply to_nat_inj.
Qed.

Lemma optionAt_foldl (opts tbl : list DHCPOption) (code : byte) :
  length tbl = 256%nat ->
  optionAt (foldl (fun t o => <[Byte.to_nat (opt_Type o) := o]> t) tbl opts)
           code =
  default (optionAt tbl code) (lastOptionOf code opts).
Proof.
  unfold lastOptionOf. revert tbl.
  induction opts as [|o opts IH]; intros tbl Hlen; [done|].
  simpl foldl. rewrite IH by (by rewrite length_insert).
  rewrite optionAt_insert by done. rewrite filter_cons.
  case_decide as E; [|done].
  rewrite last_cons. by destruct (last _).
Qed.

Lemma optionAt_replyOptionsOf (opts : list DHCPOption) (code : byte) :
  optionAt (replyOptionsOf opts) code =
  default zeroOption (lastOptionOf code opts).
Proof.
  unfold replyOptionsOf. rewrite optionAt_foldl.
  - f_equal. unfold optionAt. rewrite lookup_replicate_2; [done|].
    pose proof (Byte.to_nat_bounded code). lia.
  - apply length_replicate.
Qed.

(** ** Dispatch of one loop iteration *)

Section Dispatch.
Context `{NetLib}.

Lemma processMessage_reply env msg st dhcpReply cls :
  dhcpReplyOf (options (hdl st)) msg = Some dhcpReply ->
  replyClassOf dhcpReply = Some cls ->
  processMessage env msg st =
  match cls with
  | ClassOffer =>
      onOffer (hdl st) env dhcpReply
        (replyOptionsOf (dhcp_Options dhcpReply)) st
  | ClassAck =>
      (addStat AckReceivedStat;;
       onAckLease (hdl st) env msg dhcpReply;;
       onAckRelease (hdl st) env msg dhcpReply) st
  | ClassNak => addStat NakReceivedStat st
  | ClassOther => Ok (tt, st)
  end.
Proof.
  unfold dhcpReplyOf, dispatchedToARP, replyClassOf, replyMsgTypeOf,
    firstOptionByteOf, processMessage.
  unfold mbind at 1, M_bind at 1, gets at 1.
  destruct (_ && _); [discriminate|]. intros ->.
  destruct (opt_Data _) as [|t tl]; [discriminate|]. change (head (t :: tl)) with (Some t). cbv beta iota.
  unfold mbind at 1, M_bind at 1. simpl index0.
  unfold mret at 1, M_ret at 1.
  destruct (Byte.eqb t DHCPMsgTypeOffer); [by intros [= Hc]; subst cls|].
  destruct (Byte.eqb t DHCPMsgTypeAck); [by intros [= Hc]; subst cls|].
  destruct (dhcp_Options dhcpReply) as [|first rest]; [discriminate|].
  destruct (opt_Data first) as [|b bs] eqn:Ed; [discriminate|].
  change (head (b :: bs)) with (Some b).
  unfold mbind, M_bind, firstOption, mret, M_ret. rewrite Ed. simpl.
  destruct (Byte.eqb b DHCPMsgTypeNak); by intros [= Hc]; subst cls.
Qed.

(** A reply whose classification panics makes the iteration panic. *)
Lemma processMessage_unclassifiable env msg st dhcpReply :
  dhcpReplyOf (options (hdl st)) msg = Some dhcpReply ->
  replyClassOf dhcpReply = None ->
  processMessage env msg st = Panic IndexOutOfRange.
Proof.
  unfold dhcpReplyOf, dispatchedToARP, replyClassOf, replyMsgTypeOf,
    firstOptionByteOf, processMessage.
  unfold mbind at 1, M_bind at 1, gets at 1.
  destruct (_ && _); [discriminate|]. intros ->.
  destruct (opt_Data _) as [|t tl]; [done|]. change (head (t :: tl)) with (Some t). cbv beta iota.
  unfold mbind at 1, M_bind at 1. simpl index0.
  unfold mret at 1, M_ret at 1.
  destruct (Byte.eqb t DHCPMsgTypeOffer); [discriminate|].
  destruct (Byte.eqb t DHCPMsgTypeAck); [discriminate|].
  destruct (dhcp_Options dhcpReply) as [|first rest]; [done|].
  destruct (opt_Data first) as [|b bs] eqn:Ed.
  - intros _. unfold mbind, M_bind, firstOption, mret, M_ret.
    by rewrite Ed.
  - intros Hc. simpl in Hc.
    destruct (Byte.eqb b DHCPMsgTypeNak); discriminate.
Qed.

Lemma bind_ret {A B : Type} (a : A) (k : A -> M B) (s : RunState) :
  (mret a ≫= k) s = k a s.
Proof. reflexivity. Qed.

(** A panic ends the loop: no later message is processed. *)
Lemma runLoop_panic env msg rest st why :
  processMessage env msg st = Panic why ->
  runLoop ((env, msg) :: rest) st = Panic why.
Proof. intros E. simpl. unfold mbind, M_bind. by rewrite E. Qed.

Lemma runLoop_cons env msg rest st st' :
  processMessage env msg st = Ok (tt, st') ->
  runLoop ((env, msg) :: rest) st = runLoop rest st'.
Proof. intros E. simpl. unfold mbind, M_bind. by rewrite E. Qed.

End Dispatch.

(** Symbolic execution of a branch on an arbitrary state: the primitives
    are unfolded first, then the binds one at a time from the outside, so
    that each intermediate state is simplified before it is passed on. *)
Ltac mexec :=
  unfold when, sendPayload, addStat, addError, emit, record, assign_Option,
    SetNetworkLayerForChecksum_ipLayer, update_outDhcpLayer,
    update_udpLayer, update_acquiredIPs, assertLayer, modify, gets, panic,
    mret, M_ret;
  repeat (progress (unfold mbind at 1, M_bind at 1; simpl)).

(** ** REQUEST/DECLINE synthesis on OFFER *)

Section Offer.
Context `{NetLib}.

(** C1. For a received OFFER with handshake mode enabled, the iteration
    sends exactly one payload, built from the Ethernet, IP and UDP
    templates and the DHCP template, in which the transaction ID is the
    OFFER's, the options are message-type (REQUEST, or DECLINE in
    decline mode), requested-IP = the OFFER's your-client address,
    server-identifier = the payload of the OFFER's server-identifier
    option (its last occurrence, byte for byte) and end, and the client
    hardware address is the OFFER's. *)
Theorem offer_handshake_request env msg st offer :
  dhcpReplyOf (options (hdl st)) msg = Some offer ->
  replyClassOf offer = Some ClassOffer ->
  Handshake (options (hdl st)) = true ->
  exists st' udp out,
    processMessage env msg st = Ok (tt, st') /\
    sentPayloads (trace st') =
      sentPayloads (trace st) ++
      [[LEthernet (ethernetLayer st); LIPv4 (ipLayer st); LUDP udp;
        LDHCPv4 out]] /\
    dhcp_Xid out = dhcp_Xid offer /\
    dhcp_Options out =
      [NewDHCPOption DHCPOptMessageType
         [if DhcpDecline (options (hdl st)) then DHCPMsgTypeDecline
          else DHCPMsgTypeRequest];
       NewDHCPOption DHCPOptRequestIP (dhcp_YourClientIP offer);
       NewDHCPOption DHCPOptServerID
         (opt_Data (default zeroOption
            (lastOptionOf DHCPOptServerID (dhcp_Options offer))));
       NewDHCPOption DHCPOptEnd []] /\
    (forall serverID,
       lastOptionOf DHCPOptServerID (dhcp_Options offer) = Some serverID ->
       opt_Data <$> dhcp_Options out !! 2%nat = Some (opt_Data serverID)) /\
    dhcp_ClientHWAddr out = dhcp_ClientHWAddr offer.
Proof.
  intros Hreply Hclass Hhs.
  rewrite (processMessage_reply _ _ _ _ _ Hreply Hclass).
  unfold onOffer. rewrite Hhs, optionAt_replyOptionsOf.
  mexec.
  destruct (env_sendPayload env); eexists _, _, _;
    (split; [reflexivity|]); simpl; trace_norm;
    (repeat split; [by intros serverID ->]).
Qed.

End Offer.

(** ** The ACK branch *)

Section Ack.
Context `{NetLib}.

(** Lease bookkeeping never panics. *)
Lemma onAckLease_spec env msg ack st1 h :
  acquiredIPs (hdl st1) = acquiredIPs h ->
  exists st2,
    onAckLease h env msg ack st1 = Ok (tt, st2) /\
    leasePost h env msg ack st1 st2.
Proof.
  intros Htbl. unfold onAckLease, leasePost.
  destruct (Arp (options h) || Bind (options h)) eqn:Emode.
  2:{ exists st1. simpl. by destruct (acquiredIPs h !! _). }
  unfold when at 1.
  destruct (acquiredIPs h !! _) eqn:Elook.
  { by exists st1. }
  destruct (Bind (options h)) eqn:Ebind.
  2:{ mexec. eexists. split; [reflexivity|]. simpl.
      repeat split; try done.
      exists None, []. rewrite Htbl, app_nil_r. repeat split; simpl; first [done | lia]. }
  unfold when.
  destruct (ParseAddr _) as [addr|err].
  2:{ mexec. eexists. split; [reflexivity|]. simpl. trace_norm.
      rewrite !app_nil_r.
      repeat split; try done.
      exists None, []. rewrite Htbl, app_nil_r. repeat split; simpl; first [done | lia]. }
  destruct (env_AddrAdd env) as [err|] eqn:Eadd.
  - mexec.
    eexists. split; [reflexivity|]. simpl. trace_norm.
    rewrite !app_nil_r.
    repeat split; try done.
    exists None, [addr]. rewrite Htbl. repeat split; simpl; first [done | lia].
  - mexec.
    eexists. split; [reflexivity|]. simpl. trace_norm.
    rewrite !app_nil_r.
    repeat split; try done.
    exists (Some addr), [addr]. rewrite Htbl, alter_insert_eq.
    repeat split; simpl; first [done | lia].
Qed.

Lemma onAckRelease_off h env msg ack st1 :
  DhcpRelease (options h) || DhcpInfo (options h) = false ->
  onAckRelease h env msg ack st1 = Ok (tt, st1).
Proof. intros E. unfold onAckRelease. by rewrite E. Qed.

(** RELEASE/INFORM synthesis on a frame that has its Ethernet and IPv4
    layers: one payload, the statistic when the payload was accepted,
    and a DHCP template whose client-IP and flags are back to what they
    were. *)
Lemma onAckRelease_spec h env msg ack st1 eth iph :
  DhcpRelease (options h) || DhcpInfo (options h) = true ->
  Layer_Ethernet (msg_Packet msg) = Some eth ->
  Layer_IPv4 (msg_Packet msg) = Some iph ->
  exists st2,
    onAckRelease h env msg ack st1 = Ok (tt, st2) /\
    fixedPart st2 = fixedPart st1 /\
    acquiredIPs (hdl st2) = acquiredIPs (hdl st1) /\
    fixedDhcp (outDhcpLayer st2) = fixedDhcp (outDhcpLayer st1) /\
    dhcp_ClientIP (outDhcpLayer st2) = dhcp_ClientIP (outDhcpLayer st1) /\
    dhcp_Flags (outDhcpLayer st2) = dhcp_Flags (outDhcpLayer st1) /\
    trace st2 =
      trace st1 ++
      ESend (releaseStack h (ipLayer st1) (udpLayer st1) (outDhcpLayer st1)
               ack eth iph)
      :: (if env_sendPayload env
          then [EStat (if DhcpInfo (options h) then InfoSentStat
                       else ReleaseSentStat)]
          else []).
Proof.
  intros Emode Eeth Eip. unfold onAckRelease.
  rewrite Emode, Eeth, Eip. mexec.
  destruct (env_sendPayload env); eexists; (split; [reflexivity|]);
    simpl; rewrite <- ?app_assoc; by repeat split.
Qed.

(** What the template fields read by [releaseStack] depend on. *)
Lemma releaseStack_fixed st st' ack eth iph :
  fixedPart st' = fixedPart st ->
  fixedDhcp (outDhcpLayer st') = fixedDhcp (outDhcpLayer st) ->
  releaseStack (hdl st') (ipLayer st') (udpLayer st') (outDhcpLayer st')
    ack eth iph =
  releaseStack (hdl st) (ipLayer st) (udpLayer st) (outDhcpLayer st)
    ack eth iph.
Proof.
  unfold fixedPart, fixedDhcp, releaseStack.
  intros [= Eo _ Ei _ _ Eip Esp Edp] [= Eop Eht Ehl Ey En Er].
  by rewrite Eo, Ei, Eip, Esp, Edp, Eop, Eht, Ehl, Ey, En, Er.
Qed.

(** One iteration on an ACK whose frame has the layers the branch
    needs: the statistic, then the bookkeeping, then the synthesis. *)
Lemma ack_iteration env msg st ack :
  dhcpReplyOf (options (hdl st)) msg = Some ack ->
  replyClassOf ack = Some ClassAck ->
  (DhcpRelease (options (hdl st)) || DhcpInfo (options (hdl st)) = true ->
   is_Some (Layer_Ethernet (msg_Packet msg)) /\
   is_Some (Layer_IPv4 (msg_Packet msg))) ->
  exists st1 st',
    leasePost (hdl st) env msg ack (record (EStat AckReceivedStat) st) st1 /\
    onAckRelease (hdl st) env msg ack st1 = Ok (tt, st') /\
    processMessage env msg st = Ok (tt, st').
Proof.
  intros Hreply Hclass Hframe.
  rewrite (processMessage_reply _ _ _ _ _ Hreply Hclass).
  unfold addStat, emit, modify.
  unfold mbind at 1, M_bind at 1. cbv beta iota.
  unfold mbind at 1, M_bind at 1.
  destruct (onAckLease_spec env msg ack (record (EStat AckReceivedStat) st)
              (hdl st) eq_refl) as (st1 & E1 & Hpost).
  rewrite E1. exists st1.
  destruct (DhcpRelease (options (hdl st)) || DhcpInfo (options (hdl st)))
    eqn:Emode.
  - destruct Hframe as [[eth Eeth] [iph Eip]]; [done|].
    destruct (onAckRelease_spec (hdl st) env msg ack st1 eth iph
                Emode Eeth Eip) as (st' & E2 & _).
    exists st'. by rewrite E2.
  - exists st1. by rewrite onAckRelease_off.
Qed.

(** One iteration on an ACK in release or inform mode. *)
Lemma ack_release_iteration env msg st ack eth iph :
  dhcpReplyOf (options (hdl st)) msg = Some ack ->
  replyClassOf ack = Some ClassAck ->
  DhcpRelease (options (hdl st)) || DhcpInfo (options (hdl st)) = true ->
  Layer_Ethernet (msg_Packet msg) = Some eth ->
  Layer_IPv4 (msg_Packet msg) = Some iph ->
  exists st',
    processMessage env msg st = Ok (tt, st') /\
    fixedPart st' = fixedPart st /\
    fixedDhcp (outDhcpLayer st') = fixedDhcp (outDhcpLayer st) /\
    dhcp_ClientIP (outDhcpLayer st') = dhcp_ClientIP (outDhcpLayer st) /\
    dhcp_Flags (outDhcpLayer st') = dhcp_Flags (outDhcpLayer st) /\
    sentPayloads (trace st') =
      sentPayloads (trace st) ++
      [releaseStack (hdl st) (ipLayer st) (udpLayer st) (outDhcpLayer st)
         ack eth iph] /\
    recordedStats (trace st') =
      recordedStats (trace st) ++
      AckReceivedStat
      :: (if env_sendPayload env
          then [if DhcpInfo (options (hdl st)) then InfoSentStat
                else ReleaseSentStat]
          else []).
Proof.
  intros Hreply Hclass Emode Eeth Eip.
  destruct (ack_iteration env msg st ack Hreply Hclass)
    as (st1 & st' & Hpost & E2 & E); [by eauto|].
  destruct (onAckRelease_spec (hdl st) env msg ack st1 eth iph
              Emode Eeth Eip)
    as (st2 & E2' & Hfix & _ & Hdhcp & Hcip & Hflags & Htrace).
  rewrite E2 in E2'. injection E2' as <-.
  destruct Hpost as (Hfix1 & Hudp1 & Hout1 & Hsent1 & Hstats1 & _).
  unfold record in *. simpl in *.
  assert (Eip1 : ipLayer st1 = ipLayer st) by (by injection Hfix1).
  exists st'. split; [done|].
  rewrite Hfix, Hfix1, Hdhcp, Hcip, Hflags, Hout1, Htrace.
  rewrite sentPayloads_app, recordedStats_app, Hsent1, Hstats1.
  rewrite Eip1, Hudp1, ?Hout1.
  rewrite sentPayloads_app, recordedStats_app, <- !app_assoc. simpl.
  destruct (env_sendPayload env); by repeat split.
Qed.

End Ack.

(** ** What no iteration changes *)

Section Preserves.
Context {A B : Type} (P : RunState -> Prop).

Lemma preserves_ret (a : A) : preserves P (mret a).
Proof. intros s a' s' HP [= _ <-]. exact HP. Qed.

Lemma preserves_gets (f : RunState -> A) : preserves P (gets f).
Proof. intros s a' s' HP [= _ <-]. exact HP. Qed.

Lemma preserves_panic why : preserves P (@panic A why).
Proof. intros s a' s' _ [=]. Qed.

Lemma preserves_modify (f : RunState -> RunState) :
  (forall s, P s -> P (f s)) -> preserves P (modify f).
Proof. intros Hf s a' s' HP [= _ <-]. by apply Hf. Qed.

Lemma preserves_bind (m : M A) (k : A -> M B) :
  preserves P m -> (forall a, preserves P (k a)) -> preserves P (m ≫= k).
Proof.
  intros Hm Hk s b s' HP. unfold mbind, M_bind.
  destruct (m s) as [[a s1]|] eqn:E; [|discriminate].
  intros E'. exact (Hk a s1 b s' (Hm s a s1 HP E) E').
Qed.

End Preserves.

Ltac preserves_step :=
  match goal with
  | |- preserves _ (mbind _ _) => apply preserves_bind; [|intros ?]
  | |- preserves _ (mret _) => apply preserves_ret
  | |- preserves _ (gets _) => apply preserves_gets
  | |- preserves _ (panic _) => apply preserves_panic
  | |- preserves _ (modify _) => apply preserves_modify; intros ? ?
  | |- preserves _ (match ?x with _ => _ end) => destruct x
  end.

Ltac preserves_tac :=
  unfold when, sendPayload, addStat, addError, emit, assign_Option,
    SetNetworkLayerForChecksum_ipLayer, update_outDhcpLayer,
    update_udpLayer, update_acquiredIPs, assertLayer, index0, firstOption;
  repeat preserves_step.

Section Fixed.
Context `{NetLib}.

Lemma processMessage_fixed env msg v :
  preserves (fun s => fixedPart s = v) (processMessage env msg).
Proof.
  unfold processMessage, handleARP, onOffer, onAckLease, onAckRelease.
  preserves_tac; done.
Qed.

Lemma runLoop_fixed inputs v :
  preserves (fun s => fixedPart s = v) (runLoop inputs).
Proof.
  induction inputs as [|[env msg] rest IH]; simpl.
  - apply preserves_ret.
  - apply preserves_bind; [apply processMessage_fixed | intros _; exact IH].
Qed.

(** Throughout [Run] the Ethernet and IP templates, the UDP ports and
    the handler's configuration are those set up before the loop. *)
Lemma Run_fixed h inputs st :
  Run h inputs = Ok (tt, st) -> fixedPart st = fixedPart (initRunState h).
Proof. intros E. by eapply (runLoop_fixed inputs); [|exact E]. Qed.

End Fixed.

(** ** RELEASE/INFORM synthesis on ACK *)

Section Release.
Context `{NetLib}.

(** C3. For a received ACK (a frame with its Ethernet and IPv4 layers)
    in release or inform mode, the iteration sends exactly one payload:
    its IP destination is the source address of the ACK's own IP header,
    its DHCP client-IP is the ACK's your-client address, its flags are
    zero, its options are message-type (INFORM in inform mode, RELEASE
    otherwise) and end, and it echoes the ACK's transaction ID and
    client hardware address. *)
Theorem ack_release_unicast env msg st ack eth iph :
  dhcpReplyOf (options (hdl st)) msg = Some ack ->
  replyClassOf ack = Some ClassAck ->
  DhcpRelease (options (hdl st)) || DhcpInfo (options (hdl st)) = true ->
  Layer_Ethernet (msg_Packet msg) = Some eth ->
  Layer_IPv4 (msg_Packet msg) = Some iph ->
  exists st' relEth relIp udp out,
    processMessage env msg st = Ok (tt, st') /\
    sentPayloads (trace st') =
      sentPayloads (trace st) ++
      [[LEthernet relEth; LIPv4 relIp; LUDP udp; LDHCPv4 out]] /\
    eth_DstMAC relEth = eth_SrcMAC eth /\
    ip_DstIP relIp = ip_SrcIP iph /\
    ip_SrcIP relIp = dhcp_YourClientIP ack /\
    dhcp_ClientIP out = dhcp_YourClientIP ack /\
    dhcp_Flags out = 0 /\
    dhcp_Options out =
      [NewDHCPOption DHCPOptMessageType
         [if DhcpInfo (options (hdl st)) then DHCPMsgTypeInform
          else DHCPMsgTypeRelease];
       NewDHCPOption DHCPOptEnd []] /\
    dhcp_Xid out = dhcp_Xid ack /\
    dhcp_ClientHWAddr out = dhcp_ClientHWAddr ack.
Proof.
  intros Hreply Hclass Emode Eeth Eip.
  destruct (ack_release_iteration env msg st ack eth iph
              Hreply Hclass Emode Eeth Eip)
    as (st' & E & _ & _ & _ & _ & Hsent & _).
  exists st'. unfold releaseStack in Hsent.
  eexists _, _, _, _. split; [exact E|]. split; [exact Hsent|].
  by repeat split.
Qed.

(** C4. The iteration that synthesizes a RELEASE or INFORM leaves the
    client-IP and flags of the shared DHCP template as it found them;
    and a second ACK processed right after it sends the very payload it
    would have sent had the first one not been processed, and again
    leaves the two fields as they were at the start. *)
Theorem release_restores_template env msg st ack eth iph :
  dhcpReplyOf (options (hdl st)) msg = Some ack ->
  replyClassOf ack = Some ClassAck ->
  DhcpRelease (options (hdl st)) || DhcpInfo (options (hdl st)) = true ->
  Layer_Ethernet (msg_Packet msg) = Some eth ->
  Layer_IPv4 (msg_Packet msg) = Some iph ->
  exists st',
    processMessage env msg st = Ok (tt, st') /\
    dhcp_ClientIP (outDhcpLayer st') = dhcp_ClientIP (outDhcpLayer st) /\
    dhcp_Flags (outDhcpLayer st') = dhcp_Flags (outDhcpLayer st) /\
    forall env2 msg2 ack2 eth2 iph2,
      dhcpReplyOf (options (hdl st)) msg2 = Some ack2 ->
      replyClassOf ack2 = Some ClassAck ->
      Layer_Ethernet (msg_Packet msg2) = Some eth2 ->
      Layer_IPv4 (msg_Packet msg2) = Some iph2 ->
      exists st2 st2' payload,
        processMessage env2 msg2 st' = Ok (tt, st2') /\
        processMessage env2 msg2 st = Ok (tt, st2) /\
        sentPayloads (trace st2') = sentPayloads (trace st') ++ [payload] /\
        sentPayloads (trace st2) = sentPayloads (trace st) ++ [payload] /\
        dhcp_ClientIP (outDhcpLayer st2') = dhcp_ClientIP (outDhcpLayer st) /\
        dhcp_Flags (outDhcpLayer st2') = dhcp_Flags (outDhcpLayer st).
Proof.
  intros Hreply Hclass Emode Eeth Eip.
  destruct (ack_release_iteration env msg st ack eth iph
              Hreply Hclass Emode Eeth Eip)
    as (st' & E & Hfix & Hdhcp & Hcip & Hflags & _).
  exists st'. repeat split; try done.
  intros env2 msg2 ack2 eth2 iph2 Hreply2 Hclass2 Eeth2 Eip2.
  assert (Eopts : options (hdl st') = options (hdl st))
    by (by injection Hfix).
  destruct (ack_release_iteration env2 msg2 st ack2 eth2 iph2
              Hreply2 Hclass2 Emode Eeth2 Eip2)
    as (st2 & E2 & _ & _ & _ & _ & Hsent2 & _).
  destruct (ack_release_iteration env2 msg2 st' ack2 eth2 iph2)
    as (st2' & E2' & _ & _ & Hcip' & Hflags' & Hsent2' & _);
    try (rewrite Eopts); try done.
  rewrite (releaseStack_fixed st st') in Hsent2' by done.
  eexists st2, st2', _. repeat split; try done; congruence.
Qed.

(** C10. In the RELEASE/INFORM synthesis of an iteration of [Run], the
    network layer registered for the UDP checksum is the long-lived IP
    template set up before the loop (source 0.0.0.0 or the relay source,
    destination 255.255.255.255 or the relay target), while the IP layer
    serialized into the packet is the freshly built one (source the
    acquired address, destination the ACK's IP source). *)
Theorem release_checksum_uses_template h inputs st env msg ack eth iph :
  Run h inputs = Ok (tt, st) ->
  dhcpReplyOf (options h) msg = Some ack ->
  replyClassOf ack = Some ClassAck ->
  DhcpRelease (options h) || DhcpInfo (options h) = true ->
  Layer_Ethernet (msg_Packet msg) = Some eth ->
  Layer_IPv4 (msg_Packet msg) = Some iph ->
  exists st' relEth relIp udp out pseudo,
    processMessage env msg st = Ok (tt, st') /\
    sentPayloads (trace st') =
      sentPayloads (trace st) ++
      [[LEthernet relEth; LIPv4 relIp; LUDP udp; LDHCPv4 out]] /\
    udp_pseudoheader udp = Some pseudo /\
    pseudo = init_ipLayer h /\
    ip_SrcIP pseudo =
      (if DhcpRelay (options h) then RelaySourceIP (options h)
       else net_IPv4 x00 x00 x00 x00) /\
    ip_DstIP pseudo =
      (if DhcpRelay (options h) then RelayTargetServerIP (options h)
       else net_IPv4 xff xff xff xff) /\
    ip_SrcIP relIp = dhcp_YourClientIP ack /\
    ip_DstIP relIp = ip_SrcIP iph.
Proof.
  intros Hrun Hreply Hclass Emode Eeth Eip.
  pose proof (Run_fixed h inputs st Hrun) as Hfix.
  assert (Eopts : options (hdl st) = options h) by (by injection Hfix).
  assert (Etpl : ipLayer st = init_ipLayer h) by (by injection Hfix).
  destruct (ack_release_iteration env msg st ack eth iph)
    as (st' & E & _ & _ & _ & _ & Hsent & _);
    try (rewrite Eopts); try done.
  unfold releaseStack in Hsent. rewrite Etpl in Hsent.
  exists st'. eexists _, _, _, _, _.
  split; [exact E|]. split; [exact Hsent|]. by repeat split.
Qed.

End Release.

(** ** The lease table: the first ACK for an address wins *)

Section Leases.
Context `{NetLib}.

(** The synthesis part of the ACK branch neither touches the lease
    table nor binds an address. *)
Lemma onAckRelease_leases h env msg ack tbl adds :
  preserves (fun s => acquiredIPs (hdl s) = tbl /\
                      addrAdds (trace s) = adds)
            (onAckRelease h env msg ack).
Proof.
  unfold onAckRelease. preserves_tac; try done.
  all: unfold record; simpl; rewrite addrAdds_app, app_nil_r; tauto.
Qed.

(** An ACK for an address that already has a lease. *)
Lemma ack_known_iteration env msg st ip :
  ackFor (options (hdl st)) ip msg ->
  is_Some (acquiredIPs (hdl st) !! IP_String ip) ->
  exists st',
    processMessage env msg st = Ok (tt, st') /\
    acquiredIPs (hdl st') = acquiredIPs (hdl st) /\
    addrAdds (trace st') = addrAdds (trace st).
Proof.
  intros (ack & Hreply & Hclass & <- & Hframe) [lease Hlease].
  destruct (ack_iteration env msg st ack Hreply Hclass Hframe)
    as (st1 & st' & Hpost & E2 & E).
  exists st'. split; [exact E|].
  destruct Hpost as (_ & _ & _ & _ & _ & Hsame).
  rewrite Hlease in Hsame. subst st1.
  eapply (onAckRelease_leases _ _ _ _ _ _ _ _ _ _ E2).
  Unshelve. unfold record. simpl.
  by rewrite addrAdds_app, app_nil_r.
Qed.

(** An ACK for an address that has no lease yet, in ARP-defense or
    interface-binding mode. *)
Lemma ack_fresh_iteration env msg st ip ack :
  ackFor (options (hdl st)) ip msg ->
  Layer_DHCPv4 (msg_Packet msg) = Some ack ->
  Arp (options (hdl st)) || Bind (options (hdl st)) = true ->
  acquiredIPs (hdl st) !! IP_String ip = None ->
  exists st' lease bound,
    processMessage env msg st = Ok (tt, st') /\
    acquiredIPs (hdl st') = <[IP_String ip := lease]> (acquiredIPs (hdl st)) /\
    lease_Packet lease = msg_Packet msg /\
    lease_HwAddr lease = dhcp_ClientHWAddr ack /\
    lease_Acquired lease = env_now env /\
    addrAdds (trace st') = addrAdds (trace st) ++ bound /\
    (length bound <= 1)%nat /\
    (Bind (options (hdl st)) = false -> bound = []).
Proof.
  intros (ack' & Hreply & Hclass & <- & Hframe) Hlayer Emode Hfresh.
  assert (ack' = ack) as ->.
  { unfold dhcpReplyOf in Hreply. destruct (dispatchedToARP _ _);
      congruence. }
  destruct (ack_iteration env msg st ack Hreply Hclass Hframe)
    as (st1 & st' & Hpost & E2 & E).
  destruct Hpost as (_ & _ & _ & _ & _ & Hnew).
  rewrite Hfresh, Emode in Hnew.
  destruct Hnew as (link & bound & Htbl & Hadds & Hlen & Hnobind).
  pose proof (onAckRelease_leases _ _ _ _ _ _ _ _ _ (conj Htbl Hadds) E2)
    as [Htbl' Hadds'].
  eexists st', _, bound. split; [exact E|]. split; [exact Htbl'|].
  unfold record in Hadds'. simpl in Hadds'.
  rewrite addrAdds_app, app_nil_r in Hadds'. by repeat split.
Qed.

(** Later ACKs for an address that has a lease change neither the
    table nor the addresses bound. *)
Lemma later_acks_ignored ip inputs :
  forall st,
    Forall (fun em => ackFor (options (hdl st)) ip em.2) inputs ->
    is_Some (acquiredIPs (hdl st) !! IP_String ip) ->
    exists st',
      runLoop inputs st = Ok (tt, st') /\
      acquiredIPs (hdl st') = acquiredIPs (hdl st) /\
      addrAdds (trace st') = addrAdds (trace st).
Proof.
  induction inputs as [|[env msg] rest IH]; intros st Hall Hknown.
  - by exists st.
  - apply Forall_cons in Hall as [Hack Hrest]. simpl in Hack.
    destruct (ack_known_iteration env msg st ip Hack Hknown)
      as (st1 & E1 & Htbl1 & Hadds1).
    assert (Eopts : options (hdl st1) = options (hdl st)).
    { pose proof (processMessage_fixed env msg _ st tt st1 eq_refl E1)
        as Hfix. by injection Hfix. }
    destruct (IH st1) as (st' & E' & Htbl' & Hadds').
    + by rewrite Eopts.
    + by rewrite Htbl1.
    + exists st'. rewrite (runLoop_cons _ _ _ _ _ E1).
      split; [exact E'|]. split; congruence.
Qed.

(** C2. In ARP-defense or interface-binding mode, a sequence of ACKs
    for one your-client address, starting where that address has no
    lease, is processed to the end and leaves exactly one new entry in
    the lease table, under that address; the entry's hardware address
    and acquisition time are those of the first ACK; the ACKs after the
    first leave the whole table as the first one left it and bind no
    address; the first one binds at most one. *)
Theorem first_ack_wins env1 msg1 ack1 later st ip :
  Arp (options (hdl st)) || Bind (options (hdl st)) = true ->
  acquiredIPs (hdl st) !! IP_String ip = None ->
  Layer_DHCPv4 (msg_Packet msg1) = Some ack1 ->
  ackFor (options (hdl st)) ip msg1 ->
  Forall (fun em => ackFor (options (hdl st)) ip em.2) later ->
  exists st1 st' lease,
    processMessage env1 msg1 st = Ok (tt, st1) /\
    runLoop ((env1, msg1) :: later) st = Ok (tt, st') /\
    acquiredIPs (hdl st') !! IP_String ip = Some lease /\
    lease_HwAddr lease = dhcp_ClientHWAddr ack1 /\
    lease_Acquired lease = env_now env1 /\
    size (acquiredIPs (hdl st')) = S (size (acquiredIPs (hdl st))) /\
    (forall key, key <> IP_String ip ->
       acquiredIPs (hdl st') !! key = acquiredIPs (hdl st) !! key) /\
    acquiredIPs (hdl st') = acquiredIPs (hdl st1) /\
    addrAdds (trace st') = addrAdds (trace st1) /\
    (length (addrAdds (trace st1)) <= S (length (addrAdds (trace st))))%nat.
Proof.
  intros Emode Hfresh Hlayer Hack1 Hlater.
  destruct (ack_fresh_iteration env1 msg1 st ip ack1 Hack1 Hlayer Emode
              Hfresh)
    as (st1 & lease & bound & E1 & Htbl1 & _ & Hhw & Hacq & Hadds1 & Hlen
        & _).
  assert (Eopts : options (hdl st1) = options (hdl st)).
  { pose proof (processMessage_fixed env1 msg1 _ st tt st1 eq_refl E1)
      as Hfix. by injection Hfix. }
  destruct (later_acks_ignored ip later st1) as (st' & E' & Htbl' & Hadds').
  { by rewrite Eopts. }
  { rewrite Htbl1, lookup_insert_eq. by eexists. }
  exists st1, st', lease. rewrite (runLoop_cons _ _ _ _ _ E1).
  split; [exact E1|]. split; [exact E'|].
  rewrite Htbl', Htbl1, Hadds', Hadds1.
  repeat split; try done.
  - apply lookup_insert_eq.
  - by apply map_size_insert_None.
  - intros key Hne. by apply lookup_insert_ne.
  - rewrite length_app. lia.
Qed.

End Leases.

(** ** NAK *)

Section Nak.
Context `{NetLib}.

(** C9. For a reply the loop classifies as NAK, the iteration records
    the NAK-received statistic once and does nothing else: no payload is
    sent, no other collaborator is called, and the handler and the
    templates are unchanged. *)
Theorem nak_stat_only env msg st reply :
  dhcpReplyOf (options (hdl st)) msg = Some reply ->
  replyClassOf reply = Some ClassNak ->
  exists st',
    processMessage env msg st = Ok (tt, st') /\
    trace st' = trace st ++ [EStat NakReceivedStat] /\
    recordedStats (trace st') = recordedStats (trace st) ++ [NakReceivedStat] /\
    sentPayloads (trace st') = sentPayloads (trace st) /\
    hdl st' = hdl st /\
    (ethernetLayer st', ipLayer st', udpLayer st', outDhcpLayer st') =
    (ethernetLayer st, ipLayer st, udpLayer st, outDhcpLayer st).
Proof.
  intros Hreply Hclass.
  rewrite (processMessage_reply _ _ _ _ _ Hreply Hclass).
  eexists. split; [reflexivity|]. simpl.
  rewrite recordedStats_app, sentPayloads_app, app_nil_r. by repeat split.
Qed.

End Nak.

(** ** Malformed replies *)

Section Malformed.
Context `{NetLib}.

(** A reply without a message-type option, or with an empty one, cannot
    be classified. *)
Lemma replyClassOf_no_message_type reply :
  opt_Data (default zeroOption
              (lastOptionOf DHCPOptMessageType (dhcp_Options reply))) = [] ->
  replyClassOf reply = None.
Proof.
  intros E. unfold replyClassOf, replyMsgTypeOf.
  by rewrite optionAt_replyOptionsOf, E.
Qed.

(** Such a reply makes the iteration panic, and with it the loop: the
    messages queued behind it are never processed. *)
Lemma malformed_reply_panics env msg rest st reply :
  dhcpReplyOf (options (hdl st)) msg = Some reply ->
  opt_Data (default zeroOption
              (lastOptionOf DHCPOptMessageType (dhcp_Options reply))) = [] ->
  runLoop ((env, msg) :: rest) st = Panic IndexOutOfRange.
Proof.
  intros Hreply E. apply runLoop_panic.
  eapply processMessage_unclassifiable; [exact Hreply|].
  by apply replyClassOf_no_message_type.
Qed.

End Malformed.

(** ** The ARP defender *)

Section ArpDefense.
Context `{NetLib}.

(** C6 (amended). In ARP mode, an iteration on a message with an ARP
    layer never panics and leaves the handler unchanged; it sends a
    payload only if the message is an ARP request whose target protocol
    address has a lease, and then it sends one ARP reply; for a target
    without a lease nothing is sent, and the one statistic recorded is
    ARP-request-received. *)
Theorem arp_reply_only_for_lease env msg st arp :
  Arp (options (hdl st)) = true ->
  Layer_ARP (msg_Packet msg) = Some arp ->
  exists st',
    processMessage env msg st = Ok (tt, st') /\
    hdl st' = hdl st /\
    (sentPayloads (trace st') <> sentPayloads (trace st) ->
     arp_Operation arp = ARPRequest /\
     is_Some (acquiredIPs (hdl st) !! IP_String (arp_DstProtAddress arp))) /\
    (forall lease,
       arp_Operation arp = ARPRequest ->
       acquiredIPs (hdl st) !! IP_String (arp_DstProtAddress arp)
         = Some lease ->
       exists eth reply,
         sentPayloads (trace st') =
           sentPayloads (trace st) ++ [[LEthernet eth; LARP reply]] /\
         arp_Operation reply = ARPReply /\
         arp_SourceProtAddress reply = arp_DstProtAddress arp /\
         arp_SourceHwAddress reply =
           (if ArpFakeMAC (options (hdl st)) then lease_HwAddr lease
            else iface_HardwareAddr (hdl st))) /\
    (acquiredIPs (hdl st) !! IP_String (arp_DstProtAddress arp) = None ->
     sentPayloads (trace st') = sentPayloads (trace st) /\
     recordedStats (trace st') =
       recordedStats (trace st) ++ [ArpRequestReceivedStat]).
Proof.
  intros Earp Hlayer. unfold processMessage.
  unfold mbind at 1, M_bind at 1, gets at 1.
  rewrite Earp, Hlayer. rewrite bool_decide_eq_true_2 by by eexists.
  change (true && true) with true. cbv iota.
  unfold addStat, emit, modify. unfold mbind at 1, M_bind at 1.
  cbv beta iota. unfold handleARP. rewrite Hlayer.
  unfold assertLayer. rewrite bind_ret.
  destruct (arp_Operation arp =? ARPRequest) eqn:Eop.
  - destruct (acquiredIPs (hdl st) !! _) as [lease|] eqn:Elook.
    + mexec. apply Z.eqb_eq in Eop.
      destruct (env_sendPayload env); eexists; (split; [reflexivity|]);
        simpl; rewrite !sentPayloads_app; simpl;
        (repeat split; try done; try by eexists).
      all: intros lease' _ [= <-]; eexists _, _;
        rewrite ?app_nil_r; by repeat split.
    + mexec. eexists. split; [reflexivity|]. simpl.
      rewrite sentPayloads_app, recordedStats_app, app_nil_r.
      by repeat split.
  - mexec. eexists. split; [reflexivity|]. simpl.
    rewrite sentPayloads_app, recordedStats_app, app_nil_r.
    apply Z.eqb_neq in Eop. by repeat split.
Qed.

End ArpDefense.

(** ** Shutdown *)

Section Shutdown.
Context `{NetLib}.

Lemma delLease_spec addrDel lease st :
  exists st',
    delLease addrDel lease st = Ok (tt, st') /\
    hdl st' = hdl st /\
    addrDels (trace st') = addrDels (trace st) ++ [lease_LinkAddr lease].
Proof.
  unfold delLease.
  destruct (addrDel (lease_LinkAddr lease)) as [err|]; mexec;
    eexists; (split; [reflexivity|]); simpl;
    rewrite !addrDels_app; simpl; by rewrite ?app_nil_r.
Qed.

Lemma forLeases_delLease addrDel leases :
  forall st,
    exists st',
      forLeases (delLease addrDel) leases st = Ok (tt, st') /\
      hdl st' = hdl st /\
      addrDels (trace st') =
        addrDels (trace st) ++ ((fun kv => lease_LinkAddr kv.2) <$> leases).
Proof.
  induction leases as [|[key lease] rest IH]; intros st.
  - exists st. by rewrite app_nil_r.
  - destruct (delLease_spec addrDel lease st) as (st1 & E1 & Hh1 & Hdels1).
    destruct (IH st1) as (st' & E & Hh & Hdels).
    exists st'. simpl forLeases. unfold mbind, M_bind. rewrite E1.
    split; [exact E|]. split; [congruence|].
    rewrite Hdels, Hdels1, <- app_assoc. reflexivity.
Qed.

(** With interface binding enabled, [DeInit] calls [netlink.AddrDel]
    once for every lease of the table, with whatever binding handle the
    lease holds, nil included. *)
Lemma DeInit_attempts_every_lease addrDel st :
  Bind (options (hdl st)) = true ->
  exists st',
    DeInit addrDel st = Ok (tt, st') /\
    addrDels (trace st') =
      addrDels (trace st) ++
      ((fun kv => lease_LinkAddr kv.2) <$>
         map_to_list (acquiredIPs (hdl st))).
Proof.
  intros Ebind. unfold DeInit.
  unfold mbind at 1, M_bind at 1, gets at 1. rewrite Ebind. simpl when.
  destruct (forLeases_delLease addrDel (map_to_list (acquiredIPs (hdl st)))
              st) as (st' & E & _ & Hdels).
  by exists st'.
Qed.

End Shutdown.

(** ** The input queue *)


Lemma queueState_bounded c :
  queueState c ->
  ch_cap c = 10000 /\ Z.of_nat (length (ch_buf c)) <= 10000.
Proof.
  induction 1 as [|c msg c' sent _ [Hcap Hlen] Hsend
                  |c msg c' _ [Hcap Hlen] Hrecv|c _ IH].
  - split; [reflexivity|simpl; lia].
  - unfold trySend in Hsend. destruct (ch_closed c); [discriminate|].
    destruct (Z.ltb_spec (Z.of_nat (length (ch_buf c))) (ch_cap c)) as [Hlt|_];
      injection Hsend as <- _; simpl; [|done].
    rewrite length_app. simpl. lia.
  - unfold tryRecv in Hrecv. destruct (ch_buf c) as [|x rest] eqn:Ebuf;
      [discriminate|]. injection Hrecv as _ <-. simpl in *. lia.
  - exact IH.
Qed.


(** * Concrete runs *)

(** The spec's scenario: OFFER(xid=0x1234, yourIP=10.0.0.5,
    serverID=[10.0.0.1]) with handshake and decline. *)
Lemma offer_handshake_request_witness :
  exists st' udp out,
    processMessage (H := GoNet.lib) (env 1000 None) (frame offer5)
      (initRunState (handler declineOptions)) = Ok (tt, st') /\
    sentPayloads (trace st') =
      [[LEthernet (init_ethernetLayer (handler declineOptions));
        LIPv4 (init_ipLayer (handler declineOptions));
        LUDP udp; LDHCPv4 out]] /\
    dhcp_Xid out = 0x1234 /\
    dhcp_Options out =
      [NewDHCPOption DHCPOptMessageType [DHCPMsgTypeDecline];
       NewDHCPOption DHCPOptRequestIP ip_10_0_0_5;
       NewDHCPOption DHCPOptServerID ip_10_0_0_1;
       NewDHCPOption DHCPOptEnd []] /\
    dhcp_ClientHWAddr out = clientMAC.
Proof.
  destruct (offer_handshake_request (H := GoNet.lib) (env 1000 None)
              (frame offer5) (initRunState (handler declineOptions)) offer5
              eq_refl eq_refl eq_refl)
    as (st' & udp & out & E & Hsent & Hxid & Hopts & _ & Hhw).
  exists st', udp, out. repeat split; assumption.
Defined.

(** Two ACKs for 10.0.0.5 with interface binding: the second, from
    another hardware address and a second later, changes nothing. *)
Lemma first_ack_wins_witness :
  exists st1 st' lease,
    processMessage (H := GoNet.lib) (env 1000 None) (frame ack5)
      (initRunState (handler bindOptions)) = Ok (tt, st1) /\
    runLoop (H := GoNet.lib)
      [(env 1000 None, frame ack5); (env 2000 None, frame ack5again)]
      (initRunState (handler bindOptions)) = Ok (tt, st') /\
    acquiredIPs (hdl st') !! "10.0.0.5"%string = Some lease /\
    lease_HwAddr lease = clientMAC /\
    lease_Acquired lease = 1000 /\
    size (acquiredIPs (hdl st')) = 1%nat /\
    addrAdds (trace st') = addrAdds (trace st1).
Proof.
  assert (Hack : forall d,
             replyClassOf d = Some ClassAck ->
             dhcp_YourClientIP d = ip_10_0_0_5 ->
             ackFor bindOptions ip_10_0_0_5 (frame d)).
  { intros d Hc Hy. exists d. repeat split; try done; by eexists. }
  destruct (first_ack_wins (H := GoNet.lib) (env 1000 None) (frame ack5) ack5
              [(env 2000 None, frame ack5again)]
              (initRunState (handler bindOptions)) ip_10_0_0_5)
    as (st1 & st' & lease & E1 & E & Hlook & Hhw & Hacq & Hsize & _ & _
        & Hadds & _).
  - reflexivity.
  - reflexivity.
  - reflexivity.
  - by apply Hack.
  - repeat constructor. by apply Hack.
  - exists st1, st', lease. repeat split; assumption.
Defined.

(** An ACK for 10.0.0.5 from the server at 10.0.0.1, release mode. *)
Lemma ack_release_unicast_witness :
  exists st' relEth relIp udp out,
    processMessage (H := GoNet.lib) (env 1000 None) (frame ack5)
      (initRunState (handler releaseOptions)) = Ok (tt, st') /\
    sentPayloads (trace st') =
      [[LEthernet relEth; LIPv4 relIp; LUDP udp; LDHCPv4 out]] /\
    ip_DstIP relIp = ip_10_0_0_1 /\
    dhcp_ClientIP out = ip_10_0_0_5 /\
    dhcp_Flags out = 0 /\
    dhcp_Options out =
      [NewDHCPOption DHCPOptMessageType [DHCPMsgTypeRelease];
       NewDHCPOption DHCPOptEnd []] /\
    dhcp_Xid out = 0x1234 /\
    dhcp_ClientHWAddr out = clientMAC.
Proof.
  destruct (ack_release_unicast (H := GoNet.lib) (env 1000 None) (frame ack5)
              (initRunState (handler releaseOptions)) ack5
              serverEthernet serverIPv4 eq_refl eq_refl eq_refl eq_refl
              eq_refl)
    as (st' & relEth & relIp & udp & out & E & Hsent & _ & Hdst & _ & Hcip
        & Hflags & Hopts & Hxid & Hhw).
  exists st', relEth, relIp, udp, out. repeat split; assumption.
Defined.

(** Two RELEASEs back to back, for 10.0.0.5 and then for 10.0.0.9. *)
Lemma release_restores_template_witness :
  exists st' st2 st2' payload,
    processMessage (H := GoNet.lib) (env 1000 None) (frame ack5)
      (initRunState (handler releaseOptions)) = Ok (tt, st') /\
    dhcp_ClientIP (outDhcpLayer st') = [] /\
    dhcp_Flags (outDhcpLayer st') = 0x8000 /\
    processMessage (H := GoNet.lib) (env 2000 None) (frame ack9) st'
      = Ok (tt, st2') /\
    processMessage (H := GoNet.lib) (env 2000 None) (frame ack9)
      (initRunState (handler releaseOptions)) = Ok (tt, st2) /\
    sentPayloads (trace st2') = sentPayloads (trace st') ++ [payload] /\
    sentPayloads (trace st2) = [payload] /\
    dhcp_ClientIP (outDhcpLayer st2') = [] /\
    dhcp_Flags (outDhcpLayer st2') = 0x8000.
Proof.
  destruct (release_restores_template (H := GoNet.lib) (env 1000 None)
              (frame ack5) (initRunState (handler releaseOptions)) ack5
              serverEthernet serverIPv4 eq_refl eq_refl eq_refl eq_refl
              eq_refl)
    as (st' & E & Hcip & Hflags & Hnext).
  destruct (Hnext (env 2000 None) (frame ack9) ack9 serverEthernet serverIPv4
              eq_refl eq_refl eq_refl eq_refl)
    as (st2 & st2' & payload & E2' & E2 & Hsent' & Hsent & Hcip2 & Hflags2).
  exists st', st2, st2', payload. repeat split; assumption.
Defined.

(** An ACK after an OFFER, release mode, no relay: the pseudo-header is
    0.0.0.0 -> 255.255.255.255 while the packet goes 10.0.0.5 ->
    10.0.0.1. *)
Lemma release_checksum_uses_template_witness :
  exists st' relEth relIp udp out pseudo,
    Run (H := GoNet.lib) (handler releaseOptions)
      [(env 500 None, frame offer5)] = Ok (tt, afterOffer) /\
    processMessage (H := GoNet.lib) (env 1000 None) (frame ack5) afterOffer
      = Ok (tt, st') /\
    sentPayloads (trace st') =
      sentPayloads (trace afterOffer) ++
      [[LEthernet relEth; LIPv4 relIp; LUDP udp; LDHCPv4 out]] /\
    udp_pseudoheader udp = Some pseudo /\
    ip_SrcIP pseudo = net_IPv4 x00 x00 x00 x00 /\
    ip_DstIP pseudo = net_IPv4 xff xff xff xff /\
    ip_SrcIP relIp = ip_10_0_0_5 /\
    ip_DstIP relIp = ip_10_0_0_1.
Proof.
  assert (Hrun : Run (H := GoNet.lib) (handler releaseOptions)
                   [(env 500 None, frame offer5)] = Ok (tt, afterOffer))
    by (vm_compute; reflexivity).
  destruct (release_checksum_uses_template (H := GoNet.lib)
              (handler releaseOptions) [(env 500 None, frame offer5)]
              afterOffer (env 1000 None) (frame ack5) ack5
              serverEthernet serverIPv4 Hrun eq_refl eq_refl eq_refl eq_refl
              eq_refl)
    as (st' & relEth & relIp & udp & out & pseudo & E & Hsent & Hps & _
        & Hpsrc & Hpdst & Hsrc & Hdst).
  exists st', relEth, relIp, udp, out, pseudo. repeat split; assumption.
Defined.

(** A NAK whose message-type option comes first. *)
Lemma nak_stat_only_witness :
  exists st',
    processMessage (H := GoNet.lib) (env 1000 None) (frame nak5)
      (initRunState (handler declineOptions)) = Ok (tt, st') /\
    recordedStats (trace st') = [NakReceivedStat] /\
    sentPayloads (trace st') = [].
Proof.
  destruct (nak_stat_only (H := GoNet.lib) (env 1000 None) (frame nak5)
              (initRunState (handler declineOptions)) nak5 eq_refl eq_refl)
    as (st' & E & _ & Hstats & Hsent & _).
  exists st'. repeat split; assumption.
Defined.


(** Classification reads the first option slot for NAK: a reply whose
    message-type option says NAK but comes second is not counted. *)
Example nak_behind_server_id_not_counted :
  replyMsgTypeOf nakSecond = Some DHCPMsgTypeNak /\
  replyClassOf nakSecond = Some ClassOther /\
  exists st',
    processMessage (H := GoNet.lib) (env 1000 None) (frame nakSecond)
      (initRunState (handler declineOptions)) = Ok (tt, st') /\
    trace st' = [].
Proof.
  split; [vm_compute; reflexivity|]. split; [vm_compute; reflexivity|].
  eexists. split; vm_compute; reflexivity.
Qed.


(** C5. A reply with no option at all, and a reply whose message-type
    option has an empty payload, are not skipped: the index read of the
    first byte of the message-type payload panics, which ends the loop, so
    that an OFFER queued behind such a reply is never answered, whereas on
    its own it is. *)
Theorem malformed_reply_halts_worker :
  processMessage (H := GoNet.lib) (env 1000 None) (frame noOptions)
    (initRunState (handler declineOptions)) = Panic IndexOutOfRange /\
  processMessage (H := GoNet.lib) (env 1000 None) (frame emptyMessageType)
    (initRunState (handler declineOptions)) = Panic IndexOutOfRange /\
  Run (H := GoNet.lib) (handler declineOptions)
    [(env 1000 None, frame noOptions); (env 2000 None, frame offer5)]
    = Panic IndexOutOfRange /\
  exists st,
    Run (H := GoNet.lib) (handler declineOptions)
      [(env 2000 None, frame offer5)] = Ok (tt, st) /\
    recordedStats (trace st) = [OfferReceivedStat; DeclineSentStat].
Proof.
  split; [|split; [|split]].
  - eapply processMessage_unclassifiable; [reflexivity|].
    vm_compute. reflexivity.
  - eapply processMessage_unclassifiable; [reflexivity|].
    vm_compute. reflexivity.
  - eapply malformed_reply_panics; [reflexivity|]. vm_compute. reflexivity.
  - eexists. split; vm_compute; reflexivity.
Qed.

(** C6, as stated, fails: an ARP request for 10.0.0.5 with no lease in
    the table sends nothing, but the ARP-request-received statistic is
    recorded. *)
Lemma arp_without_lease_records_statistic :
  acquiredIPs (handler arpOptions) !! IP_String (NetLib := GoNet.lib) ip_10_0_0_5
    = None /\
  exists st',
    processMessage (H := GoNet.lib) (env 1000 None) arpWhoHas5
      (initRunState (handler arpOptions)) = Ok (tt, st') /\
    sentPayloads (trace st') = [] /\
    recordedStats (trace st') = [ArpRequestReceivedStat] /\
    recordedStats (trace st') <>
    recordedStats (trace (initRunState (handler arpOptions))).
Proof.
  split; [vm_compute; reflexivity|].
  eexists. split; [vm_compute; reflexivity|]. by repeat split.
Qed.

(** The same request before any ACK and after the ACK for 10.0.0.5. *)
Lemma arp_reply_only_for_lease_witness :
  (exists st',
     processMessage (H := GoNet.lib) (env 1000 None) arpWhoHas5
       (initRunState (handler arpOptions)) = Ok (tt, st') /\
     sentPayloads (trace st') = [] /\
     recordedStats (trace st') = [ArpRequestReceivedStat]) /\
  (exists st' eth reply,
     processMessage (H := GoNet.lib) (env 1000 None) arpWhoHas5 afterAckArp
       = Ok (tt, st') /\
     sentPayloads (trace st') = [[LEthernet eth; LARP reply]] /\
     arp_Operation reply = ARPReply /\
     arp_SourceProtAddress reply = ip_10_0_0_5 /\
     arp_SourceHwAddress reply = ifaceMAC).
Proof.
  split.
  - destruct (arp_reply_only_for_lease (H := GoNet.lib) (env 1000 None)
                arpWhoHas5 (initRunState (handler arpOptions)) _
                eq_refl eq_refl)
      as (st' & E & _ & _ & _ & Hnone).
    destruct (Hnone eq_refl) as [Hsent Hstats].
    exists st'. repeat split; assumption.
  - destruct (arp_reply_only_for_lease (H := GoNet.lib) (env 1000 None)
                arpWhoHas5 afterAckArp _ eq_refl eq_refl)
      as (st' & E & _ & _ & Hsome & _).
    destruct (Hsome _ eq_refl eq_refl)
      as (eth & reply & Hsent & Hop & Hprot & Hhw).
    exists st', eth, reply. repeat split; assumption.
Defined.

(** C7. With interface binding enabled and an ACK for 10.0.0.5 whose
    [netlink.AddrAdd] fails, the lease is recorded without a binding
    handle, and [DeInit] still calls [netlink.AddrDel] for it, with a nil
    address. *)
Theorem DeInit_attempts_unbound_lease :
  exists st1 st2 lease,
    Run (H := GoNet.lib) (handler bindOptions)
      [(env 1000 (Some "file exists"%string), frame ack5)] = Ok (tt, st1) /\
    acquiredIPs (hdl st1) !! "10.0.0.5"%string = Some lease /\
    lease_LinkAddr lease = None /\
    trace st1 =
      [EStat AckReceivedStat; EAddrAdd addr_10_0_0_5;
       EError "file exists"] /\
    DeInit addrDelOk st1 = Ok (tt, st2) /\
    addrDels (trace st2) = [None].
Proof.
  eexists _, _, _.
  split; [vm_compute; reflexivity|].
  split; [vm_compute; reflexivity|].
  split; [reflexivity|].
  split; [vm_compute; reflexivity|].
  split; vm_compute; reflexivity.
Qed.

(** The spec's scenario: with a successful binding the lease holds the
    handle and [DeInit] removes that address. *)
Example DeInit_removes_bound_address :
  exists st1 st2 lease,
    Run (H := GoNet.lib) (handler bindOptions)
      [(env 1000 None, frame ack5)] = Ok (tt, st1) /\
    acquiredIPs (hdl st1) !! "10.0.0.5"%string = Some lease /\
    lease_LinkAddr lease = Some addr_10_0_0_5 /\
    DeInit addrDelOk st1 = Ok (tt, st2) /\
    addrDels (trace st2) = [Some addr_10_0_0_5].
Proof.
  eexists _, _, _.
  split; [vm_compute; reflexivity|].
  split; [vm_compute; reflexivity|].
  split; [reflexivity|].
  split; vm_compute; reflexivity.
Qed.

(** * More about the loop *)

Lemma extend_nil s : extend [] s = s.
Proof. destruct s. unfold extend. simpl. by rewrite app_nil_r. Qed.

Lemma extend_extend a b s : extend b (extend a s) = extend (a ++ b) s.
Proof. unfold extend. simpl. by rewrite app_assoc. Qed.

Section Branches.
Context `{NetLib}.

Lemma handleARP_closed h env msg arp s :
  Layer_ARP (msg_Packet msg) = Some arp ->
  handleARP h env msg s = Ok (tt, extend (arpEffects h env arp) s).
Proof.
  intros Hlayer. unfold handleARP, arpEffects. rewrite Hlayer.
  unfold assertLayer. rewrite bind_ret.
  destruct (arp_Operation arp =? ARPRequest).
  - destruct (acquiredIPs h !! _) as [lease|].
    + mexec. unfold extend.
      destruct (env_sendPayload env); simpl; by rewrite <- ?app_assoc.
    + by rewrite extend_nil.
  - by rewrite extend_nil.
Qed.

Lemma onOffer_closed h env offer s :
  onOffer h env offer (replyOptionsOf (dhcp_Options offer)) s =
  Ok (tt,
      if Handshake (options h) then
        {| hdl := hdl s; ethernetLayer := ethernetLayer s;
           ipLayer := ipLayer s;
           udpLayer := set_pseudoheader (ipLayer s) (udpLayer s);
           outDhcpLayer := requestLayer h (outDhcpLayer s) offer;
           trace :=
             trace s ++
             EStat OfferReceivedStat
             :: ESend [LEthernet (ethernetLayer s); LIPv4 (ipLayer s);
                       LUDP (set_pseudoheader (ipLayer s) (udpLayer s));
                       LDHCPv4 (requestLayer h (outDhcpLayer s) offer)]
             :: (if env_sendPayload env
                 then [EStat (if DhcpDecline (options h) then DeclineSentStat
                              else RequestSentStat)]
                 else []) |}
      else extend [EStat OfferReceivedStat] s).
Proof.
  unfold onOffer. destruct (Handshake (options h)).
  - mexec. unfold requestLayer.
    destruct (env_sendPayload env); simpl; rewrite <- ?app_assoc;
      reflexivity.
  - mexec. reflexivity.
Qed.

Lemma onAckLease_closed h env msg ack s :
  acquiredIPs (hdl s) = acquiredIPs h ->
  onAckLease h env msg ack s = Ok (tt, afterLease h env msg ack s).
Proof.
  intros Htbl. unfold onAckLease, afterLease, createsLease, newLease,
    bindOutcome.
  destruct (Arp (options h) || Bind (options h)); [|done].
  unfold when at 1. simpl andb.
  destruct (acquiredIPs h !! _) eqn:Elook.
  { by rewrite bool_decide_eq_false_2. }
  rewrite bool_decide_eq_true_2 by done.
  destruct (Bind (options h)).
  2:{ mexec. by rewrite Htbl, app_nil_r. }
  unfold when.
  destruct (ParseAddr _) as [addr|err].
  2:{ mexec. by rewrite Htbl. }
  destruct (env_AddrAdd env) as [err|]; mexec;
    rewrite Htbl, <- ?app_assoc, ?alter_insert_eq; reflexivity.
Qed.

Lemma onAckRelease_panics h env msg ack s :
  DhcpRelease (options h) || DhcpInfo (options h) = true ->
  Layer_Ethernet (msg_Packet msg) = None \/
  Layer_IPv4 (msg_Packet msg) = None ->
  onAckRelease h env msg ack s = Panic NilInterfaceConversion.
Proof.
  intros Emode Hmiss. unfold onAckRelease. rewrite Emode.
  destruct (Layer_Ethernet (msg_Packet msg)) as [eth|],
    (Layer_IPv4 (msg_Packet msg)) as [iph|];
    [by destruct Hmiss| | |]; mexec; reflexivity.
Qed.

End Branches.

Lemma reportedErrors_app t1 t2 :
  reportedErrors (t1 ++ t2) = reportedErrors t1 ++ reportedErrors t2.
Proof. apply omap_app. Qed.

Section Iteration.
Context `{NetLib}.

Lemma processMessage_arp env msg st :
  dispatchedToARP (options (hdl st)) msg = true ->
  exists arp,
    Layer_ARP (msg_Packet msg) = Some arp /\
    processMessage env msg st =
    Ok (tt, extend (EStat ArpRequestReceivedStat
                    :: arpEffects (hdl st) env arp) st).
Proof.
  unfold dispatchedToARP. intros Hd.
  apply andb_true_iff in Hd as [Earp Hsome].
  apply bool_decide_eq_true_1 in Hsome as [arp Hlayer].
  exists arp. split; [done|]. unfold processMessage.
  unfold mbind at 1, M_bind at 1, gets at 1.
  rewrite Earp, Hlayer, bool_decide_eq_true_2 by by eexists.
  change (true && true) with true. cbv iota.
  unfold addStat, emit, modify. unfold mbind at 1, M_bind at 1.
  cbv beta iota. rewrite (handleARP_closed _ _ _ arp) by done.
  unfold record, extend. simpl. by rewrite <- app_assoc.
Qed.

Lemma processMessage_no_reply env msg st :
  dispatchedToARP (options (hdl st)) msg = false ->
  Layer_DHCPv4 (msg_Packet msg) = None ->
  processMessage env msg st = Ok (tt, st).
Proof.
  unfold dispatchedToARP, processMessage. intros Hd Hlayer.
  unfold mbind at 1, M_bind at 1, gets at 1. by rewrite Hd, Hlayer.
Qed.

Lemma processMessage_ack env msg st ack :
  dhcpReplyOf (options (hdl st)) msg = Some ack ->
  replyClassOf ack = Some ClassAck ->
  processMessage env msg st =
  onAckRelease (hdl st) env msg ack
    (afterLease (hdl st) env msg ack (extend [EStat AckReceivedStat] st)).
Proof.
  intros Hreply Hclass.
  rewrite (processMessage_reply _ _ _ _ _ Hreply Hclass).
  unfold addStat, emit, modify.
  unfold mbind at 1, M_bind at 1. cbv beta iota.
  unfold mbind at 1, M_bind at 1.
  by rewrite (onAckLease_closed (hdl st) env msg ack
                (record (EStat AckReceivedStat) st) eq_refl).
Qed.

Lemma processMessage_outcome env msg st st' :
  processMessage env msg st = Ok (tt, st') -> Outcome env msg st st'.
Proof.
  intros E.
  destruct (dispatchedToARP (options (hdl st)) msg) eqn:Hd.
  { destruct (processMessage_arp env msg st Hd) as (arp & Hlayer & E').
    rewrite E' in E. injection E as <-. by eapply OutcomeArp. }
  destruct (Layer_DHCPv4 (msg_Packet msg)) as [reply|] eqn:Hlayer.
  2:{ rewrite processMessage_no_reply in E by done. injection E as <-.
      apply OutcomeIgnored; auto. }
  assert (Hreply : dhcpReplyOf (options (hdl st)) msg = Some reply).
  { unfold dhcpReplyOf. by rewrite Hd. }
  destruct (replyClassOf reply) as [cls|] eqn:Hclass.
  2:{ by rewrite (processMessage_unclassifiable _ _ _ _ Hreply Hclass) in E. }
  destruct cls.
  - rewrite (processMessage_reply _ _ _ _ _ Hreply Hclass) in E.
    by eapply OutcomeOffer.
  - rewrite (processMessage_ack _ _ _ _ Hreply Hclass) in E.
    by eapply OutcomeAck.
  - rewrite (processMessage_reply _ _ _ _ _ Hreply Hclass) in E.
    injection E as <-. by eapply OutcomeNak.
  - rewrite (processMessage_reply _ _ _ _ _ Hreply Hclass) in E.
    injection E as <-. apply OutcomeIgnored; eauto.
Qed.

End Iteration.

Lemma sentStats_app t1 t2 : sentStats (t1 ++ t2) = sentStats t1 ++ sentStats t2.
Proof. apply omap_app. Qed.

Section IterationFacts.
Context `{NetLib}.

(** How the synthesis part of the ACK branch can return. *)
Lemma onAckRelease_returns h env msg ack s s' :
  onAckRelease h env msg ack s = Ok (tt, s') ->
  (DhcpRelease (options h) || DhcpInfo (options h) = false /\ s' = s) \/
  (DhcpRelease (options h) || DhcpInfo (options h) = true /\
   exists eth iph,
     Layer_Ethernet (msg_Packet msg) = Some eth /\
     Layer_IPv4 (msg_Packet msg) = Some iph /\
     fixedPart s' = fixedPart s /\
     acquiredIPs (hdl s') = acquiredIPs (hdl s) /\
     fixedDhcp (outDhcpLayer s') = fixedDhcp (outDhcpLayer s) /\
     dhcp_ClientIP (outDhcpLayer s') = dhcp_ClientIP (outDhcpLayer s) /\
     dhcp_Flags (outDhcpLayer s') = dhcp_Flags (outDhcpLayer s) /\
     trace s' =
       trace s ++
       ESend (releaseStack h (ipLayer s) (udpLayer s) (outDhcpLayer s)
                ack eth iph)
       :: (if env_sendPayload env
           then [EStat (if DhcpInfo (options h) then InfoSentStat
                        else ReleaseSentStat)]
           else [])).
Proof.
  intros E.
  destruct (DhcpRelease (options h) || DhcpInfo (options h)) eqn:Emode.
  2:{ left. rewrite onAckRelease_off in E by done. by injection E as <-. }
  right. split; [done|].
  destruct (Layer_Ethernet (msg_Packet msg)) as [eth|] eqn:Eeth.
  2:{ rewrite onAckRelease_panics in E; [done|done|by left]. }
  destruct (Layer_IPv4 (msg_Packet msg)) as [iph|] eqn:Eip.
  2:{ rewrite onAckRelease_panics in E; [done|done|by right]. }
  destruct (onAckRelease_spec h env msg ack s eth iph Emode Eeth Eip)
    as (s2 & E2 & Hspec).
  rewrite E2 in E. injection E as <-. by exists eth, iph.
Qed.

Lemma afterLease_trace h env msg ack s :
  trace (afterLease h env msg ack s) = trace s ++ leaseEffects h env ack.
Proof.
  unfold afterLease, leaseEffects.
  destruct (createsLease h ack); [done|]. by rewrite app_nil_r.
Qed.

Lemma afterLease_templates h env msg ack s :
  fixedPart (afterLease h env msg ack s) = fixedPart s /\
  udpLayer (afterLease h env msg ack s) = udpLayer s /\
  outDhcpLayer (afterLease h env msg ack s) = outDhcpLayer s.
Proof. unfold afterLease. by destruct (createsLease h ack). Qed.

Lemma leaseEffects_quiet h env ack :
  sentPayloads (leaseEffects h env ack) = [] /\
  recordedStats (leaseEffects h env ack) = [] /\
  sentStats (leaseEffects h env ack) = [].
Proof.
  unfold leaseEffects, bindOutcome.
  destruct (createsLease h ack); [|done].
  destruct (Bind (options h)); [|done].
  destruct (ParseAddr _); [|done]. by destruct (env_AddrAdd env).
Qed.

End IterationFacts.

Ltac count_tac := simpl; repeat split; first [done | lia].

(** ** When the worker stops, and what one message can cause *)

Section Extras.
Context `{NetLib}.

Lemma processMessage_iterationPanic env msg st :
  match iterationPanic (options (hdl st)) msg with
  | Some why => processMessage env msg st = Panic why
  | None => exists st', processMessage env msg st = Ok (tt, st')
  end.
Proof.
  unfold iterationPanic.
  destruct (dhcpReplyOf (options (hdl st)) msg) as [reply|] eqn:Hreply.
  - destruct (replyClassOf reply) as [[| | |]|] eqn:Hclass.
    + rewrite (processMessage_reply _ _ _ _ _ Hreply Hclass).
      rewrite onOffer_closed. by eexists.
    + rewrite (processMessage_ack _ _ _ _ Hreply Hclass).
      destruct (DhcpRelease _ || DhcpInfo _) eqn:Emode.
      * destruct (Layer_Ethernet (msg_Packet msg)) as [eth|] eqn:Eeth.
        2:{ simpl. apply onAckRelease_panics; auto. }
        destruct (Layer_IPv4 (msg_Packet msg)) as [iph|] eqn:Eip.
        2:{ rewrite (bool_decide_eq_false_2 (is_Some None))
              by (by intros [? ?]).
            rewrite andb_false_r. simpl.
            apply onAckRelease_panics; auto. }
        rewrite !bool_decide_eq_true_2 by (by eexists). simpl.
        match goal with |- context [onAckRelease _ _ _ _ ?s] =>
          destruct (onAckRelease_spec (hdl st) env msg reply s eth iph
                      Emode Eeth Eip) as (s' & E & _)
        end.
        by exists s'.
      * simpl. rewrite onAckRelease_off by done. by eexists.
    + rewrite (processMessage_reply _ _ _ _ _ Hreply Hclass). by eexists.
    + rewrite (processMessage_reply _ _ _ _ _ Hreply Hclass). by eexists.
    + by eapply processMessage_unclassifiable.
  - unfold dhcpReplyOf in Hreply.
    destruct (dispatchedToARP (options (hdl st)) msg) eqn:Hd.
    + destruct (processMessage_arp env msg st Hd) as (arp & _ & E).
      by eexists.
    + exists st. by apply processMessage_no_reply.
Qed.

(** X1. An iteration panics in exactly two situations: the reply reaches
    the classification and an index read there is out of range (no
    message-type payload, or, for a type other than OFFER and ACK, no
    first option or an empty one), or the reply is an ACK, a RELEASE or
    INFORM is to be built, and the frame lacks its Ethernet or IPv4
    layer. In every other situation the iteration returns. *)
Theorem iteration_panics_exactly env msg st :
  (forall why,
     processMessage env msg st = Panic why <->
     iterationPanic (options (hdl st)) msg = Some why) /\
  ((exists st', processMessage env msg st = Ok (tt, st')) <->
   iterationPanic (options (hdl st)) msg = None).
Proof.
  pose proof (processMessage_iterationPanic env msg st) as Hp.
  destruct (iterationPanic (options (hdl st)) msg) as [why0|].
  - rewrite Hp. split.
    + intros why. split; congruence.
    + split; [by intros [st' ?]|done].
  - destruct Hp as [st' ->]. split.
    + intros why. split; discriminate.
    + split; [done|]. intros _. by exists st'.
Qed.

(** X2. An iteration that returns only appends to the calls made, hands
    at most one payload to the transmitter, and records a sent-statistic
    exactly when a payload was handed over and the transmitter accepted
    it. *)
Theorem iteration_at_most_one_payload env msg st st' :
  processMessage env msg st = Ok (tt, st') ->
  exists new,
    trace st' = trace st ++ new /\
    (length (sentPayloads new) <= 1)%nat /\
    length (sentStats new) =
      (if env_sendPayload env then length (sentPayloads new) else 0%nat).
Proof.
  intros E. destruct (processMessage_outcome env msg st st' E)
    as [arp _ _ ->| _ _ ->|offer _ _ E'|ack _ _ E'|nak _ _ ->].
  - eexists. split; [reflexivity|]. unfold arpEffects.
    destruct (_ =? _); [|destruct (env_sendPayload env); count_tac].
    destruct (_ !! _); destruct (env_sendPayload env); count_tac.
  - exists []. rewrite app_nil_r. destruct (env_sendPayload env); count_tac.
  - rewrite onOffer_closed in E'. injection E' as <-.
    destruct (Handshake _); eexists; (split; [reflexivity|]);
      destruct (env_sendPayload env); simpl; try count_tac.
    destruct (DhcpDecline _); count_tac.
  - destruct (leaseEffects_quiet (hdl st) env ack) as (Hs & _ & Hss).
    apply onAckRelease_returns in E'
      as [[_ ->]|(_ & eth & iph & _ & _ & _ & _ & _ & _ & _ & ->)];
      rewrite afterLease_trace; simpl; rewrite <- !app_assoc;
      eexists; (split; [reflexivity|]);
      rewrite !sentPayloads_app, !sentStats_app, Hs, Hss; simpl.
    + destruct (env_sendPayload env); count_tac.
    + destruct (env_sendPayload env); simpl; [|count_tac].
      destruct (DhcpInfo _); count_tac.
  - eexists. split; [reflexivity|]. destruct (env_sendPayload env); count_tac.
Qed.

Lemma runLoop_preserves (P : RunState -> Prop) inputs :
  (forall env msg, preserves P (processMessage env msg)) ->
  preserves P (runLoop inputs).
Proof.
  intros Hstep. induction inputs as [|[env msg] rest IH]; simpl.
  - apply preserves_ret.
  - apply preserves_bind; [apply Hstep | intros _; exact IH].
Qed.

(** The fields of the DHCP template an iteration leaves as they were:
    all but the transaction ID, the options and the client hardware
    address. *)
Lemma processMessage_template env msg v :
  preserves (fun s => (dhcp_Flags (outDhcpLayer s),
                       dhcp_ClientIP (outDhcpLayer s),
                       fixedDhcp (outDhcpLayer s)) = v)
            (processMessage env msg).
Proof.
  intros st [] st' <- E.
  destruct (processMessage_outcome env msg st st' E)
    as [arp _ _ ->| _ _ ->|offer _ _ E'|ack _ _ E'|nak _ _ ->];
    try reflexivity.
  - rewrite onOffer_closed in E'. injection E' as <-.
    by destruct (Handshake _).
  - destruct (afterLease_templates (hdl st) env msg ack
                (extend [EStat AckReceivedStat] st)) as (_ & _ & Hout).
    apply onAckRelease_returns in E'
      as [[_ ->]|(_ & eth & iph & _ & _ & _ & _ & Hd & Hc & Hf & _)].
    + by rewrite Hout.
    + by rewrite Hd, Hc, Hf, Hout.
Qed.

(** X3. Whatever messages [Run] has processed, the REQUEST or DECLINE it
    sends for the next OFFER is the same packet: Ethernet and IP
    addressing as set up before the loop (broadcast, gateway or relay),
    UDP source port 68 (67 in relay mode) with the IP template as
    checksum network layer, and a DHCP layer with the broadcast flag as
    configured, an empty client IP, the relay gateway as relay agent in
    relay mode, and the transaction ID, addresses and server identifier
    of the OFFER. In particular the RELEASE and INFORM packets sent
    earlier leave no trace in it. *)
Theorem Run_request_packet h inputs st env msg offer :
  Run h inputs = Ok (tt, st) ->
  dhcpReplyOf (options h) msg = Some offer ->
  replyClassOf offer = Some ClassOffer ->
  Handshake (options h) = true ->
  exists st',
    processMessage env msg st = Ok (tt, st') /\
    sentPayloads (trace st') =
      sentPayloads (trace st) ++
      [[LEthernet
          {| eth_DstMAC :=
               if DhcpRelay (options h) then GatewayMAC h
               else if EthernetBroadcast_opt (options h)
                    then EthernetBroadcast else GatewayMAC h;
             eth_SrcMAC := iface_HardwareAddr h;
             eth_EthernetType := EthernetTypeIPv4;
             eth_Length := 0 |};
        LIPv4 (init_ipLayer h);
        LUDP {| udp_SrcPort := if DhcpRelay (options h) then 67 else 68;
                udp_DstPort := TargetPort (options h) mod 65536;
                udp_pseudoheader := Some (init_ipLayer h) |};
        LDHCPv4
          {| dhcp_Operation := DHCPOpRequest;
             dhcp_HardwareType := LinkTypeEthernet;
             dhcp_HardwareLen := 6;
             dhcp_Xid := dhcp_Xid offer;
             dhcp_Flags := if DhcpBroadcast (options h) then 0x8000 else 0;
             dhcp_ClientIP := [];
             dhcp_YourClientIP := [];
             dhcp_NextServerIP := [];
             dhcp_RelayAgentIP :=
               if DhcpRelay (options h) then RelayGatewayIP (options h)
               else [];
             dhcp_ClientHWAddr := dhcp_ClientHWAddr offer;
             dhcp_Options :=
               [NewDHCPOption DHCPOptMessageType
                  [if DhcpDecline (options h) then DHCPMsgTypeDecline
                   else DHCPMsgTypeRequest];
                NewDHCPOption DHCPOptRequestIP (dhcp_YourClientIP offer);
                NewDHCPOption DHCPOptServerID
                  (opt_Data (default zeroOption
                     (lastOptionOf DHCPOptServerID (dhcp_Options offer))));
                NewDHCPOption DHCPOptEnd []] |}]].
Proof.
  intros Hrun Hreply Hclass Hhs.
  pose proof (Run_fixed h inputs st Hrun) as Hfix.
  pose proof (runLoop_preserves _ inputs
                (fun env msg => processMessage_template env msg _)
                (initRunState h) tt st eq_refl Hrun) as Htpl.
  injection Hfix as Hopts _ Hif _ Heth Hip Hsp Hdp.
  injection Htpl as Hflags Hcip Hop Hht Hhl Hy Hn Hr.
  rewrite <- Hopts in Hreply.
  rewrite (processMessage_reply _ _ _ _ _ Hreply Hclass), onOffer_closed.
  rewrite Hopts, Hhs. eexists. split; [reflexivity|]. simpl.
  rewrite sentPayloads_app. simpl. f_equal.
  unfold requestLayer, set_pseudoheader.
  rewrite Heth, Hip, Hsp, Hdp, Hflags, Hcip, Hop, Hht, Hhl, Hy, Hn, Hr.
  rewrite ?Hopts, optionAt_replyOptionsOf.
  unfold init_ethernetLayer. simpl.
  destruct (env_sendPayload env), (DhcpRelay (options h)),
    (EthernetBroadcast_opt (options h)), (DhcpBroadcast (options h));
    reflexivity.
Qed.

(** ** The lease table and the bindings over a whole run *)

Lemma arpEffects_quiet h env arp :
  addrAdds (arpEffects h env arp) = [] /\
  reportedErrors (arpEffects h env arp) = [].
Proof.
  unfold arpEffects. destruct (_ =? _); [|done].
  destruct (_ !! _); [|done]. by destruct (env_sendPayload env).
Qed.

(** What one iteration does to the lease table and to netlink: nothing,
    unless it is an ACK that creates a lease. *)
Lemma iteration_table env msg st st' :
  processMessage env msg st = Ok (tt, st') ->
  (acquiredIPs (hdl st') = acquiredIPs (hdl st) /\
   addrAdds (trace st') = addrAdds (trace st) /\
   reportedErrors (trace st') = reportedErrors (trace st)) \/
  (exists ack,
     Layer_DHCPv4 (msg_Packet msg) = Some ack /\
     replyClassOf ack = Some ClassAck /\
     createsLease (hdl st) ack = true /\
     acquiredIPs (hdl st') =
       <[IP_String (dhcp_YourClientIP ack) := newLease (hdl st) env msg ack]>
         (acquiredIPs (hdl st)) /\
     addrAdds (trace st') =
       addrAdds (trace st) ++
       addrAdds (bindOutcome (hdl st) env
                   (IP_String (dhcp_YourClientIP ack))).2 /\
     reportedErrors (trace st') =
       reportedErrors (trace st) ++
       reportedErrors (bindOutcome (hdl st) env
                         (IP_String (dhcp_YourClientIP ack))).2).
Proof.
  intros E.
  destruct (processMessage_outcome env msg st st' E)
    as [arp _ _ ->| _ _ ->|offer _ _ E'|ack Hreply Hclass E'|nak _ _ ->].
  - left. destruct (arpEffects_quiet (hdl st) env arp) as [Ha He].
    simpl. rewrite (addrAdds_app _ (_ :: _)), (reportedErrors_app _ (_ :: _)).
    simpl. by rewrite Ha, He, !app_nil_r.
  - by left.
  - left. rewrite onOffer_closed in E'. injection E' as <-.
    destruct (Handshake _); simpl;
      rewrite (addrAdds_app _ (_ :: _)), (reportedErrors_app _ (_ :: _));
      simpl; destruct (env_sendPayload env); simpl;
      by rewrite !app_nil_r.
  - assert (Hlayer : Layer_DHCPv4 (msg_Packet msg) = Some ack).
    { unfold dhcpReplyOf in Hreply. by destruct (dispatchedToARP _ _). }
    set (s := afterLease (hdl st) env msg ack
                (extend [EStat AckReceivedStat] st)) in *.
    assert (Hrel : acquiredIPs (hdl st') = acquiredIPs (hdl s) /\
                   addrAdds (trace st') = addrAdds (trace s) /\
                   reportedErrors (trace st') = reportedErrors (trace s)).
    { apply onAckRelease_returns in E'
        as [[_ ->]|(_ & eth & iph & _ & _ & _ & -> & _ & _ & _ & ->)];
        [done|].
      rewrite addrAdds_app, reportedErrors_app. simpl.
      destruct (env_sendPayload env); simpl; by rewrite !app_nil_r. }
    destruct Hrel as (-> & -> & ->). subst s. unfold afterLease.
    destruct (createsLease (hdl st) ack) eqn:Ecreate.
    + right. exists ack. simpl.
      rewrite !addrAdds_app, !reportedErrors_app. simpl.
      by rewrite !app_nil_r.
    + left. simpl. rewrite addrAdds_app, reportedErrors_app. simpl.
      by rewrite !app_nil_r.
  - left. simpl. rewrite addrAdds_app, reportedErrors_app. simpl.
    by rewrite !app_nil_r.
Qed.

Lemma createsLease_fresh h ack :
  createsLease h ack = true ->
  Arp (options h) || Bind (options h) = true /\
  acquiredIPs h !! IP_String (dhcp_YourClientIP ack) = None.
Proof.
  unfold createsLease. intros [? Hb]%andb_true_iff.
  by apply bool_decide_eq_true_1 in Hb.
Qed.

(** X4. [Run] never removes or modifies a lease: a lease that is in the
    table at some point of the loop is there, unchanged, after any number
    of further messages, whatever they are. *)
Theorem leases_never_change inputs st st' key lease :
  runLoop inputs st = Ok (tt, st') ->
  acquiredIPs (hdl st) !! key = Some lease ->
  acquiredIPs (hdl st') !! key = Some lease.
Proof.
  intros E Hlease.
  refine (runLoop_preserves
            (fun s => acquiredIPs (hdl s) !! key = Some lease) inputs _
            st tt st' Hlease E).
  clear. intros env msg s [] s' Hs Estep.
  destruct (iteration_table env msg s s' Estep)
    as [(-> & _)|(ack & _ & _ & Hc & -> & _)]; [done|].
  apply createsLease_fresh in Hc as [_ Hfresh].
  rewrite lookup_insert_ne; [done|]. intros <-. congruence.
Qed.

(** X5. With interface binding disabled, [Run] never calls
    [netlink.AddrAdd], never reports an error, and no lease it creates
    holds a binding handle. *)
Theorem Run_without_bind h inputs st :
  Bind (options h) = false ->
  Run h inputs = Ok (tt, st) ->
  addrAdds (trace st) = [] /\
  reportedErrors (trace st) = [] /\
  forall key lease,
    acquiredIPs (hdl st) !! key = Some lease ->
    acquiredIPs h !! key = Some lease \/ lease_LinkAddr lease = None.
Proof.
  intros Ebind Hrun.
  pose (P := fun s : RunState =>
    options (hdl s) = options h /\
    addrAdds (trace s) = [] /\
    reportedErrors (trace s) = [] /\
    forall key lease,
      acquiredIPs (hdl s) !! key = Some lease ->
      acquiredIPs h !! key = Some lease \/ lease_LinkAddr lease = None).
  assert (HP : P st).
  { refine (runLoop_preserves P inputs _ (initRunState h) tt st _ Hrun).
    - clear st Hrun. unfold P.
      intros env msg s [] s' (Ho & Ha & He & Hl) Estep.
      assert (Ho' : options (hdl s') = options h).
      { pose proof (processMessage_fixed env msg _ s tt s' eq_refl Estep)
          as Hfix. injection Hfix as -> _. exact Ho. }
      destruct (iteration_table env msg s s' Estep)
        as [(-> & -> & ->)|(ack & _ & _ & _ & -> & -> & ->)]; [done|].
      unfold newLease, bindOutcome. rewrite Ho, Ebind, Ha, He.
      repeat split; try done.
      intros key lease.
      destruct (decide (IP_String (dhcp_YourClientIP ack) = key)) as [<-|Hne].
      + rewrite lookup_insert_eq. intros [= <-]. by right.
      + rewrite lookup_insert_ne by done. apply Hl.
    - repeat split; try done. intros key lease Hl. by left. }
  by destruct HP as (_ & ? & ? & ?).
Qed.

(** X6. With ARP defense and interface binding both disabled, [Run]
    leaves the lease table as it found it. *)
Theorem Run_without_lease_modes h inputs st :
  Arp (options h) = false ->
  Bind (options h) = false ->
  Run h inputs = Ok (tt, st) ->
  acquiredIPs (hdl st) = acquiredIPs h.
Proof.
  intros Earp Ebind Hrun.
  pose (P := fun s : RunState =>
    options (hdl s) = options h /\ acquiredIPs (hdl s) = acquiredIPs h).
  assert (HP : P st); [|by destruct HP].
  refine (runLoop_preserves P inputs _ (initRunState h) tt st _ Hrun);
    [|done].
  clear st Hrun. unfold P. intros env msg s [] s' (Ho & Ht) Estep.
  assert (Ho' : options (hdl s') = options h).
  { pose proof (processMessage_fixed env msg _ s tt s' eq_refl Estep)
      as Hfix. injection Hfix as -> _. exact Ho. }
  destruct (iteration_table env msg s s' Estep)
    as [(-> & _)|(ack & _ & _ & Hc & _)]; [done|].
  apply createsLease_fresh in Hc as [Hmode _].
  rewrite Ho, Earp, Ebind in Hmode. discriminate.
Qed.

Lemma runLoop_cons_inv env msg rest st st' :
  runLoop ((env, msg) :: rest) st = Ok (tt, st') ->
  exists s1,
    processMessage env msg st = Ok (tt, s1) /\
    runLoop rest s1 = Ok (tt, st').
Proof.
  simpl. unfold mbind, M_bind.
  destruct (processMessage env msg st) as [[[] s1]|]; [|done].
  intros E. by exists s1.
Qed.

(** X7. Every lease [Run] adds to the table comes from an ACK of its
    input: the key is the text of that ACK's your-client address, and the
    lease holds that message's packet and client hardware address and the
    time at which it was processed. *)
Theorem lease_provenance inputs :
  forall st st' key lease,
    runLoop inputs st = Ok (tt, st') ->
    acquiredIPs (hdl st') !! key = Some lease ->
    acquiredIPs (hdl st) !! key = Some lease \/
    exists env msg ack,
      (env, msg) ∈ inputs /\
      Layer_DHCPv4 (msg_Packet msg) = Some ack /\
      replyClassOf ack = Some ClassAck /\
      key = IP_String (dhcp_YourClientIP ack) /\
      lease_Packet lease = msg_Packet msg /\
      lease_HwAddr lease = dhcp_ClientHWAddr ack /\
      lease_Acquired lease = env_now env.
Proof.
  induction inputs as [|[env msg] rest IH]; intros st st' key lease E Hl.
  - injection E as <-. by left.
  - apply runLoop_cons_inv in E as (s1 & E1 & Erest).
    destruct (IH s1 st' key lease Erest Hl)
      as [Hl1|(env' & msg' & ack & Hin & Hrest)].
    2:{ right. exists env', msg', ack. split; [by right|done]. }
    destruct (iteration_table env msg st s1 E1)
      as [(Ht & _)|(ack & Hlayer & Hclass & _ & Ht & _)].
    + left. by rewrite <- Ht.
    + rewrite Ht in Hl1.
      destruct (decide (IP_String (dhcp_YourClientIP ack) = key)) as [<-|Hne].
      * rewrite lookup_insert_eq in Hl1. injection Hl1 as <-.
        right. exists env, msg, ack. split; [by left|done].
      * left. by rewrite lookup_insert_ne in Hl1.
Qed.

(** X8. In a run that starts with an empty lease table, a lease holds a
    binding handle only if interface binding is enabled, the handle is
    what [netlink.ParseAddr] makes of the lease's key followed by "/32",
    and [netlink.AddrAdd] was called with it; and [netlink.AddrAdd] is
    called at most once per lease. *)
Theorem Run_bound_leases h inputs st :
  acquiredIPs h = ∅ ->
  Run h inputs = Ok (tt, st) ->
  (forall key lease addr,
     acquiredIPs (hdl st) !! key = Some lease ->
     lease_LinkAddr lease = Some addr ->
     Bind (options h) = true /\
     ParseAddr (key +:+ "/32") = inl addr /\
     addr ∈ addrAdds (trace st)) /\
  (length (addrAdds (trace st)) <= size (acquiredIPs (hdl st)))%nat.
Proof.
  intros Hempty Hrun.
  pose (P := fun s : RunState =>
    options (hdl s) = options h /\
    (forall key lease addr,
       acquiredIPs (hdl s) !! key = Some lease ->
       lease_LinkAddr lease = Some addr ->
       Bind (options h) = true /\
       ParseAddr (key +:+ "/32") = inl addr /\
       addr ∈ addrAdds (trace s)) /\
    (length (addrAdds (trace s)) <= size (acquiredIPs (hdl s)))%nat).
  assert (HP : P st); [|by destruct HP as (_ & ? & ?)].
  refine (runLoop_preserves P inputs _ (initRunState h) tt st _ Hrun).
  - clear st Hrun. unfold P.
    intros env msg s [] s' (Ho & Hb & Hn) Estep.
    assert (Ho' : options (hdl s') = options h).
    { pose proof (processMessage_fixed env msg _ s tt s' eq_refl Estep)
        as Hfix. injection Hfix as -> _. exact Ho. }
    split; [exact Ho'|].
    destruct (iteration_table env msg s s' Estep)
      as [(-> & -> & _)|(ack & _ & _ & Hc & -> & -> & _)]; [done|].
    apply createsLease_fresh in Hc as [_ Hfresh].
    set (key0 := IP_String (dhcp_YourClientIP ack)) in *.
    assert (Hout :
      forall addr,
        (bindOutcome (hdl s) env key0).1 = Some addr ->
        Bind (options h) = true /\ ParseAddr (key0 +:+ "/32") = inl addr /\
        addrAdds (bindOutcome (hdl s) env key0).2 = [addr]).
    { unfold bindOutcome. rewrite Ho. intros addr.
      destruct (Bind (options h)); [|done].
      destruct (ParseAddr _) as [a|]; [|done].
      destruct (env_AddrAdd env); [done|]. by intros [= ->]. }
    assert (Hlen : (length (addrAdds (bindOutcome (hdl s) env key0).2) <= 1)%nat).
    { unfold bindOutcome. destruct (Bind (options (hdl s))); [|simpl; lia].
      destruct (ParseAddr _); [|simpl; lia].
      destruct (env_AddrAdd env); simpl; lia. }
    split.
    + intros key lease addr.
      destruct (decide (key0 = key)) as [<-|Hne].
      * rewrite lookup_insert_eq. intros [= <-] Hlink. simpl in Hlink.
        destruct (Hout addr Hlink) as (? & ? & Hadds).
        repeat split; try done. rewrite Hadds.
        apply elem_of_app. right. constructor.
      * rewrite lookup_insert_ne by done. intros Hl Hlink.
        destruct (Hb key lease addr Hl Hlink) as (? & ? & ?).
        repeat split; try done. apply elem_of_app. by left.
    + rewrite length_app, map_size_insert_None by done. lia.
  - unfold P. simpl. rewrite Hempty. by repeat split.
Qed.

(** ** ARP defense of a lease just acquired *)

(** X9. In ARP mode, once an ACK has given an address its lease, an ARP
    request for that address is answered in the next iteration with one
    ARP reply: addressed to the requester, with the request's sizes and
    types, claiming the address, and with the client hardware address of
    the ACK as source hardware address in fake-MAC mode, the interface's
    otherwise; the reply-sent statistic follows if the transmitter
    accepted the frame. *)
Theorem ack_then_arp_defended env1 msg1 ack env2 msg2 arp st ip :
  Arp (options (hdl st)) = true ->
  acquiredIPs (hdl st) !! IP_String ip = None ->
  ackFor (options (hdl st)) ip msg1 ->
  Layer_DHCPv4 (msg_Packet msg1) = Some ack ->
  Layer_ARP (msg_Packet msg2) = Some arp ->
  arp_Operation arp = ARPRequest ->
  arp_DstProtAddress arp = ip ->
  exists st1 st2,
    processMessage env1 msg1 st = Ok (tt, st1) /\
    processMessage env2 msg2 st1 = Ok (tt, st2) /\
    sentPayloads (trace st2) =
      sentPayloads (trace st1) ++
      [[LEthernet {| eth_DstMAC := arp_SourceHwAddress arp;
                     eth_SrcMAC := iface_HardwareAddr (hdl st);
                     eth_EthernetType := EthernetTypeARP;
                     eth_Length := 0 |};
        LARP {| arp_Operation := ARPReply;
                arp_DstHwAddress := arp_SourceHwAddress arp;
                arp_DstProtAddress := arp_SourceProtAddress arp;
                arp_HwAddressSize := arp_HwAddressSize arp;
                arp_AddrType := arp_AddrType arp;
                arp_ProtAddressSize := arp_ProtAddressSize arp;
                arp_Protocol := arp_Protocol arp;
                arp_SourceHwAddress :=
                  if ArpFakeMAC (options (hdl st)) then dhcp_ClientHWAddr ack
                  else iface_HardwareAddr (hdl st);
                arp_SourceProtAddress := ip |}]] /\
    recordedStats (trace st2) =
      recordedStats (trace st1) ++
      ArpRequestReceivedStat
      :: (if env_sendPayload env2 then [ArpReplySentStat] else []).
Proof.
  intros Earp Hfresh Hack Hlayer1 Hlayer2 Hop Hdst.
  destruct (ack_fresh_iteration env1 msg1 st ip ack Hack Hlayer1)
    as (st1 & lease & bound & E1 & Htbl & _ & Hhw & _); [|done|].
  { by rewrite Earp. }
  pose proof (processMessage_fixed env1 msg1 _ st tt st1 eq_refl E1) as Hfix.
  injection Hfix as Hopts _ Hif _ _ _ _ _.
  destruct (processMessage_arp env2 msg2 st1) as (arp' & Hlayer' & E2).
  { unfold dispatchedToARP. rewrite Hopts, Earp, Hlayer2.
    by rewrite bool_decide_eq_true_2 by by eexists. }
  rewrite Hlayer2 in Hlayer'. injection Hlayer' as <-.
  exists st1. eexists. split; [exact E1|]. split; [exact E2|].
  unfold arpEffects, arpReplyStack. simpl.
  rewrite Hop, Z.eqb_refl, Hdst, Htbl, lookup_insert_eq, Hopts, Hif, Hhw.
  rewrite sentPayloads_app, recordedStats_app. simpl.
  by destruct (env_sendPayload env2).
Qed.

(** ** What the loop never does *)

(** X10. With handshake, release, inform and ARP defense all disabled,
    [Run] is a passive listener: whatever it receives, it hands no
    payload to the transmitter. *)
Theorem Run_passive_sends_nothing h inputs st :
  Handshake (options h) = false ->
  DhcpRelease (options h) = false ->
  DhcpInfo (options h) = false ->
  Arp (options h) = false ->
  Run h inputs = Ok (tt, st) ->
  sentPayloads (trace st) = [].
Proof.
  intros Ehs Erel Einfo Earp Hrun.
  pose (P := fun s : RunState =>
    options (hdl s) = options h /\ sentPayloads (trace s) = []).
  assert (HP : P st); [|by destruct HP].
  refine (runLoop_preserves P inputs _ (initRunState h) tt st _ Hrun);
    [|done].
  clear st Hrun. unfold P. intros env msg s [] s' (Ho & Hs) Estep.
  assert (Ho' : options (hdl s') = options h).
  { pose proof (processMessage_fixed env msg _ s tt s' eq_refl Estep)
      as Hfix. injection Hfix as -> _. exact Ho. }
  split; [exact Ho'|].
  destruct (processMessage_outcome env msg s s' Estep)
    as [arp Hd _ _| _ _ ->|offer _ _ E'|ack _ _ E'|nak _ _ ->]; try done.
  - unfold dispatchedToARP in Hd. by rewrite Ho, Earp in Hd.
  - rewrite onOffer_closed, Ho, Ehs in E'. injection E' as <-.
    simpl. by rewrite sentPayloads_app, Hs.
  - rewrite onAckRelease_off in E' by (by rewrite Ho, Erel, Einfo).
    injection E' as <-. rewrite afterLease_trace. simpl.
    destruct (leaseEffects_quiet (hdl s) env ack) as (Hq & _).
    by rewrite !sentPayloads_app, Hs, Hq.
  - simpl. by rewrite sentPayloads_app, Hs.
Qed.

(** X11. A message the loop has no branch for leaves no trace: a frame
    without a DHCP layer that is not handed to the ARP defender, and a
    DHCP reply that is neither OFFER nor ACK and whose first option does
    not start with the NAK code, are dropped without a statistic, a
    payload or any change of state. *)
Theorem unanswered_messages_leave_no_trace env msg st :
  dispatchedToARP (options (hdl st)) msg = false ->
  (Layer_DHCPv4 (msg_Packet msg) = None \/
   exists reply,
     Layer_DHCPv4 (msg_Packet msg) = Some reply /\
     replyClassOf reply = Some ClassOther) ->
  processMessage env msg st = Ok (tt, st).
Proof.
  intros Hd [Hnone|(reply & Hlayer & Hclass)].
  - by apply processMessage_no_reply.
  - rewrite (processMessage_reply env msg st reply ClassOther); [done| |done].
    unfold dhcpReplyOf. by rewrite Hd.
Qed.

End Extras.

(** ** The reply option table and the classification *)

Lemma lastOptionOf_last (code : byte) (pre post : list DHCPOption)
    (o : DHCPOption) :
  opt_Type o = code ->
  Forall (fun p => opt_Type p <> code) post ->
  lastOptionOf code (pre ++ o :: post) = Some o.
Proof.
  intros Ho Hpost. unfold lastOptionOf.
  rewrite filter_app, filter_cons_True by done.
  assert (filter (fun p => opt_Type p = code) post = []) as ->.
  { induction Hpost as [|p post Hp _ IH]; [done|].
    by rewrite filter_cons_False. }
  apply last_snoc.
Qed.

(** X12. The reply option table holds, for each option code, the last
    option of that code in the reply: earlier options of the same code
    are overwritten, options of other codes do not interfere. *)
Theorem reply_option_table_last_wins (pre post : list DHCPOption)
    (o : DHCPOption) :
  Forall (fun p => opt_Type p <> opt_Type o) post ->
  optionAt (replyOptionsOf (pre ++ o :: post)) (opt_Type o) = o.
Proof.
  intros Hpost.
  by rewrite optionAt_replyOptionsOf, (lastOptionOf_last _ pre post o).
Qed.

(** X13. The class of a reply is decided by the first payload byte [t] of
    its last message-type option: OFFER and ACK by that byte alone,
    wherever the option stands; for any other [t] by the first payload
    byte of the reply's first option, which must be the NAK code for the
    reply to count as NAK. So a NAK whose message-type option comes first
    is a NAK, and one whose first option starts with another byte is
    not. *)
Theorem classification_by_message_type (reply : DHCPv4)
    (pre post : list DHCPOption) (o : DHCPOption) (t : byte)
    (rest : list byte) :
  dhcp_Options reply = pre ++ o :: post ->
  opt_Type o = DHCPOptMessageType ->
  Forall (fun p => opt_Type p <> DHCPOptMessageType) post ->
  opt_Data o = t :: rest ->
  (t = DHCPMsgTypeOffer -> replyClassOf reply = Some ClassOffer) /\
  (t = DHCPMsgTypeAck -> replyClassOf reply = Some ClassAck) /\
  (t <> DHCPMsgTypeOffer -> t <> DHCPMsgTypeAck ->
   replyClassOf reply =
   match firstOptionByteOf reply with
   | None => None
   | Some b => if Byte.eqb b DHCPMsgTypeNak then Some ClassNak
               else Some ClassOther
   end) /\
  (t = DHCPMsgTypeNak -> pre = [] -> replyClassOf reply = Some ClassNak).
Proof.
  intros Hopts Htype Hpost Hdata.
  assert (Hmt : replyMsgTypeOf reply = Some t).
  { unfold replyMsgTypeOf.
    rewrite optionAt_replyOptionsOf, Hopts,
      (lastOptionOf_last _ pre post o) by done.
    simpl. by rewrite Hdata. }
  unfold replyClassOf. rewrite Hmt.
  split; [by intros ->|]. split; [by intros ->|].
  assert (Hother :
    t <> DHCPMsgTypeOffer -> t <> DHCPMsgTypeAck ->
    Byte.eqb t DHCPMsgTypeOffer = false /\
    Byte.eqb t DHCPMsgTypeAck = false).
  { intros H1 H2. split.
    - destruct (Byte.eqb t DHCPMsgTypeOffer) eqn:E; [|done].
      by apply Byte.byte_dec_bl in E.
    - destruct (Byte.eqb t DHCPMsgTypeAck) eqn:E; [|done].
      by apply Byte.byte_dec_bl in E. }
  split.
  - intros H1 H2. by destruct (Hother H1 H2) as [-> ->].
  - intros -> ->. unfold firstOptionByteOf. rewrite Hopts. simpl.
    by rewrite Hdata.
Qed.

(** ** Shutdown in full *)

Lemma delLease_closed addrDel lease st :
  delLease addrDel lease st =
  Ok (tt, extend (EAddrDel (lease_LinkAddr lease)
                  :: match addrDel (lease_LinkAddr lease) with
                     | Some err => [EError err]
                     | None => []
                     end) st).
Proof.
  unfold delLease.
  destruct (addrDel (lease_LinkAddr lease)); mexec; unfold extend; simpl;
    by rewrite <- ?app_assoc.
Qed.

Lemma forLeases_delLease_closed addrDel leases :
  forall st,
    exists st',
      forLeases (delLease addrDel) leases st = Ok (tt, st') /\
      hdl st' = hdl st /\
      sentPayloads (trace st') = sentPayloads (trace st) /\
      recordedStats (trace st') = recordedStats (trace st) /\
      addrAdds (trace st') = addrAdds (trace st) /\
      addrDels (trace st') =
        addrDels (trace st) ++ ((fun kv => lease_LinkAddr kv.2) <$> leases) /\
      reportedErrors (trace st') =
        reportedErrors (trace st) ++
        omap (fun kv => addrDel (lease_LinkAddr kv.2)) leases.
Proof.
  induction leases as [|[key lease] rest IH]; intros st.
  - exists st. by rewrite !app_nil_r.
  - simpl forLeases. unfold mbind, M_bind. rewrite delLease_closed.
    destruct (IH (extend (EAddrDel (lease_LinkAddr lease)
                          :: match addrDel (lease_LinkAddr lease) with
                             | Some err => [EError err]
                             | None => []
                             end) st))
      as (st' & E & Hh & Hs & Hst & Ha & Hd & He).
    exists st'. split; [exact E|]. rewrite Hh, Hs, Hst, Ha, Hd, He. simpl.
    rewrite sentPayloads_app, recordedStats_app, addrAdds_app,
      addrDels_app, reportedErrors_app, <- !app_assoc. simpl.
    destruct (addrDel (lease_LinkAddr lease)); simpl;
      by rewrite ?app_nil_r.
Qed.

(** [DeInit] is [DeInitIn] on the table in the order of the model. *)
Lemma DeInit_DeInitIn addrDel st :
  DeInit addrDel st =
  DeInitIn addrDel (map_to_list (acquiredIPs (hdl st))) st.
Proof. reflexivity. Qed.

(** X14. [DeInit], in whatever order its loop visits the lease table.
    With interface binding disabled it calls nothing and changes nothing.
    With binding enabled and every lease of the table holding a binding
    handle, it calls [netlink.AddrDel] once for each lease, with that
    lease's handle and never with nil, and reports exactly the errors
    these calls return, a failing call not keeping it from the next; it
    sends nothing, records no statistic, adds no address and leaves the
    handler, lease table included, as it was. *)
Theorem DeInit_releases_bound_leases addrDel st leases :
  leases ≡ₚ map_to_list (acquiredIPs (hdl st)) ->
  (Bind (options (hdl st)) = false ->
   DeInitIn addrDel leases st = Ok (tt, st)) /\
  (Bind (options (hdl st)) = true ->
   Forall (fun kv => is_Some (lease_LinkAddr kv.2)) leases ->
   exists st',
     DeInitIn addrDel leases st = Ok (tt, st') /\
     hdl st' = hdl st /\
     sentPayloads (trace st') = sentPayloads (trace st) /\
     recordedStats (trace st') = recordedStats (trace st) /\
     addrAdds (trace st') = addrAdds (trace st) /\
     addrDels (trace st') =
       addrDels (trace st) ++ ((fun kv => lease_LinkAddr kv.2) <$> leases) /\
     reportedErrors (trace st') =
       reportedErrors (trace st) ++
       omap (fun kv => addrDel (lease_LinkAddr kv.2)) leases /\
     (None ∉ (fun kv => lease_LinkAddr kv.2) <$> leases) /\
     length leases = size (acquiredIPs (hdl st)) /\
     forall key lease,
       acquiredIPs (hdl st) !! key = Some lease ->
       (key, lease) ∈ leases /\
       exists addr, lease_LinkAddr lease = Some addr).
Proof.
  intros Hperm.
  split; intros HBind; unfold DeInitIn;
    unfold mbind at 1, M_bind at 1, gets at 1; cbv beta iota;
    rewrite HBind; simpl when; [reflexivity|].
  intros Hbound.
  destruct (forLeases_delLease_closed addrDel leases st)
    as (st' & E & Hh & Hs & Hst & Ha & Hd & He).
  exists st'. do 7 (split; [assumption|]).
  split; [|split].
  - intros Hnil.
    apply list_elem_of_fmap in Hnil as ([key lease] & Hnone & Hin).
    rewrite Forall_forall in Hbound. destruct (Hbound _ Hin) as [addr Haddr].
    simpl in *. congruence.
  - by rewrite Hperm, length_map_to_list.
  - intros key lease Hl.
    assert (Hin : (key, lease) ∈ leases)
      by (rewrite Hperm; by apply elem_of_map_to_list).
    split; [exact Hin|]. rewrite Forall_forall in Hbound.
    exact (Hbound _ Hin).
Qed.

(** ** The input queue under a burst *)

Lemma set_inputChannel_same h : set_inputChannel (inputChannel h) h = h.
Proof. by destruct h. Qed.

Lemma ReceiveMessage_open h msg :
  queueState (inputChannel h) ->
  ch_closed (inputChannel h) = false ->
  ReceiveMessage h msg =
  Ok (if bool_decide (Z.of_nat (length (ch_buf (inputChannel h))) < 10000)
      then (set_inputChannel
              {| ch_buf := ch_buf (inputChannel h) ++ [msg];
                 ch_cap := 10000; ch_closed := false |} h, true)
      else (h, false)).
Proof.
  intros Hq Hopen. destruct (queueState_bounded _ Hq) as [Hcap _].
  unfold ReceiveMessage, trySend. rewrite Hopen, Hcap.
  destruct (Z.ltb_spec (Z.of_nat (length (ch_buf (inputChannel h)))) 10000).
  - by rewrite bool_decide_eq_true_2.
  - rewrite bool_decide_eq_false_2 by lia. by rewrite set_inputChannel_same.
Qed.

(** X15. A burst of messages offered to a handler whose queue is open,
    with the loop reading none of them meanwhile: every call returns, the
    queue takes the messages in the order offered until it holds 10000,
    the rest are dropped, and the i-th call returns true exactly when the
    queue held fewer than 10000 messages at that moment. The lease table
    and the options are not touched. *)
Theorem receiveAll_drops_tail msgs :
  forall h,
    queueState (inputChannel h) ->
    ch_closed (inputChannel h) = false ->
    exists h',
      receiveAll h msgs =
        Ok (h', imap (fun i _ =>
                        bool_decide
                          (Z.of_nat (length (ch_buf (inputChannel h)) + i)
                           < 10000))
                     msgs) /\
      ch_buf (inputChannel h') =
        take (Z.to_nat 10000) (ch_buf (inputChannel h) ++ msgs) /\
      ch_closed (inputChannel h') = false /\
      acquiredIPs h' = acquiredIPs h /\
      options h' = options h.
Proof.
  induction msgs as [|msg rest IH]; intros h Hq Hopen.
  - exists h. simpl. rewrite app_nil_r.
    destruct (queueState_bounded _ Hq) as [_ Hlen].
    rewrite take_ge by lia. by repeat split.
  - simpl receiveAll. rewrite ReceiveMessage_open by done.
    destruct (queueState_bounded _ Hq) as [Hcap Hlen].
    case_bool_decide as Hroom.
    + set (h1 := set_inputChannel _ h).
      assert (Hq1 : queueState (inputChannel h1)).
      { apply (queue_send (inputChannel h) msg _ true Hq).
        unfold trySend. rewrite Hopen, Hcap.
        destruct (Z.ltb_spec (Z.of_nat (length (ch_buf (inputChannel h))))
                    10000); [done|lia]. }
      destruct (IH h1 Hq1 eq_refl) as (h' & E & Hbuf & Hopen' & Ht & Ho).
      exists h'. rewrite E. simpl in Hbuf. rewrite <- app_assoc in Hbuf.
      split.
      * do 2 f_equal. simpl. rewrite Nat.add_0_r, bool_decide_eq_true_2 by done.
        f_equal. apply imap_ext. intros i x _. simpl.
        rewrite length_app. simpl.
        apply bool_decide_ext. lia.
      * by repeat split.
    + destruct (IH h Hq Hopen) as (h' & E & Hbuf & Hopen' & Ht & Ho).
      exists h'. rewrite E. split.
      * do 2 f_equal. simpl. rewrite Nat.add_0_r, bool_decide_eq_false_2 by done.
        f_equal. apply imap_ext. intros i x _. simpl.
        apply bool_decide_ext. lia.
      * split; [|done]. rewrite Hbuf.
        rewrite !take_app_le by lia. done.
Qed.

(** ** The handler registry *)

Section RegistryFacts.
Context {Handler : Type}.
Import Registry.

Lemma AddHandler_lookup (s s' : string) (f : @Factory Handler) handlers :
  (AddHandler s f handlers).1 !! s' =
  match handlers !! s' with
  | Some g => Some g
  | None => if decide (s = s') then Some f else None
  end.
Proof.
  unfold AddHandler. destruct (handlers !! s) as [g|] eqn:Es; simpl.
  - destruct (handlers !! s') eqn:Es'; [done|].
    case_decide; [congruence|done].
  - case_decide as E.
    + subst s'. by rewrite Es, lookup_insert_eq.
    + rewrite lookup_insert_ne by done. by destruct (handlers !! s').
Qed.

(** X16. The first registration of a hammer type wins: after any sequence
    of [AddHandler] calls, the factory found under a name is the one the
    table held for it at the start or, failing that, the one of the
    first call that named it; later calls for the name are refused and
    change nothing. *)
Theorem first_registration_wins (regs : list (string * @Factory Handler)) :
  forall handlers s,
    addAll regs handlers !! s =
    match handlers !! s with
    | Some f => Some f
    | None => snd <$> (snd <$> list_find (fun reg => reg.1 = s) regs)
    end.
Proof.
  induction regs as [|[s0 f0] regs IH]; intros handlers s.
  - simpl. by destruct (handlers !! s).
  - change (addAll ((s0, f0) :: regs) handlers)
      with (addAll regs (AddHandler s0 f0 handlers).1).
    rewrite IH, AddHandler_lookup.
    simpl. destruct (handlers !! s) as [g|]; [done|].
    case_decide; simpl; [done|].
    by destruct (list_find _ regs) as [[i reg]|].
Qed.

(** X17. Registering a factory under a name that is free and then asking
    [New] for a configuration of that hammer type calls that factory on
    the socketeer and the configuration given; for configurations of any
    other hammer type [New] answers as before the registration. *)
Theorem AddHandler_then_New (f : @Factory Handler) handlers s o :
  handlers !! HammerType o = None ->
  exists handlers',
    AddHandler (HammerType o) f handlers = (handlers', None) /\
    New handlers' s o = inl (f {| hip_options := o; hip_socketeer := s |}) /\
    New handlers s o =
      inr ("Handlers - Hammer type not found: " +:+ HammerType o) /\
    forall s' o',
      HammerType o' <> HammerType o ->
      New handlers' s' o' = New handlers s' o'.
Proof.
  intros Hfree. unfold AddHandler, New, Factory in *. rewrite !Hfree.
  eexists. split; [reflexivity|]. rewrite lookup_insert_eq.
  simpl. split; [done|]. split; [done|].
  intros s' o' Hne. by rewrite lookup_insert_ne.
Qed.

End RegistryFacts.

(** X18. Once [init] has run on a registry that has no "dhcpv4" entry,
    [New] on a configuration of hammer type "dhcpv4" that is a DHCPv4
    option set builds a DHCPv4 handler with those options, the
    socketeer's interface and gateway addresses, an empty lease table and
    an open, empty input queue of capacity 10000; on a configuration of
    that hammer type that is not a DHCPv4 option set the factory's type
    assertion panics; and a second [init] panics with the "already
    exists" error. *)
Theorem init_then_New handlers s o :
  handlers !! "dhcpv4"%string = None ->
  Registry.HammerType o = "dhcpv4"%string ->
  exists handlers',
    Registry.init handlers = inl handlers' /\
    Registry.New handlers' s o =
      inl (match Registry.dhcpV4Options o with
           | Some opts =>
               Registry.Constructed
                 {| options := opts;
                    GatewayMAC := Registry.Options_GatewayMAC s;
                    iface_HardwareAddr := Registry.IfInfo_HardwareAddr s;
                    acquiredIPs := ∅;
                    inputChannel :=
                      {| ch_buf := []; ch_cap := 10000;
                         ch_closed := false |} |}
           | None => Registry.ConversionPanic
           end) /\
    Registry.init handlers' =
      inr "Handler type already exists: dhcpv4"%string.
Proof.
  intros Hfree Htype.
  unfold Registry.init, Registry.AddHandler, Registry.New.
  rewrite Hfree. eexists. split; [reflexivity|].
  rewrite Htype, !lookup_insert_eq. split; [|reflexivity].
  unfold Registry.NewDhcpV4_factory. simpl.
  by destruct (Registry.dhcpV4Options o).
Qed.

(** ** What [Run] never writes *)

Section Configuration.
Context `{NetLib}.

(** X19. However many messages [Run] has processed, the handler's
    options and addresses, the Ethernet and IP templates and the UDP
    ports are those set up before the loop: the broadcast or gateway
    destination, source 0.0.0.0 and destination 255.255.255.255 (or the
    relay pair), and source port 68 (67 in relay mode). *)
Theorem Run_keeps_configuration h inputs st :
  Run h inputs = Ok (tt, st) ->
  options (hdl st) = options h /\
  GatewayMAC (hdl st) = GatewayMAC h /\
  iface_HardwareAddr (hdl st) = iface_HardwareAddr h /\
  eth_SrcMAC (ethernetLayer st) = iface_HardwareAddr h /\
  eth_DstMAC (ethernetLayer st) =
    (if DhcpRelay (options h) || negb (EthernetBroadcast_opt (options h))
     then GatewayMAC h else EthernetBroadcast) /\
  ip_SrcIP (ipLayer st) =
    (if DhcpRelay (options h) then RelaySourceIP (options h)
     else net_IPv4 x00 x00 x00 x00) /\
  ip_DstIP (ipLayer st) =
    (if DhcpRelay (options h) then RelayTargetServerIP (options h)
     else net_IPv4 xff xff xff xff) /\
  udp_SrcPort (udpLayer st) = (if DhcpRelay (options h) then 67 else 68) /\
  udp_DstPort (udpLayer st) = TargetPort (options h) mod 65536.
Proof.
  intros Hrun. pose proof (Run_fixed h inputs st Hrun) as Hfix.
  injection Hfix as -> -> -> _ -> -> -> ->.
  repeat split. simpl. by destruct (DhcpRelay _), (EthernetBroadcast_opt _).
Qed.

End Configuration.

(** ** Whole runs: survival, accounting, the RELEASE in full *)

Lemma receivedStats_app t1 t2 :
  receivedStats (t1 ++ t2) = receivedStats t1 ++ receivedStats t2.
Proof. apply omap_app. Qed.

Section Runs.
Context `{NetLib}.

(** X20. [Run] gets to the end of its input exactly when no message of
    the input is one that makes an iteration panic: a single reply that
    cannot be classified, or a single ACK without its Ethernet or IPv4
    layer while a RELEASE or INFORM is to be built, keeps every later
    message from being processed. *)
Theorem Run_survives_exactly h inputs :
  (exists st, Run h inputs = Ok (tt, st)) <->
  Forall (fun em => iterationPanic (options h) em.2 = None) inputs.
Proof.
  unfold Run.
  assert (Hgen : forall s,
    options (hdl s) = options h ->
    (exists st, runLoop inputs s = Ok (tt, st)) <->
    Forall (fun em => iterationPanic (options h) em.2 = None) inputs).
  { induction inputs as [|[env msg] rest IH]; intros s Ho.
    - split; [constructor|]. intros _. by exists s.
    - pose proof (processMessage_iterationPanic env msg s) as Hp.
      rewrite Ho in Hp. split.
      + intros [st E]. apply runLoop_cons_inv in E as (s1 & E1 & Erest).
        assert (Ho1 : options (hdl s1) = options h).
        { pose proof (processMessage_fixed env msg _ s tt s1 eq_refl E1)
            as Hfix. injection Hfix as -> _. exact Ho. }
        constructor.
        * simpl. destruct (iterationPanic (options h) msg); [congruence|done].
        * apply (IH s1 Ho1). by exists st.
      + intros Hall. apply Forall_cons in Hall as [Hok Hrest].
        simpl in Hok. rewrite Hok in Hp. destruct Hp as [s1 E1].
        assert (Ho1 : options (hdl s1) = options h).
        { pose proof (processMessage_fixed env msg _ s tt s1 eq_refl E1)
            as Hfix. injection Hfix as -> _. exact Ho. }
        destruct (proj2 (IH s1 Ho1) Hrest) as [st E].
        exists st. by rewrite (runLoop_cons _ _ _ _ _ E1). }
  by apply Hgen.
Qed.

Lemma iteration_receivedStats env msg st st' :
  processMessage env msg st = Ok (tt, st') ->
  receivedStats (trace st') =
  receivedStats (trace st) ++
  option_list (receivedStatOf (options (hdl st)) msg).
Proof.
  intros E. unfold receivedStatOf.
  destruct (processMessage_outcome env msg st st' E)
    as [arp Hd _ ->|Hd Hign ->|offer Hreply Hclass E'|ack Hreply Hclass E'
       |nak Hreply Hclass ->].
  - rewrite Hd. simpl. rewrite (receivedStats_app _ (_ :: _)). simpl.
    do 2 f_equal. unfold arpEffects.
    destruct (_ =? _); [|done]. destruct (_ !! _); [|done].
    by destruct (env_sendPayload env).
  - rewrite Hd. destruct Hign as [->|(reply & -> & ->)];
      by rewrite app_nil_r.
  - unfold dhcpReplyOf in Hreply.
    destruct (dispatchedToARP _ _); [done|]. rewrite Hreply, Hclass.
    rewrite onOffer_closed in E'. injection E' as <-.
    destruct (Handshake _); simpl; rewrite (receivedStats_app _ (_ :: _));
      simpl; [|done].
    destruct (env_sendPayload env); [|done]. by destruct (DhcpDecline _).
  - unfold dhcpReplyOf in Hreply.
    destruct (dispatchedToARP _ _); [done|]. rewrite Hreply, Hclass.
    assert (Hq : receivedStats (leaseEffects (hdl st) env ack) = []).
    { unfold leaseEffects, bindOutcome.
      destruct (createsLease _ _); [|done]. destruct (Bind _); [|done].
      destruct (ParseAddr _); [|done]. by destruct (env_AddrAdd env). }
    apply onAckRelease_returns in E'
      as [[_ ->]|(_ & eth & iph & _ & _ & _ & _ & _ & _ & _ & ->)];
      rewrite afterLease_trace; simpl;
      rewrite !receivedStats_app, Hq; simpl; rewrite ?app_nil_r; [done|].
    destruct (env_sendPayload env); simpl; [|by rewrite app_nil_r].
    destruct (DhcpInfo _); simpl; by rewrite app_nil_r.
  - unfold dhcpReplyOf in Hreply.
    destruct (dispatchedToARP _ _); [done|]. rewrite Hreply, Hclass.
    simpl. by rewrite receivedStats_app.
Qed.

(** X21. The received-statistics of a run are one per message that has a
    branch, in the order of arrival: ARP-request-received for each
    message handed to the ARP defender, and OFFER-, ACK- or NAK-received
    for each DHCP reply according to its class; no other message
    counts. *)
Theorem Run_received_statistics h inputs st :
  Run h inputs = Ok (tt, st) ->
  receivedStats (trace st) =
  omap (fun em => receivedStatOf (options h) em.2) inputs.
Proof.
  unfold Run.
  assert (Hgen : forall s st,
    options (hdl s) = options h ->
    runLoop inputs s = Ok (tt, st) ->
    receivedStats (trace st) =
    receivedStats (trace s) ++
    omap (fun em => receivedStatOf (options h) em.2) inputs).
  { induction inputs as [|[env msg] rest IH]; intros s st0 Ho E.
    - injection E as <-. by rewrite app_nil_r.
    - apply runLoop_cons_inv in E as (s1 & E1 & Erest).
      assert (Ho1 : options (hdl s1) = options h).
      { pose proof (processMessage_fixed env msg _ s tt s1 eq_refl E1)
          as Hfix. injection Hfix as -> _. exact Ho. }
      rewrite (IH s1 st0 Ho1 Erest), (iteration_receivedStats _ _ _ _ E1), Ho.
      rewrite <- app_assoc. f_equal. simpl.
      by destruct (receivedStatOf (options h) msg). }
  intros E. by rewrite (Hgen (initRunState h) st eq_refl E).
Qed.

(** X22. Whatever messages [Run] has processed, the RELEASE or INFORM it
    sends for the next ACK is this packet: Ethernet from the interface to
    the hardware address the ACK came from, IP from the acquired address
    to the source of the ACK's IP header, the UDP ports of the templates
    (source 68, or 67 in relay mode), and a DHCP layer with flags zero,
    the acquired address as client IP, the relay gateway as relay agent
    in relay mode, and the transaction ID and client hardware address of
    the ACK. *)
Theorem Run_release_packet h inputs st env msg ack eth iph :
  Run h inputs = Ok (tt, st) ->
  dhcpReplyOf (options h) msg = Some ack ->
  replyClassOf ack = Some ClassAck ->
  DhcpRelease (options h) || DhcpInfo (options h) = true ->
  Layer_Ethernet (msg_Packet msg) = Some eth ->
  Layer_IPv4 (msg_Packet msg) = Some iph ->
  exists st',
    processMessage env msg st = Ok (tt, st') /\
    sentPayloads (trace st') =
      sentPayloads (trace st) ++
      [[LEthernet {| eth_DstMAC := eth_SrcMAC eth;
                     eth_SrcMAC := iface_HardwareAddr h;
                     eth_EthernetType := EthernetTypeIPv4;
                     eth_Length := 0 |};
        LIPv4 {| ip_Version := 4; ip_TTL := 64; ip_Protocol := 17;
                 ip_SrcIP := dhcp_YourClientIP ack;
                 ip_DstIP := ip_SrcIP iph |};
        LUDP {| udp_SrcPort := if DhcpRelay (options h) then 67 else 68;
                udp_DstPort := TargetPort (options h) mod 65536;
                udp_pseudoheader := Some (init_ipLayer h) |};
        LDHCPv4
          {| dhcp_Operation := DHCPOpRequest;
             dhcp_HardwareType := LinkTypeEthernet;
             dhcp_HardwareLen := 6;
             dhcp_Xid := dhcp_Xid ack;
             dhcp_Flags := 0;
             dhcp_ClientIP := dhcp_YourClientIP ack;
             dhcp_YourClientIP := [];
             dhcp_NextServerIP := [];
             dhcp_RelayAgentIP :=
               if DhcpRelay (options h) then RelayGatewayIP (options h)
               else [];
             dhcp_ClientHWAddr := dhcp_ClientHWAddr ack;
             dhcp_Options :=
               [NewDHCPOption DHCPOptMessageType
                  [if DhcpInfo (options h) then DHCPMsgTypeInform
                   else DHCPMsgTypeRelease];
                NewDHCPOption DHCPOptEnd []] |}]] /\
    recordedStats (trace st') =
      recordedStats (trace st) ++
      AckReceivedStat
      :: (if env_sendPayload env
          then [if DhcpInfo (options h) then InfoSentStat
                else ReleaseSentStat]
          else []).
Proof.
  intros Hrun Hreply Hclass Emode Eeth Eip.
  pose proof (Run_fixed h inputs st Hrun) as Hfix.
  pose proof (runLoop_preserves _ inputs
                (fun env msg => processMessage_template env msg _)
                (initRunState h) tt st eq_refl Hrun) as Htpl.
  injection Hfix as Hopts _ Hif _ _ Hip Hsp Hdp.
  injection Htpl as _ _ Hop Hht Hhl Hy Hn Hr.
  destruct (ack_release_iteration env msg st ack eth iph)
    as (st' & E & _ & _ & _ & _ & Hsent & Hstats);
    try (rewrite Hopts); try done.
  exists st'. split; [exact E|].
  rewrite Hsent, Hstats, Hopts. split; [|done].
  unfold releaseStack. by rewrite Hopts, Hif, Hip, Hsp, Hdp, Hop, Hht, Hhl,
    Hy, Hn, Hr.
Qed.

End Runs.

(** * More concrete runs *)

(** An ACK in release mode: one payload, one sent-statistic. *)
Lemma iteration_at_most_one_payload_witness :
  exists st' new,
    processMessage (H := GoNet.lib) (env 1000 None) (frame ack5)
      (initRunState (handler releaseOptions)) = Ok (tt, st') /\
    trace st' = new /\
    length (sentPayloads new) = 1%nat /\
    length (sentStats new) = 1%nat.
Proof.
  assert (E : processMessage (H := GoNet.lib) (env 1000 None) (frame ack5)
                (initRunState (handler releaseOptions))
              = Ok (tt, stateAfter releaseOptions
                          [(env 1000 None, frame ack5)]))
    by (vm_compute; reflexivity).
  destruct (iteration_at_most_one_payload (H := GoNet.lib) _ _ _ _ E)
    as (new & Htrace & Hlen & Hstats).
  eexists _, _. split; [exact E|]. split; [reflexivity|].
  split; vm_compute; reflexivity.
Defined.

(** An OFFER after the traffic: the DECLINE/REQUEST is the broadcast
    packet of a fresh run. *)
Lemma Run_request_packet_witness :
  exists st' eth ip udp out,
    Run (H := GoNet.lib) (handler busyOptions) traffic
      = Ok (tt, afterTraffic) /\
    processMessage (H := GoNet.lib) (env 600 None) (frame offer5) afterTraffic
      = Ok (tt, st') /\
    sentPayloads (trace st') =
      sentPayloads (trace afterTraffic) ++
      [[LEthernet eth; LIPv4 ip; LUDP udp; LDHCPv4 out]] /\
    eth_DstMAC eth = EthernetBroadcast /\
    ip_DstIP ip = net_IPv4 xff xff xff xff /\
    udp_SrcPort udp = 68 /\
    dhcp_Flags out = 0x8000 /\
    dhcp_ClientIP out = [] /\
    dhcp_Xid out = 0x1234.
Proof.
  assert (Hrun : Run (H := GoNet.lib) (handler busyOptions) traffic
                 = Ok (tt, afterTraffic)) by (vm_compute; reflexivity).
  destruct (Run_request_packet (H := GoNet.lib) (handler busyOptions) traffic
              afterTraffic (env 600 None) (frame offer5) offer5 Hrun
              eq_refl eq_refl eq_refl)
    as (st' & E & Hsent).
  eexists st', _, _, _, _. split; [exact Hrun|]. split; [exact E|].
  split; [exact Hsent|]. by repeat split.
Defined.

(** The lease for 10.0.0.5 survives the rest of the traffic, a second ACK
    for the address included. *)
Lemma leases_never_change_witness :
  exists st' lease,
    runLoop (H := GoNet.lib)
      [(env 300 None, arpWhoHas5); (env 400 None, frame ack5again)]
      afterAckArp = Ok (tt, st') /\
    acquiredIPs (hdl afterAckArp) !! "10.0.0.5"%string = Some lease /\
    acquiredIPs (hdl st') !! "10.0.0.5"%string = Some lease /\
    lease_HwAddr lease = clientMAC.
Proof.
  assert (E : runLoop (H := GoNet.lib)
                [(env 300 None, arpWhoHas5); (env 400 None, frame ack5again)]
                afterAckArp
              = Ok (tt, match runLoop (H := GoNet.lib)
                          [(env 300 None, arpWhoHas5);
                           (env 400 None, frame ack5again)] afterAckArp with
                        | Ok (_, s) => s
                        | Panic _ => afterAckArp
                        end))
    by (vm_compute; reflexivity).
  assert (Hl : acquiredIPs (hdl afterAckArp) !! "10.0.0.5"%string
               = Some {| lease_Packet := msg_Packet (frame ack5);
                         lease_LinkAddr := None; lease_Acquired := 500;
                         lease_HwAddr := clientMAC |})
    by (vm_compute; reflexivity).
  pose proof (leases_never_change (H := GoNet.lib) _ _ _ _ _ E Hl) as Hl'.
  eexists _, _. split; [exact E|]. split; [exact Hl|]. split; [exact Hl'|].
  reflexivity.
Defined.

(** ARP mode without binding: leases, but no netlink call and no error. *)
Lemma Run_without_bind_witness :
  Run (H := GoNet.lib) (handler arpOptions) [(env 500 None, frame ack5)]
    = Ok (tt, afterAckArp) /\
  addrAdds (trace afterAckArp) = [] /\
  reportedErrors (trace afterAckArp) = [] /\
  forall lease,
    acquiredIPs (hdl afterAckArp) !! "10.0.0.5"%string = Some lease ->
    lease_LinkAddr lease = None.
Proof.
  assert (Hrun : Run (H := GoNet.lib) (handler arpOptions)
                   [(env 500 None, frame ack5)] = Ok (tt, afterAckArp))
    by (vm_compute; reflexivity).
  destruct (Run_without_bind (H := GoNet.lib) (handler arpOptions)
              [(env 500 None, frame ack5)] afterAckArp eq_refl Hrun)
    as (Ha & He & Hl).
  repeat split; try assumption.
  intros lease Hlease. destruct (Hl _ _ Hlease) as [Hinit|Hnone];
    [|exact Hnone].
  vm_compute in Hinit. discriminate Hinit.
Defined.

(** Neither ARP nor binding: the table stays empty under ACKs. *)
Lemma Run_without_lease_modes_witness :
  exists st,
    Run (H := GoNet.lib) (handler releaseOptions)
      [(env 500 None, frame ack5); (env 600 None, frame ack9)] = Ok (tt, st) /\
    acquiredIPs (hdl st) = ∅.
Proof.
  assert (Hrun : Run (H := GoNet.lib) (handler releaseOptions)
                   [(env 500 None, frame ack5); (env 600 None, frame ack9)]
                 = Ok (tt, stateAfter releaseOptions
                             [(env 500 None, frame ack5);
                              (env 600 None, frame ack9)]))
    by (vm_compute; reflexivity).
  eexists. split; [exact Hrun|].
  exact (Run_without_lease_modes (H := GoNet.lib) (handler releaseOptions) _ _
           eq_refl eq_refl Hrun).
Defined.

(** The lease for 10.0.0.9 after the traffic comes from the ACK processed
    at time 500. *)
Lemma lease_provenance_witness :
  exists lease env0 msg ack,
    acquiredIPs (hdl afterTraffic) !! "10.0.0.9"%string = Some lease /\
    (env0, msg) ∈ traffic /\
    Layer_DHCPv4 (msg_Packet msg) = Some ack /\
    IP_String (NetLib := GoNet.lib) (dhcp_YourClientIP ack)
      = "10.0.0.9"%string /\
    lease_HwAddr lease = dhcp_ClientHWAddr ack /\
    lease_Acquired lease = env_now env0.
Proof.
  assert (Hrun : runLoop (H := GoNet.lib) traffic
                   (initRunState (handler busyOptions))
                 = Ok (tt, afterTraffic)) by (vm_compute; reflexivity).
  assert (Hl : acquiredIPs (hdl afterTraffic) !! "10.0.0.9"%string
               = Some {| lease_Packet := msg_Packet (frame ack9);
                         lease_LinkAddr := None; lease_Acquired := 500;
                         lease_HwAddr := otherMAC |})
    by (vm_compute; reflexivity).
  destruct (lease_provenance (H := GoNet.lib) traffic _ _ _ _ Hrun Hl)
    as [Hinit|(env0 & msg & ack & Hin & Hlayer & _ & Hkey & _ & Hhw & Hacq)].
  { vm_compute in Hinit. discriminate Hinit. }
  eexists _, env0, msg, ack. split; [exact Hl|].
  repeat split; try assumption. by symmetry.
Defined.

(** After the traffic: 10.0.0.5 is bound with the handle parsed from
    "10.0.0.5/32"; two leases, two AddrAdd calls. *)
Lemma Run_bound_leases_witness :
  exists lease,
    acquiredIPs (hdl afterTraffic) !! "10.0.0.5"%string = Some lease /\
    lease_LinkAddr lease = Some addr_10_0_0_5 /\
    ParseAddr (NetLib := GoNet.lib) "10.0.0.5/32" = inl addr_10_0_0_5 /\
    addr_10_0_0_5 ∈ addrAdds (trace afterTraffic) /\
    (length (addrAdds (trace afterTraffic))
     <= size (acquiredIPs (hdl afterTraffic)))%nat.
Proof.
  assert (Hrun : Run (H := GoNet.lib) (handler busyOptions) traffic
                 = Ok (tt, afterTraffic)) by (vm_compute; reflexivity).
  destruct (Run_bound_leases (H := GoNet.lib) (handler busyOptions) traffic
              afterTraffic eq_refl Hrun) as [Hb Hn].
  assert (Hl : acquiredIPs (hdl afterTraffic) !! "10.0.0.5"%string
               = Some {| lease_Packet := msg_Packet (frame ack5);
                         lease_LinkAddr := Some addr_10_0_0_5;
                         lease_Acquired := 200;
                         lease_HwAddr := clientMAC |})
    by (vm_compute; reflexivity).
  destruct (Hb _ _ _ Hl eq_refl) as (_ & Hparse & Hin).
  eexists. split; [exact Hl|]. repeat split; assumption.
Defined.

(** ACK for 10.0.0.5, then "who has 10.0.0.5": defended from the
    interface's address (fake-MAC mode is off). *)
Lemma ack_then_arp_defended_witness :
  exists st1 st2 eth reply,
    processMessage (H := GoNet.lib) (env 500 None) (frame ack5)
      (initRunState (handler arpOptions)) = Ok (tt, st1) /\
    processMessage (H := GoNet.lib) (env 600 None) arpWhoHas5 st1
      = Ok (tt, st2) /\
    sentPayloads (trace st2) =
      sentPayloads (trace st1) ++ [[LEthernet eth; LARP reply]] /\
    eth_DstMAC eth = serverMAC /\
    arp_Operation reply = ARPReply /\
    arp_SourceHwAddress reply = ifaceMAC /\
    arp_SourceProtAddress reply = ip_10_0_0_5 /\
    arp_DstProtAddress reply = ip_10_0_0_1.
Proof.
  assert (Hack : ackFor arpOptions ip_10_0_0_5 (frame ack5)).
  { exists ack5. repeat split; try done; by eexists. }
  destruct (ack_then_arp_defended (H := GoNet.lib) (env 500 None) (frame ack5)
              ack5 (env 600 None) arpWhoHas5 _
              (initRunState (handler arpOptions)) ip_10_0_0_5
              eq_refl eq_refl Hack eq_refl eq_refl eq_refl eq_refl)
    as (st1 & st2 & E1 & E2 & Hsent & _).
  eexists st1, st2, _, _. split; [exact E1|]. split; [exact E2|].
  split; [exact Hsent|]. by repeat split.
Defined.

(** The traffic with only binding enabled: nothing is sent. *)
Lemma Run_passive_sends_nothing_witness :
  Run (H := GoNet.lib) (handler passiveOptions) traffic
    = Ok (tt, afterPassiveTraffic) /\
  sentPayloads (trace afterPassiveTraffic) = [].
Proof.
  assert (Hrun : Run (H := GoNet.lib) (handler passiveOptions) traffic
                 = Ok (tt, afterPassiveTraffic)) by (vm_compute; reflexivity).
  split; [exact Hrun|].
  exact (Run_passive_sends_nothing (H := GoNet.lib) (handler passiveOptions)
           traffic afterPassiveTraffic eq_refl eq_refl eq_refl eq_refl Hrun).
Defined.

(** A DISCOVER seen on the wire, and a NAK behind the server identifier,
    leave the state after the traffic as it is. *)
Lemma unanswered_messages_leave_no_trace_witness :
  processMessage (H := GoNet.lib) (env 600 None) (frame discover5) afterTraffic
    = Ok (tt, afterTraffic) /\
  processMessage (H := GoNet.lib) (env 600 None) (frame nakSecond)
    afterTraffic = Ok (tt, afterTraffic).
Proof.
  split.
  - apply (unanswered_messages_leave_no_trace (H := GoNet.lib));
      [reflexivity|]. right. exists discover5. split; reflexivity.
  - apply (unanswered_messages_leave_no_trace (H := GoNet.lib));
      [reflexivity|]. right. exists nakSecond. split; reflexivity.
Defined.

(** ACK first, OFFER last: the table holds OFFER. *)
Lemma reply_option_table_last_wins_witness :
  optionAt (replyOptionsOf (dhcp_Options offerLast)) DHCPOptMessageType
  = NewDHCPOption DHCPOptMessageType [DHCPMsgTypeOffer].
Proof.
  apply (reply_option_table_last_wins
           [NewDHCPOption DHCPOptMessageType [DHCPMsgTypeAck]]
           [NewDHCPOption DHCPOptServerID ip_10_0_0_1]
           (NewDHCPOption DHCPOptMessageType [DHCPMsgTypeOffer])).
  repeat constructor. discriminate.
Defined.

(** ACK first, OFFER last is an OFFER; a NAK whose message-type option
    comes first is a NAK. *)
Lemma classification_by_message_type_witness :
  replyClassOf offerLast = Some ClassOffer /\
  replyClassOf nak5 = Some ClassNak.
Proof.
  split.
  - apply (classification_by_message_type offerLast
             [NewDHCPOption DHCPOptMessageType [DHCPMsgTypeAck]]
             [NewDHCPOption DHCPOptServerID ip_10_0_0_1]
             (NewDHCPOption DHCPOptMessageType [DHCPMsgTypeOffer])
             DHCPMsgTypeOffer []); try reflexivity.
    repeat constructor. discriminate.
  - apply (classification_by_message_type nak5 []
             [NewDHCPOption DHCPOptServerID ip_10_0_0_1]
             (NewDHCPOption DHCPOptMessageType [DHCPMsgTypeNak])
             DHCPMsgTypeNak []); try reflexivity.
    repeat constructor. discriminate.
Defined.

(** Two messages offered to a new handler are queued in that order. *)
Lemma receiveAll_drops_tail_witness :
  exists h',
    receiveAll (handler declineOptions) [frame offer5; frame ack5]
      = Ok (h', [true; true]) /\
    ch_buf (inputChannel h') = [frame offer5; frame ack5].
Proof.
  destruct (receiveAll_drops_tail [frame offer5; frame ack5]
              (handler declineOptions) queue_new eq_refl)
    as (h' & E & Hbuf & _).
  exists h'. split; [exact E|]. rewrite Hbuf. vm_compute. reflexivity.
Defined.

(** Registering the DHCPv4 factory in an empty registry. *)
Lemma AddHandler_then_New_witness :
  exists handlers',
    Registry.AddHandler "dhcpv4" Registry.NewDhcpV4_factory ∅
      = (handlers', None) /\
    Registry.New handlers' socketeer dhcpConfig
      = inl (Registry.Constructed (handler declineOptions)).
Proof.
  destruct (AddHandler_then_New Registry.NewDhcpV4_factory ∅ socketeer
              dhcpConfig (lookup_empty _))
    as (handlers' & Eadd & Enew & _).
  exists handlers'. split; [exact Eadd|exact Enew].
Defined.

(** [init] on the empty registry. *)
Lemma init_then_New_witness :
  exists handlers',
    Registry.init ∅ = inl handlers' /\
    Registry.New handlers' socketeer dhcpConfig
      = inl (Registry.Constructed (handler declineOptions)) /\
    Registry.init handlers'
      = inr "Handler type already exists: dhcpv4"%string.
Proof.
  destruct (init_then_New ∅ socketeer dhcpConfig (lookup_empty _) eq_refl)
    as (handlers' & Einit & Enew & Eagain).
  exists handlers'. split; [exact Einit|]. split; [exact Enew|exact Eagain].
Defined.

(** After the traffic the templates are those of a broadcast setup. *)
Lemma Run_keeps_configuration_witness :
  options (hdl afterTraffic) = busyOptions /\
  eth_DstMAC (ethernetLayer afterTraffic) = EthernetBroadcast /\
  ip_SrcIP (ipLayer afterTraffic) = net_IPv4 x00 x00 x00 x00 /\
  ip_DstIP (ipLayer afterTraffic) = net_IPv4 xff xff xff xff /\
  udp_SrcPort (udpLayer afterTraffic) = 68 /\
  udp_DstPort (udpLayer afterTraffic) = 67.
Proof.
  assert (Hrun : Run (H := GoNet.lib) (handler busyOptions) traffic
                 = Ok (tt, afterTraffic)) by (vm_compute; reflexivity).
  destruct (Run_keeps_configuration (H := GoNet.lib) (handler busyOptions)
              traffic afterTraffic Hrun)
    as (Ho & _ & _ & _ & Hdst & Hsrc & Hipd & Hsp & Hdp).
  repeat split; assumption.
Defined.

(** The received-statistics of the traffic. *)
Lemma Run_received_statistics_witness :
  receivedStats (trace afterTraffic) =
  [OfferReceivedStat; AckReceivedStat; ArpRequestReceivedStat;
   NakReceivedStat; AckReceivedStat].
Proof.
  assert (Hrun : Run (H := GoNet.lib) (handler busyOptions) traffic
                 = Ok (tt, afterTraffic)) by (vm_compute; reflexivity).
  rewrite (Run_received_statistics (H := GoNet.lib) (handler busyOptions)
             traffic afterTraffic Hrun).
  vm_compute. reflexivity.
Defined.

(** A second ACK for 10.0.0.5 after the traffic: the RELEASE goes from
    10.0.0.5 to 10.0.0.1. *)
Lemma Run_release_packet_witness :
  exists st' eth ip udp out,
    processMessage (H := GoNet.lib) (env 600 None) (frame ack5again)
      afterTraffic = Ok (tt, st') /\
    sentPayloads (trace st') =
      sentPayloads (trace afterTraffic) ++
      [[LEthernet eth; LIPv4 ip; LUDP udp; LDHCPv4 out]] /\
    eth_DstMAC eth = serverMAC /\
    ip_SrcIP ip = ip_10_0_0_5 /\
    ip_DstIP ip = ip_10_0_0_1 /\
    udp_SrcPort udp = 68 /\
    dhcp_Flags out = 0 /\
    dhcp_ClientIP out = ip_10_0_0_5 /\
    dhcp_Xid out = 0x5678.
Proof.
  assert (Hrun : Run (H := GoNet.lib) (handler busyOptions) traffic
                 = Ok (tt, afterTraffic)) by (vm_compute; reflexivity).
  destruct (Run_release_packet (H := GoNet.lib) (handler busyOptions) traffic
              afterTraffic (env 600 None) (frame ack5again) ack5again
              serverEthernet serverIPv4 Hrun eq_refl eq_refl eq_refl eq_refl
              eq_refl)
    as (st' & E & Hsent & _).
  eexists st', _, _, _, _. split; [exact E|]. split; [exact Hsent|].
  by repeat split.
Defined.

(** The table with 10.0.0.5 and 10.0.0.9 bound, visited in the reverse
    of the model's order, and [netlink.AddrDel] failing for 10.0.0.5:
    two calls, one error reported, and with binding disabled none. *)
Lemma DeInit_releases_bound_leases_witness :
  (exists st',
     DeInitIn addrDelBusy
       (reverse (map_to_list (acquiredIPs (hdl afterTwoAcks)))) afterTwoAcks
       = Ok (tt, st') /\
     length (addrDels (trace st')) = 2%nat /\
     Some addr_10_0_0_5 ∈ addrDels (trace st') /\
     reportedErrors (trace st')
       = ["cannot assign requested address"%string]) /\
  DeInitIn addrDelBusy (map_to_list (acquiredIPs (hdl afterAckArp)))
    afterAckArp = Ok (tt, afterAckArp).
Proof.
  split.
  - destruct (DeInit_releases_bound_leases addrDelBusy afterTwoAcks
                (reverse (map_to_list (acquiredIPs (hdl afterTwoAcks))))
                (reverse_Permutation _)) as [_ Hon].
    destruct Hon as (st' & E & _ & _ & _ & _ & Hd & He & _).
    + reflexivity.
    + vm_compute. repeat constructor; by eexists.
    + exists st'. split; [exact E|]. rewrite Hd, He.
      split; [vm_compute; reflexivity|]. split; [|vm_compute; reflexivity].
      vm_compute. repeat constructor.
  - destruct (DeInit_releases_bound_leases addrDelBusy afterAckArp
                (map_to_list (acquiredIPs (hdl afterAckArp)))
                (reflexivity _)) as [Hoff _].
    exact (Hoff eq_refl).
Defined.
